(** * Code::Blocks application bootstrap (src/app.cpp): a shallow embedding

    The development follows [app.cpp]: the wxString operations the file
    relies on, the DDE/IPC message exchanged between two instances, the
    command-line driven members of [CodeBlocksApp] (ParseCmdLine,
    LoadDelayedFiles, AttachDebugger, LoadConfig, OnBatchBuildDone, OnRun,
    OnExit) and the start-up sequence [OnInit] with its try/catch block.

    Strings are [string]; the C++ [int]/[long] values are [Z]; the calls into
    wxWidgets and into the SDK managers appear as events of a trace, and what
    they return comes from a [World] record of oracles. *)

From stdpp Require Import base tactics option list sorting strings pretty gmap.
From Stdlib Require Import ZArith Ascii String Lia.

Local Open Scope Z_scope.
Local Open Scope nat_scope.
Local Open Scope stdpp_scope.

(** ** wxString / std::basic_string operations used by app.cpp *)

Module wx.

(** [s.StartsWith(p)] *)
Fixpoint StartsWith (p s : string) : bool :=
  match p, s with
  | EmptyString, _ => true
  | String a p', String b s' => if Ascii.eqb a b then StartsWith p' s' else false
  | String _ _, EmptyString => false
  end.

(** the first [n] characters of [s] (all of it when it is shorter) *)
Fixpoint take_s (n : nat) (s : string) : string :=
  match n, s with
  | S n', String c s' => String c (take_s n' s')
  | _, _ => EmptyString
  end.

(** [s] without its first [n] characters *)
Fixpoint drop_s (n : nat) (s : string) : string :=
  match n, s with
  | S n', String _ s' => drop_s n' s'
  | _, _ => s
  end.

(** [s.substr(pos, len)]; every call in app.cpp has [pos <= s.size()], where
    the standard clamps [len] to the characters available. *)
Definition substr (pos len : nat) (s : string) : string :=
  take_s len (drop_s pos s).

(** [s.substr(pos)] and [s.Mid(pos, npos)] *)
Definition substr_from (pos : nat) (s : string) : string := drop_s pos s.

(** [s.Remove(pos)]: truncates to the first [pos] characters *)
Definition Remove (pos : nat) (s : string) : string := take_s pos s.

(** the first occurrence of [needle] in [s]; [None] is [npos] *)
Fixpoint find0 (needle s : string) {struct s} : option nat :=
  if StartsWith needle s then Some 0
  else match s with
       | EmptyString => None
       | String _ s' => S <$> find0 needle s'
       end.

(** [s.find(needle, pos)] *)
Definition find (needle : string) (pos : nat) (s : string) : option nat :=
  if decide (pos ≤ String.length s)
  then (λ i, pos + i) <$> find0 needle (drop_s pos s)
  else None.

(** [s.find(ch)] *)
Fixpoint find_char (ch : ascii) (s : string) : option nat :=
  match s with
  | EmptyString => None
  | String c s' => if Ascii.eqb c ch then Some 0 else S <$> find_char ch s'
  end.

(** [s.Find(ch, true)]: the last occurrence; [None] is [wxNOT_FOUND] *)
Fixpoint Find_fromEnd (ch : ascii) (s : string) : option nat :=
  match s with
  | EmptyString => None
  | String c s' =>
      match Find_fromEnd ch s' with
      | Some i => Some (S i)
      | None => if Ascii.eqb c ch then Some 0 else None
      end
  end.

(** [s.Replace(old, new)] with the default [replaceAll = true]: the
    occurrences of [old] are searched from left to right in the original
    string, each search resuming after the previous occurrence, and the
    replacement text is never searched again.  [skip] counts the characters
    of the occurrence being replaced that are still to be passed over. *)
Fixpoint Replace_from (old new : string) (skip : nat) (s : string) : string :=
  match s with
  | EmptyString => EmptyString
  | String c s' =>
      match skip with
      | S k => Replace_from old new k s'
      | O =>
          if StartsWith old s
          then new +:+ Replace_from old new (String.length old - 1) s'
          else String c (Replace_from old new 0 s')
      end
  end.

(** wxString::Replace refuses an empty [old] and leaves the string alone. *)
Definition Replace (old new s : string) : string :=
  match old with
  | EmptyString => s
  | _ => Replace_from old new 0 s
  end.

Definition IsEmpty (s : string) : bool :=
  match s with EmptyString => true | _ => false end.

End wx.

(** ** The [CmdLine] message of the DDE/IPC protocol *)

Module DDE.

(** OnInit, sender side: [cmdLine += wxString(argv[i]) + ' '] for
    [i = 1 .. argc-1]. *)
Fixpoint join_args (args : list string) : string :=
  match args with
  | [] => EmptyString
  | a :: rest => (a +:+ " ") +:+ join_args rest
  end.

Definition forwarded_cmdLine (argv : list string) : string :=
  join_args (tail argv).

(** [cmdLine.Replace("(", "\\("); cmdLine.Replace(")", "\\)");] *)
Definition escape_parens (cmdLine : string) : string :=
  wx.Replace ")" "\)" (wx.Replace "(" "\(" cmdLine).

(** The text handed to [connection->Execute], from an escaped command line
    and [wxGetCwd()], which is inserted as it is. *)
Definition CmdLine_message (escaped cwd : string) : string :=
  "[CmdLine({" +:+ escaped +:+ "})CWD({" +:+ cwd +:+ "})]".

(** [x.Replace("\\)", ")"); x.Replace("\\(", "(");] of the receiver *)
Definition unescape_parens (x : string) : string :=
  wx.Replace "\(" "(" (wx.Replace "\)" ")" x).

Definition coundCmdLind : nat := 10.  (* cbCountOf("[CmdLine({") - 1 *)
Definition countCWD : nat := 7.       (* cbCountOf("})CWD({") - 1 *)

(** DDEConnection::OnExecute, the branch taken when the data starts with
    "[CmdLine({": the pair (cmdLine, cwd) it computes before it tests them
    for emptiness and calls ParseCmdLine. *)
Definition OnExecute_CmdLine (strData : string) : string * string :=
  match wx.find "})CWD({" 0 strData with
  | Some posCwd =>
      let cmdLine :=
        unescape_parens (wx.substr coundCmdLind (posCwd - coundCmdLind) strData) in
      let cwd :=
        match wx.find "})]" (posCwd + countCWD) strData with
        | Some posEnd =>
            unescape_parens
              (wx.substr (posCwd + countCWD) (posEnd - (posCwd + countCWD)) strData)
        | None => EmptyString
        end in
      (cmdLine, cwd)
  | None => (EmptyString, EmptyString)
  end.

(** Escaping written character by character; [escape_parens] is shown to
    compute [esc], and its first [Replace] to compute [esc_open]. *)
Fixpoint esc_open (s : string) : string :=
  match s with
  | EmptyString => EmptyString
  | String c r =>
      if Ascii.eqb c "(" then String "\" (String "(" (esc_open r))
      else String c (esc_open r)
  end.

Fixpoint esc (s : string) : string :=
  match s with
  | EmptyString => EmptyString
  | String c r =>
      if Ascii.eqb c "(" then String "\" (String "(" (esc r))
      else if Ascii.eqb c ")" then String "\" (String ")" (esc r))
      else String c (esc r)
  end.

(** Which branch of OnExecute a message takes is decided by its prefix. *)
Definition is_CmdLine_message (strData : string) : bool :=
  wx.StartsWith "[CmdLine({" strData.

End DDE.

(** ** The application object and its environment *)

(** What [FileTypeOf] (globals.h) says about a name; [ftOther] stands for
    every value that is neither a project nor a workspace. *)
Inductive FileType := ftCodeBlocksProject | ftCodeBlocksWorkspace | ftOther.

Inductive Platform := windows | macosx | other_platform.

(** The three kinds of exception OnInit and OnRun have handlers for. *)
Inductive exn :=
| cbException (msg : string)
| CStringException (message : string)
| UnknownException.

(** What [wxCmdLineParser] found for the entries of [cmdLineDesc]. *)
Record CmdLine := {
  sw_safe_mode : bool;
  sw_no_check_associations : bool;
  sw_no_dde : bool;                    (* --no-dde on MSW, --no-ipc elsewhere *)
  sw_no_splash_screen : bool;
  sw_multiple_instance : bool;
  sw_debug_log : bool;
  sw_no_crash_handler : bool;
  sw_verbose : bool;
  sw_no_log : bool;
  sw_log_to_file : bool;
  sw_debug_log_to_file : bool;
  sw_rebuild : bool;
  sw_build : bool;
  sw_clean : bool;
  sw_no_batch_window_close : bool;
  sw_batch_build_notify : bool;
  opt_prefix : option string;
  opt_user_data_dir : option string;
  opt_personality : option string;
  opt_profile : option string;
  opt_target : option string;
  opt_script : option string;
  opt_file : option string;
  opt_dbg_config : option string;
  opt_dbg_attach : option string;
  params : list string
}.

(** [parser.Parse(false)]: -1 when help was asked for, and otherwise the
    parser can be queried (ParseCmdLine goes on for any other result). *)
Inductive ParseResult :=
| ParseHelp
| Parsed (c : CmdLine).

(** A registered debugger plugin with the names of its configurations, in
    the order of [GetConfigurations()]. *)
Record DebuggerPlugin := {
  SettingsName : string;
  GUIName : string;
  Configurations : list string
}.

Inductive Event :=
| EvCall (what : string)
| EvLog (msg : string)
| EvLogError (msg : string)
| EvMessageBox (msg : string)
| EvShowErrorMessage (msg : string)
| EvSafeShowMessage (title msg : string)
| EvBell
| EvCfgWrite (key value : string)
| EvMakeConnection
| EvExecute (data : string)
| EvDisconnect
| EvDeleteConnection
| EvDeleteClient
| EvNewMainFrame
| EvOpen (file : string) (addToHistory : bool)
| EvGotoLine (file : string) (line : Z)
| EvSetActiveConfig (plugin : DebuggerPlugin) (index : Z)
| EvAttachToProcess (plugin : DebuggerPlugin) (pid : string)
| EvCallAfter (what : string).

(** The members of [CodeBlocksApp] and the file-level statics of app.cpp;
    a pointer is modelled by whether it is non-null. *)
Record CodeBlocksApp := {
  m_Prefix : string;
  m_UserDataDir : string;
  m_BatchTarget : string;
  m_Script : string;
  m_AutoFile : string;
  m_DebuggerAttach : string;
  m_DebuggerConfig : string;
  m_DelayedFilesToOpen : list string;
  m_Batch : bool;
  m_BatchNotify : bool;
  m_BatchWindowAutoClose : bool;
  m_Build : bool;
  m_ReBuild : bool;
  m_Clean : bool;
  m_HasProject : bool;
  m_HasWorkSpace : bool;
  m_SafeMode : bool;
  m_DDE : bool;
  m_Assocs : bool;
  m_Splash : bool;
  m_HasDebugLog : bool;
  m_CrashHandler : bool;
  m_BatchExitCode : Z;
  m_Frame : bool;
  m_pBatchBuildDialog : bool;
  m_pSingleInstance : bool;
  s_Loading : bool;
  g_DDEServer : bool;
  one_time_only : bool    (* the static local of OnBatchBuildDone *)
}.

(** Everything app.cpp asks of wxWidgets, the SDK and the operating system. *)
Record World := {
  argv : list string;
  Parse : string → ParseResult;          (* of the given command line; of argv for the empty string *)
  wxGetCwd : string;
  FileTypeOf : string → FileType;
  wxFile_Exists : string → bool;
  Normalize : string → string → string;   (* wxFileName(f).Normalize(flags, cwd); GetFullPath() *)
  IsRelative : string → bool;
  MakeAbsolute : string → string → string; (* wxFileName(f).MakeAbsolute(cwd); GetFullPath() *)
  GetFullPath : string → string;         (* wxFileName(f).GetFullPath() *)
  ToLong : string → Z → bool * Z;         (* the flag, and the value left in the out-parameter *)
  frame_Open : string → bool;
  GetEditor : string → bool;
  debuggers : list DebuggerPlugin;
  platform : Platform;
  APP_PREFIX : string;
  ExecutableDir : string;
  GetResourcesDir : string;
  env_CODEBLOCKS_DATA_DIR : string;
  SetUserDataFolder : string → bool;
  LoadResource : bool;
  cfg_use_ipc : bool;
  cfg_raise_via_ipc : bool;
  cfg_single_instance : bool;
  cfg_blank_workspace : bool;
  cfg_show_splash : bool;
  connection_established : bool;
  IsAnotherRunning : bool;
  clipboard_IsOpened : bool;
  startup_script : string;
  LoadScript : bool;
  loader_GetData : bool;
  crashReportName : string;
  throws : string → option exn
}.

Module App.

Import wx.

(** *** Field updates *)

Definition set_queue (q : list string) (autoFile : string) (a : CodeBlocksApp) : CodeBlocksApp :=
  {| m_Prefix := m_Prefix a; m_UserDataDir := m_UserDataDir a; m_BatchTarget := m_BatchTarget a;
     m_Script := m_Script a; m_AutoFile := autoFile;
     m_DebuggerAttach := m_DebuggerAttach a; m_DebuggerConfig := m_DebuggerConfig a;
     m_DelayedFilesToOpen := q;
     m_Batch := m_Batch a; m_BatchNotify := m_BatchNotify a;
     m_BatchWindowAutoClose := m_BatchWindowAutoClose a;
     m_Build := m_Build a; m_ReBuild := m_ReBuild a; m_Clean := m_Clean a;
     m_HasProject := m_HasProject a; m_HasWorkSpace := m_HasWorkSpace a;
     m_SafeMode := m_SafeMode a; m_DDE := m_DDE a; m_Assocs := m_Assocs a;
     m_Splash := m_Splash a; m_HasDebugLog := m_HasDebugLog a;
     m_CrashHandler := m_CrashHandler a; m_BatchExitCode := m_BatchExitCode a;
     m_Frame := m_Frame a; m_pBatchBuildDialog := m_pBatchBuildDialog a;
     m_pSingleInstance := m_pSingleInstance a; s_Loading := s_Loading a;
     g_DDEServer := g_DDEServer a; one_time_only := one_time_only a |}.

Definition set_debugger (attach config : string) (a : CodeBlocksApp) : CodeBlocksApp :=
  {| m_Prefix := m_Prefix a; m_UserDataDir := m_UserDataDir a; m_BatchTarget := m_BatchTarget a;
     m_Script := m_Script a; m_AutoFile := m_AutoFile a;
     m_DebuggerAttach := attach; m_DebuggerConfig := config;
     m_DelayedFilesToOpen := m_DelayedFilesToOpen a;
     m_Batch := m_Batch a; m_BatchNotify := m_BatchNotify a;
     m_BatchWindowAutoClose := m_BatchWindowAutoClose a;
     m_Build := m_Build a; m_ReBuild := m_ReBuild a; m_Clean := m_Clean a;
     m_HasProject := m_HasProject a; m_HasWorkSpace := m_HasWorkSpace a;
     m_SafeMode := m_SafeMode a; m_DDE := m_DDE a; m_Assocs := m_Assocs a;
     m_Splash := m_Splash a; m_HasDebugLog := m_HasDebugLog a;
     m_CrashHandler := m_CrashHandler a; m_BatchExitCode := m_BatchExitCode a;
     m_Frame := m_Frame a; m_pBatchBuildDialog := m_pBatchBuildDialog a;
     m_pSingleInstance := m_pSingleInstance a; s_Loading := s_Loading a;
     g_DDEServer := g_DDEServer a; one_time_only := one_time_only a |}.

(** the members the handler-frame pass of ParseCmdLine assigns *)
Definition set_files (hasProject hasWorkSpace batch : bool) (a : CodeBlocksApp) : CodeBlocksApp :=
  {| m_Prefix := m_Prefix a; m_UserDataDir := m_UserDataDir a; m_BatchTarget := m_BatchTarget a;
     m_Script := m_Script a; m_AutoFile := m_AutoFile a;
     m_DebuggerAttach := m_DebuggerAttach a; m_DebuggerConfig := m_DebuggerConfig a;
     m_DelayedFilesToOpen := m_DelayedFilesToOpen a;
     m_Batch := batch; m_BatchNotify := m_BatchNotify a;
     m_BatchWindowAutoClose := m_BatchWindowAutoClose a;
     m_Build := m_Build a; m_ReBuild := m_ReBuild a; m_Clean := m_Clean a;
     m_HasProject := hasProject; m_HasWorkSpace := hasWorkSpace;
     m_SafeMode := m_SafeMode a; m_DDE := m_DDE a; m_Assocs := m_Assocs a;
     m_Splash := m_Splash a; m_HasDebugLog := m_HasDebugLog a;
     m_CrashHandler := m_CrashHandler a; m_BatchExitCode := m_BatchExitCode a;
     m_Frame := m_Frame a; m_pBatchBuildDialog := m_pBatchBuildDialog a;
     m_pSingleInstance := m_pSingleInstance a; s_Loading := s_Loading a;
     g_DDEServer := g_DDEServer a; one_time_only := one_time_only a |}.

(** [parser.Found(name, &member)] leaves the member alone when the option
    is absent. *)
Definition Found_into (o : option string) (member : string) : string :=
  default member o.

(** the members the first pass of ParseCmdLine (no handler frame) assigns;
    m_Assocs is assigned on MSW only *)
Definition set_options (w : World) (c : CmdLine) (a : CodeBlocksApp) : CodeBlocksApp :=
  {| m_Prefix := Found_into (opt_prefix c) (m_Prefix a);
     m_UserDataDir := Found_into (opt_user_data_dir c) (m_UserDataDir a);
     m_BatchTarget := Found_into (opt_target c) (m_BatchTarget a);
     m_Script := Found_into (opt_script c) (m_Script a);
     m_AutoFile := m_AutoFile a;
     m_DebuggerAttach := m_DebuggerAttach a; m_DebuggerConfig := m_DebuggerConfig a;
     m_DelayedFilesToOpen := m_DelayedFilesToOpen a;
     m_Batch := sw_build c || sw_rebuild c || sw_clean c;
     m_BatchNotify := sw_batch_build_notify c;
     m_BatchWindowAutoClose := negb (sw_no_batch_window_close c);
     m_Build := sw_build c; m_ReBuild := sw_rebuild c; m_Clean := sw_clean c;
     m_HasProject := m_HasProject a; m_HasWorkSpace := m_HasWorkSpace a;
     m_SafeMode := sw_safe_mode c; m_DDE := negb (sw_no_dde c);
     m_Assocs := match platform w with
                 | windows => negb (sw_no_check_associations c)
                 | _ => m_Assocs a
                 end;
     m_Splash := negb (sw_no_splash_screen c); m_HasDebugLog := sw_debug_log c;
     m_CrashHandler := negb (sw_no_crash_handler c); m_BatchExitCode := m_BatchExitCode a;
     m_Frame := m_Frame a; m_pBatchBuildDialog := m_pBatchBuildDialog a;
     m_pSingleInstance := m_pSingleInstance a; s_Loading := s_Loading a;
     g_DDEServer := g_DDEServer a; one_time_only := one_time_only a |}.

Definition set_batch_done (code : Z) (a : CodeBlocksApp) : CodeBlocksApp :=
  {| m_Prefix := m_Prefix a; m_UserDataDir := m_UserDataDir a; m_BatchTarget := m_BatchTarget a;
     m_Script := m_Script a; m_AutoFile := m_AutoFile a;
     m_DebuggerAttach := m_DebuggerAttach a; m_DebuggerConfig := m_DebuggerConfig a;
     m_DelayedFilesToOpen := m_DelayedFilesToOpen a;
     m_Batch := m_Batch a; m_BatchNotify := m_BatchNotify a;
     m_BatchWindowAutoClose := m_BatchWindowAutoClose a;
     m_Build := m_Build a; m_ReBuild := m_ReBuild a; m_Clean := m_Clean a;
     m_HasProject := m_HasProject a; m_HasWorkSpace := m_HasWorkSpace a;
     m_SafeMode := m_SafeMode a; m_DDE := m_DDE a; m_Assocs := m_Assocs a;
     m_Splash := m_Splash a; m_HasDebugLog := m_HasDebugLog a;
     m_CrashHandler := m_CrashHandler a; m_BatchExitCode := code;
     m_Frame := m_Frame a; m_pBatchBuildDialog := m_pBatchBuildDialog a;
     m_pSingleInstance := m_pSingleInstance a; s_Loading := s_Loading a;
     g_DDEServer := g_DDEServer a; one_time_only := true |}.

(** the pointers and statics OnInit assigns one at a time *)
Definition set_pointers (frame singleInstance loading ddeServer : bool)
    (a : CodeBlocksApp) : CodeBlocksApp :=
  {| m_Prefix := m_Prefix a; m_UserDataDir := m_UserDataDir a; m_BatchTarget := m_BatchTarget a;
     m_Script := m_Script a; m_AutoFile := m_AutoFile a;
     m_DebuggerAttach := m_DebuggerAttach a; m_DebuggerConfig := m_DebuggerConfig a;
     m_DelayedFilesToOpen := m_DelayedFilesToOpen a;
     m_Batch := m_Batch a; m_BatchNotify := m_BatchNotify a;
     m_BatchWindowAutoClose := m_BatchWindowAutoClose a;
     m_Build := m_Build a; m_ReBuild := m_ReBuild a; m_Clean := m_Clean a;
     m_HasProject := m_HasProject a; m_HasWorkSpace := m_HasWorkSpace a;
     m_SafeMode := m_SafeMode a; m_DDE := m_DDE a; m_Assocs := m_Assocs a;
     m_Splash := m_Splash a; m_HasDebugLog := m_HasDebugLog a;
     m_CrashHandler := m_CrashHandler a; m_BatchExitCode := m_BatchExitCode a;
     m_Frame := frame; m_pBatchBuildDialog := m_pBatchBuildDialog a;
     m_pSingleInstance := singleInstance; s_Loading := loading;
     g_DDEServer := ddeServer; one_time_only := one_time_only a |}.

Definition set_Frame (v : bool) (a : CodeBlocksApp) :=
  set_pointers v (m_pSingleInstance a) (s_Loading a) (g_DDEServer a) a.
Definition set_pSingleInstance (v : bool) (a : CodeBlocksApp) :=
  set_pointers (m_Frame a) v (s_Loading a) (g_DDEServer a) a.
Definition set_Loading (v : bool) (a : CodeBlocksApp) :=
  set_pointers (m_Frame a) (m_pSingleInstance a) v (g_DDEServer a) a.
Definition set_DDEServer (v : bool) (a : CodeBlocksApp) :=
  set_pointers (m_Frame a) (m_pSingleInstance a) (s_Loading a) v a.

(** the assignments at the top of OnInit *)
Definition OnInit_reset (a : CodeBlocksApp) : CodeBlocksApp :=
  {| m_Prefix := m_Prefix a; m_UserDataDir := m_UserDataDir a; m_BatchTarget := m_BatchTarget a;
     m_Script := m_Script a; m_AutoFile := m_AutoFile a;
     m_DebuggerAttach := m_DebuggerAttach a; m_DebuggerConfig := m_DebuggerConfig a;
     m_DelayedFilesToOpen := m_DelayedFilesToOpen a;
     m_Batch := false; m_BatchNotify := false;
     m_BatchWindowAutoClose := true;
     m_Build := false; m_ReBuild := false; m_Clean := false;
     m_HasProject := false; m_HasWorkSpace := false;
     m_SafeMode := false; m_DDE := m_DDE a; m_Assocs := m_Assocs a;
     m_Splash := m_Splash a; m_HasDebugLog := m_HasDebugLog a;
     m_CrashHandler := m_CrashHandler a; m_BatchExitCode := 0%Z;
     m_Frame := m_Frame a; m_pBatchBuildDialog := false;
     m_pSingleInstance := false; s_Loading := true;
     g_DDEServer := g_DDEServer a; one_time_only := one_time_only a |}.

(** *** ParseCmdLine *)

(** The loop over the positional parameters (handler-frame pass), on the
    triple (m_HasProject, m_HasWorkSpace, m_DelayedFilesToOpen); a
    workspace ends the loop. *)
Fixpoint scan_params (w : World) (CWD : string) (ps : list string)
    (st : bool * bool * list string) : bool * bool * list string :=
  match ps with
  | [] => st
  | strParam :: rest =>
      let '(hasProject, hasWorkSpace, delayed) := st in
      let paramFullPath := Normalize w CWD strParam in
      match FileTypeOf w strParam with
      | ftCodeBlocksProject =>
          scan_params w CWD rest (true, hasWorkSpace, delayed ++ [paramFullPath])
      | ftCodeBlocksWorkspace =>
          (hasProject, true, [paramFullPath])
      | ftOther =>
          if wxFile_Exists w paramFullPath
          then scan_params w CWD rest (hasProject, hasWorkSpace, delayed ++ [paramFullPath])
          else scan_params w CWD rest st
      end
  end.

(** m_AutoFile after [parser.Found("file", &m_AutoFile)] and the
    restoration of an absolute path from the client's directory *)
Definition parsed_AutoFile (w : World) (c : CmdLine) (CWD : string) (a : CodeBlocksApp) : string :=
  let f := Found_into (opt_file c) (m_AutoFile a) in
  if negb (IsEmpty f) && negb (IsEmpty CWD) && IsRelative w f
  then MakeAbsolute w CWD f
  else f.

(** the personality named by --personality, or else by --profile *)
Definition personality_option (c : CmdLine) : option string :=
  match opt_personality c with
  | Some v => Some v
  | None => opt_profile c
  end.

Definition log_setup (c : CmdLine) : list Event :=
  (if sw_no_log c then [] else [EvCall "SetLog(TextCtrlLogger, app_log)"])
  ++ (if sw_log_to_file c then [EvCall "SetLog(FileLogger(codeblocks.log), app_log)"] else [])
  ++ (if sw_debug_log c then [EvCall "SetLog(TextCtrlLogger, debug_log)"] else [])
  ++ (if sw_debug_log_to_file c
      then [EvCall "SetLog(FileLogger(codeblocks-debug.log), debug_log)"] else []).

(** [ParseCmdLine(handlerFrame, CmdLineString, CWD)]: the value returned,
    the application afterwards and the calls made. *)
Definition ParseCmdLine (w : World) (handlerFrame : bool) (CmdLineString CWD : string)
    (a : CodeBlocksApp) : Z * CodeBlocksApp * list Event :=
  match Parse w CmdLineString with
  | ParseHelp => ((-1)%Z, a, [])
  | Parsed c =>
      if handlerFrame then
        let autoFile := parsed_AutoFile w c CWD a in
        let filesInCmdLine := negb (List.length (params c) =? 0) || negb (IsEmpty autoFile) in
        let '(hasProject, hasWorkSpace, delayed) :=
          scan_params w CWD (params c) (false, false, m_DelayedFilesToOpen a) in
        let batch := (hasProject || hasWorkSpace)
                     && (m_Build a || m_ReBuild a || m_Clean a) in
        let a1 := set_files hasProject hasWorkSpace batch (set_queue delayed autoFile a) in
        let a2 := set_debugger (Found_into (opt_dbg_attach c) (m_DebuggerAttach a1))
                               (Found_into (opt_dbg_config c) (m_DebuggerConfig a1)) a1 in
        ((if filesInCmdLine then 1 else 0)%Z, a2,
         [EvCall "UserVariableManager::ParseCommandLine"])
      else
        let a1 := set_options w c a in
        let a2 := set_debugger (Found_into (opt_dbg_attach c) (m_DebuggerAttach a1))
                               (Found_into (opt_dbg_config c) (m_DebuggerConfig a1)) a1 in
        (0%Z, a2,
         [EvCall (if sw_verbose c then "wxLog::EnableLogging(true)"
                  else "wxLog::EnableLogging(false)")]
         ++ match personality_option c with
            | Some val => [EvCall ("SetupPersonality " +:+ val)]
            | None => []
            end
         ++ log_setup c)
  end.

(** *** LoadDelayedFiles *)

(** [std::set<wxString>] keeps its elements in increasing order. *)
Definition wxString_le (x y : string) : Prop := String.leb x y = true.

#[local] Instance wxString_le_dec : RelDecision wxString_le :=
  λ x y, decide (String.leb x y = true).

(** the elements of [uniqueFilesToOpen] in the order the loop visits them *)
Definition set_iteration (files : gset string) : list string :=
  merge_sort wxString_le (elements files).

(** [GotoLine] takes an [int]: the conversion of [line - 1] to 32 bits *)
Definition to_int (z : Z) : Z :=
  ((z + 2147483648) mod 4294967296 - 2147483648)%Z.

(** (filePart, line) computed from m_AutoFile, for the text [file[:line]] *)
Definition split_AutoFile (w : World) (autoFile : string) : string * Z :=
  match Find_fromEnd ":" autoFile with
  | Some linePos =>
      let linePart := substr_from (linePos + 1) autoFile in
      let filePart := Remove linePos autoFile in
      let '(ok, line) := ToLong w linePart (-1)%Z in
      (if ok then filePart else autoFile, line)
  | None => (autoFile, (-1)%Z)
  end.

(** the calls of the [--file] part of LoadDelayedFiles *)
Definition open_AutoFile (w : World) (autoFile : string) : list Event :=
  let '(filePart, line) := split_AutoFile w autoFile in
  if IsEmpty filePart then []
  else
    let full := Normalize w EmptyString filePart in
    EvOpen full false ::
      (if frame_Open w full && GetEditor w full && negb (line =? -1)%Z
       then [EvGotoLine full (to_int (line - 1))]
       else []).

Definition LoadDelayedFiles (w : World) (a : CodeBlocksApp) : CodeBlocksApp * list Event :=
  let uniqueFilesToOpen : gset string := list_to_set (m_DelayedFilesToOpen a) in
  let opened := (λ f, EvOpen f true) <$> set_iteration uniqueFilesToOpen in
  if IsEmpty (m_AutoFile a)
  then (set_queue [] (m_AutoFile a) a, opened)
  else (set_queue [] EmptyString a, opened ++ open_AutoFile w (m_AutoFile a)).

(** *** AttachDebugger *)

(** the first registered plugin whose settings name is [pluginName] *)
Fixpoint find_plugin (pluginName : string) (ds : list DebuggerPlugin) : option DebuggerPlugin :=
  match ds with
  | [] => None
  | info :: rest =>
      if String.eqb (SettingsName info) pluginName then Some info
      else find_plugin pluginName rest
  end.

(** the index of the first configuration called [configName] *)
Fixpoint find_config (configName : string) (configs : list string) : option nat :=
  match configs with
  | [] => None
  | c :: rest =>
      if String.eqb c configName then Some 0
      else S <$> find_config configName rest
  end.

Definition AttachDebugger (w : World) (a : CodeBlocksApp) : CodeBlocksApp * list Event :=
  let localAttach := m_DebuggerAttach a in
  let localConfig := m_DebuggerConfig a in
  let a' := set_debugger EmptyString EmptyString a in
  if IsEmpty localAttach || IsEmpty localConfig then
    (a',
     if negb (Bool.eqb (IsEmpty localAttach) (IsEmpty localConfig))
     then [EvLogError "For attaching to work you need to provide both '--dbg-attach' and '--dbg-config'";
           EvLog ("    --dbg-attach='" +:+ localAttach +:+ "'");
           EvLog ("    --dbg-config='" +:+ localConfig +:+ "'")]
     else [])
  else
    let started :=
      [EvLog ("Attach debugger '" +:+ localConfig +:+ "' to '" +:+ localAttach +:+ "'")] in
    match find_char ":" localConfig with
    | None | Some 0 =>
        (a', started ++
           [EvLogError "No delimiter found. The --dbg-config format is 'plugin-name:config-name'"])
    | Some pos =>
        let pluginName := substr 0 pos localConfig in
        let configName := substr_from (pos + 1) localConfig in
        match debuggers w with
        | [] => (a', started ++ [EvLogError "No debugger plugins loaded!"])
        | _ =>
            match find_plugin pluginName (debuggers w) with
            | None =>
                (a', started ++
                   [EvLogError ("Debugger plugin '" +:+ pluginName +:+ "' not found!");
                    EvLog "Available plugins:"]
                   ++ ((λ p, EvLog ("    '" +:+ SettingsName p +:+ "' (" +:+ GUIName p +:+ ")"))
                         <$> debuggers w))
            | Some plugin =>
                match find_config configName (Configurations plugin) with
                | None =>
                    (a', started ++
                       [EvLogError ("Debugger configuration '" +:+ configName +:+ "' not found!");
                        EvLog "Available configurations:"]
                       ++ ((λ c, EvLog ("    '" +:+ c +:+ "'")) <$> Configurations plugin))
                | Some configIndex =>
                    (a', started ++
                       [EvLog "Debugger plugin and configuration found. Attaching!!!";
                        EvSetActiveConfig plugin (Z.of_nat configIndex);
                        EvAttachToProcess plugin localAttach])
                end
            end
        end
    end.

(** *** LoadConfig *)

(** [GetAppPath()]: the directory of the executable on MSW; elsewhere the
    prefix when there is one, and "." when the directory is unknown. *)
Definition GetAppPath (w : World) (a : CodeBlocksApp) : string :=
  match platform w with
  | windows => ExecutableDir w
  | _ =>
      if negb (IsEmpty (m_Prefix a)) then m_Prefix a
      else if IsEmpty (ExecutableDir w) then "." else ExecutableDir w
  end.

Definition Contains (sub s : string) : bool :=
  match find0 sub s with Some _ => true | None => false end.

(** the built-in base, before --prefix and the environment are looked at *)
Definition builtin_data (w : World) (a : CodeBlocksApp) : string :=
  let data :=
    match platform w with
    | windows => GetAppPath w a
    | macosx =>
        if Contains "/Resources" (GetResourcesDir w) then GetResourcesDir w
        else GetAppPath w a +:+ "/.."
    | other_platform => APP_PREFIX w
    end in
  if IsEmpty data then Replace "/bin" EmptyString (GetAppPath w a) else data.

Definition data_base (w : World) (a : CodeBlocksApp) : string :=
  if negb (IsEmpty (m_Prefix a)) then m_Prefix a
  else if negb (IsEmpty (env_CODEBLOCKS_DATA_DIR w)) then env_CODEBLOCKS_DATA_DIR w
  else builtin_data w a.

(** the value written under "data_path" *)
Definition data_path (w : World) (a : CodeBlocksApp) : string :=
  let data := data_base w a +:+ "/share/codeblocks" in
  if IsRelative w data then MakeAbsolute w EmptyString data else GetFullPath w data.

Definition LoadConfig (w : World) (a : CodeBlocksApp) : bool * list Event :=
  if IsEmpty (m_UserDataDir a) then
    (true, [EvCfgWrite "data_path" (data_path w a)])
  else if SetUserDataFolder w (m_UserDataDir a) then
    (true, [EvCall ("ConfigManager::SetUserDataFolder " +:+ m_UserDataDir a);
            EvCfgWrite "data_path" (data_path w a)])
  else
    (false, [EvCall ("ConfigManager::SetUserDataFolder " +:+ m_UserDataDir a)]).

(** *** Batch build: OnBatchBuildDone, OnRun, OnExit *)

Definition newline : string := String (ascii_of_nat 10) EmptyString.

(** the handler of cbEVT_COMPILER_FINISHED, for an event whose plugin
    reports [exitCode] *)
Definition OnBatchBuildDone (exitCode : Z) (a : CodeBlocksApp) : CodeBlocksApp * list Event :=
  if negb (m_Batch a) || one_time_only a then (a, [])
  else
    let a' := set_batch_done exitCode a in
    (a',
     (if m_BatchNotify a'
      then [EvMessageBox
              ((if (m_BatchExitCode a' =? 0)%Z
                then "Batch build ended." +:+ newline
                else "Batch build stopped with errors." +:+ newline)
               +:+ "Process exited with status code " +:+ pretty (m_BatchExitCode a') +:+ ".")]
      else [EvBell])
     ++ (if m_pBatchBuildDialog a' && m_BatchWindowAutoClose a'
         then [EvCallAfter "m_pBatchBuildDialog->Close"] else [])).


Fixpoint deliver (codes : list Z) (a : CodeBlocksApp) : CodeBlocksApp * list Event :=
  match codes with
  | [] => (a, [])
  | code :: rest =>
      let '(a1, evs1) := OnBatchBuildDone code a in
      let '(a2, evs2) := deliver rest a1 in
      (a2, evs1 ++ evs2)
  end.

(** the message each catch handler of OnInit and OnRun shows *)
Definition catch_message (e : exn) : Event :=
  match e with
  | cbException msg => EvShowErrorMessage msg
  | CStringException message => EvSafeShowMessage "Exception" message
  | UnknownException =>
      EvSafeShowMessage "Exception"
        "Unknown exception was raised. The application will terminate immediately..."
  end.



End App.

(** ** OnInit: the start-up sequence

    OnInit threads the application object through some fifty calls, any of
    which may throw, and leaves through [return] at several places.  A small
    monad carries the application, the trace of calls made so far and the
    way a statement ends. *)

Module Init.

Import wx App.

Inductive outcome (A : Type) : Type :=
| Normal (x : A)       (* control reaches the next statement *)
| Return (b : bool)    (* [return b;] out of OnInit *)
| Raise (e : exn).     (* an exception is propagating *)
Arguments Normal {A} x.
Arguments Return {A} b.
Arguments Raise {A} e.

Record Sys := { app : CodeBlocksApp; trace : list Event }.

Definition M (A : Type) : Type := Sys → outcome A * Sys.

Definition ret {A} (x : A) : M A := λ s, (Normal x, s).

Definition bind {A B} (m : M A) (k : A → M B) : M B :=
  λ s, match m s with
       | (Normal x, s') => k x s'
       | (Return b, s') => (Return b, s')
       | (Raise e, s') => (Raise e, s')
       end.

#[export] Instance M_ret : MRet M := @ret.
#[export] Instance M_bind : MBind M := λ A B k m, bind m k.

Definition return_ {A} (b : bool) : M A := λ s, (Return b, s).

Definition emit (evs : list Event) : M unit :=
  λ s, (Normal (), {| app := app s; trace := trace s ++ evs |}).

Definition get : M CodeBlocksApp := λ s, (Normal (app s), s).

Definition update (f : CodeBlocksApp → CodeBlocksApp) : M unit :=
  λ s, (Normal (), {| app := f (app s); trace := trace s |}).

Definition when (c : bool) (m : M unit) : M unit := if c then m else ret ().

(** the exception, if any, that the call named [site] throws *)
Definition guard (w : World) (site : string) : M unit :=
  λ s, match throws w site with
       | Some e => (Raise e, s)
       | None => (Normal (), s)
       end.

(** a call whose result OnInit does not use *)
Definition call (w : World) (site : string) : M unit :=
  guard w site;; emit [EvCall site].

(** a call with an event of its own *)
Definition call_as (w : World) (site : string) (ev : Event) : M unit :=
  guard w site;; emit [ev].

(** a member function of the application *)
Definition run_method {A} (f : CodeBlocksApp → A * CodeBlocksApp * list Event) : M A :=
  λ s, let '(x, a', evs) := f (app s) in
       (Normal x, {| app := a'; trace := trace s ++ evs |}).

Definition method {A} (w : World) (site : string)
    (f : CodeBlocksApp → A * CodeBlocksApp * list Event) : M A :=
  guard w site;; run_method f.

(** [emits P m]: whichever way [m] ends, it only appends to the trace, and
    only events that satisfy [P] *)
Definition emits {A} (P : Event → Prop) (m : M A) : Prop :=
  ∀ s o s', m s = (o, s') → ∃ evs, trace s' = trace s ++ evs ∧ Forall P evs.

(** [raises_from w m]: an exception that leaves [m] was thrown by one of
    the calls, as the oracle of [w] has it *)
Definition raises_from {A} (w : World) (m : M A) : Prop :=
  ∀ s e s', m s = (Raise e, s') → ∃ site, throws w site = Some e.

(** the events that do not create the main frame *)
Definition no_frame (e : Event) : Prop := e ≠ EvNewMainFrame.

Definition InitXRCStuff (w : World) : M bool :=
  guard w "Manager::LoadResource";;
  if LoadResource w then ret true
  else call_as w "cbMessageBox" (EvMessageBox "Cannot find resources...");; ret false.

Definition InitFrame (w : World) : M unit :=
  call_as w "new MainFrame" EvNewMainFrame;;
  call w "SetTopWindow(nullptr)";;
  a ← get;
  when (g_DDEServer a && m_DDE a) (call w "g_DDEServer->SetFrame");;
  update (set_Frame true).

(** lines 673-714: the attempt to reach an instance that already runs *)
Definition OnInit_ipc (w : World) : M unit :=
  a ← get;
  when (m_DDE a && negb (m_Batch a) && cfg_use_ipc w)
    (call_as w "client->MakeConnection" EvMakeConnection;;
     if connection_established w then
       let cmdLine := DDE.forwarded_cmdLine (argv w) in
       when (negb (IsEmpty cmdLine))
            (call_as w "connection->Execute(CmdLine)"
               (EvExecute (DDE.CmdLine_message (DDE.escape_parens cmdLine) (wxGetCwd w))));;
       when (cfg_raise_via_ipc w)
            (call_as w "connection->Execute(Raise)" (EvExecute "[Raise]"));;
       call_as w "connection->Disconnect" EvDisconnect;;
       emit [EvDeleteConnection; EvDeleteClient;
             EvLog "Ending application because another instance has been detected!"];;
       return_ false
     else emit [EvDeleteClient]).

Definition multiple_instance (w : World) : bool :=
  match Parse w EmptyString with
  | Parsed c => sw_multiple_instance c
  | ParseHelp => false
  end.

(** lines 716-730 *)
Definition OnInit_single_instance (w : World) : M unit :=
  when (cfg_single_instance w && negb (multiple_instance w))
    (call w "new wxSingleInstanceChecker";;
     update (set_pSingleInstance true);;
     when (IsAnotherRunning w)
       (call_as w "cbMessageBox"
             (EvMessageBox "Another program instance is already running.");;
        return_ false)).

(** the three ways start-up ends once the frame exists and the command
    line has been parsed again *)
Definition OnInit_batch (w : World) : M unit :=
  call w "Manager::SetAppStartedUp(true)";;
  call w "ProcessEvent(cbEVT_APP_STARTUP_DONE)";;
  call w "RegisterEventSink(cbEVT_COMPILER_FINISHED)";;
  update (set_Loading false);;
  method w "LoadDelayedFiles" (λ a, let '(a', evs) := LoadDelayedFiles w a in ((), a', evs));;
  emit [EvCallAfter "BatchJob"];;
  return_ true.

Definition OnInit_script (w : World) : M unit :=
  update (set_Loading false);;
  call w "FileManager::Load(m_Script)";;
  when (loader_GetData w) (call w "ScriptingManager::LoadBuffer");;
  call w "frame->Close";;
  return_ true.

Definition OnInit_interactive (w : World) : M unit :=
  call w "CheckVersion";;
  when (negb (IsEmpty (startup_script w)))
       (call w "ScriptingManager::LoadScript(startup.script)";;
        when (negb (LoadScript w)) (call w "ScriptingManager::DisplayErrors"));;
  call w "Manager::ProcessPendingEvents";;
  call w "splash.Hide";;
  call w "SetTopWindow(frame)";;
  call w "frame->Show";;
  call w "frame->StartupDone";;
  call w "frame->ShowTips";;
  when (match platform w with windows => true | _ => false end)
       (call w "InitAssociations");;
  update (set_Loading false);;
  method w "LoadDelayedFiles" (λ a, let '(a', evs) := LoadDelayedFiles w a in ((), a', evs));;
  method w "AttachDebugger" (λ a, let '(a', evs) := AttachDebugger w a in ((), a', evs));;
  call w "ProjectManager::WorkspaceChanged";;
  call w "Manager::SetAppStartedUp(true)";;
  call w "ProcessEvent(cbEVT_APP_STARTUP_DONE)";;
  when (negb (IsEmpty (crashReportName w)))
       (call_as w "LogManager::Log"
          (EvLog ("Setting the crash report file to: " +:+ crashReportName w)));;
  return_ true.

(** lines 641-670: the first pass over the command line, the
    configuration, the resources and the locale *)
Definition OnInit_configure (w : World) : M unit :=
  call w "wxHandleFatalExceptions(true)";;
  call w "InitExceptionHandler";;
  call w "wxMessageOutput::Set(cbMessageOutputNull)";;
  res ← method w "ParseCmdLine(nullptr)" (ParseCmdLine w false EmptyString EmptyString);
  when (res =? -1)%Z
       (call w "wxMessageOutput::Set(wxMessageOutputMessageBox)";;
        call w "parser.Usage";;
        return_ false);;
  call w "PersonalityManager::MarkAsReady";;
  ok ← method w "LoadConfig" (λ a, let '(b, evs) := LoadConfig w a in (b, a, evs));
  when (negb ok) (return_ false);;
  a ← get;
  call w (if m_SafeMode a then "PluginManager::SetSafeMode(true)"
          else "PluginManager::SetSafeMode(false)");;
  when (negb (m_Batch a) && IsEmpty (m_Script a))
       (loaded ← InitXRCStuff w; when (negb loaded) (return_ false));;
  call w "InitLocale".

(** lines 732-847: the server, the frame, the second pass over the
    command line and the end of start-up *)
Definition OnInit_startup (w : World) : M unit :=
  a ← get;
  when (m_DDE a && negb (m_Batch a))
       (call w "g_DDEServer->Create";; update (set_DDEServer true));;
  when (negb (m_Batch a)) (call w "UserVariableManager::SetUI");;
  when (negb (m_Batch a) && IsEmpty (m_Script a) && m_Splash a && cfg_show_splash w)
       (call w "new cbSplashScreen");;
  call w "InitDebugConsole";;
  call w (if m_Batch a || negb (IsEmpty (m_Script a)) then "Manager::SetBatchBuild(true)"
          else "Manager::SetBatchBuild(false)");;
  call w "Manager::GetScriptingManager";;
  InitFrame w;;
  call w "LogManager::Log(Initial scaling factor)";;
  call w "wxMessageOutput::Set(wxMessageOutputBest)";;
  res ← method w "ParseCmdLine(m_Frame)" (ParseCmdLine w true EmptyString EmptyString);
  when ((res =? 0)%Z && negb (cfg_blank_workspace w))
       (call w "ProjectManager::LoadWorkspace");;
  b ← get;
  when (m_SafeMode b) (call w "wxLog::EnableLogging(true)");;
  if m_Batch b then OnInit_batch w
  else if negb (IsEmpty (m_Script b)) then OnInit_script w
  else OnInit_interactive w.

(** the body of the try block, lines 641-847 *)
Definition OnInit_try (w : World) : M unit :=
  OnInit_configure w;;
  OnInit_ipc w;;
  OnInit_single_instance w;;
  OnInit_startup w.

(** what OnInit does before it enters the try block *)
Definition OnInit_prologue (w : World) : M unit :=
  when (match platform w with windows => true | _ => false end)
       (call w "MSWEnableDarkMode(DarkMode_Always)";; call w "InitCommonControls");;
  call w "wxLog::EnableLogging(true)";;
  call w "SetAppName(codeblocks)";;
  update OnInit_reset;;
  when (clipboard_IsOpened w) (call w "wxTheClipboard->Flush");;
  call w "parser.SetDesc(cmdLineDesc)";;
  call w "wxFileSystem::AddHandler";;
  call w "wxXmlResource::InsertHandler";;
  call w "wxInitAllImageHandlers";;
  call w "wxXmlResource::InitAllHandlers";;
  call w "Manager::SetToolbarHandler";;
  call_as w "LogManager::Log" (EvLog "Starting Code::Blocks").

(** OnInit: the value it returns, or the exception that leaves it *)
Definition OnInit (w : World) : M bool :=
  λ s, match OnInit_prologue w s with
       | (Normal _, s1) =>
           match OnInit_try w s1 with
           | (Return b, s2) => (Normal b, s2)
           | (Normal _, s2) => (Normal false, s2)
           | (Raise e, s2) =>
               (Normal false, {| app := app s2; trace := trace s2 ++ [catch_message e] |})
           end
       | (Return b, s1) => (Normal b, s1)
       | (Raise e, s1) => (Raise e, s1)
       end.

End Init.

(** ** Reading a trace *)

Module Obs.

(** the calls on a debugger plugin that attach it *)
Definition is_attach_call (e : Event) : bool :=
  match e with
  | EvSetActiveConfig _ _ | EvAttachToProcess _ _ => true
  | _ => false
  end.

(** the files handed to [frame->Open], in the order of the calls *)
Fixpoint opened_files (evs : list Event) : list string :=
  match evs with
  | [] => []
  | EvOpen f _ :: rest => f :: opened_files rest
  | _ :: rest => opened_files rest
  end.

Definition is_Execute (e : Event) : bool :=
  match e with EvExecute _ => true | _ => false end.

Definition is_CfgWrite (e : Event) : bool :=
  match e with EvCfgWrite _ _ => true | _ => false end.

(** is the parameter a project or a workspace? *)
Definition is_project_or_workspace (w : World) (strParam : string) : bool :=
  match FileTypeOf w strParam with
  | ftCodeBlocksProject | ftCodeBlocksWorkspace => true
  | ftOther => false
  end.

Definition is_workspace (w : World) (name : string) : bool :=
  match FileTypeOf w name with
  | ftCodeBlocksWorkspace => true
  | _ => false
  end.

(** what the loop of ParseCmdLine appends to the queue for parameters
    none of which is a workspace: the full paths of the projects and of
    the files that exist *)
Fixpoint added_files (w : World) (CWD : string) (ps : list string) : list string :=
  match ps with
  | [] => []
  | strParam :: rest =>
      match FileTypeOf w strParam with
      | ftCodeBlocksProject => Normalize w CWD strParam :: added_files w CWD rest
      | ftCodeBlocksWorkspace => added_files w CWD rest
      | ftOther =>
          if wxFile_Exists w (Normalize w CWD strParam)
          then Normalize w CWD strParam :: added_files w CWD rest
          else added_files w CWD rest
      end
  end.

End Obs.

(** ** A concrete environment, for running the model *)

Module Demo.

Import wx.

Definition digit (c : ascii) : option Z :=
  let n := nat_of_ascii c in
  if (48 <=? n) && (n <=? 57) then Some (Z.of_nat (n - 48)) else None.

(** the digits at the head of [s], read in base 10 after [acc], and what
    follows them *)
Fixpoint digits (acc : Z) (s : string) : Z * string :=
  match s with
  | EmptyString => (acc, s)
  | String c r =>
      match digit c with
      | Some d => digits (10 * acc + d)%Z r
      | None => (acc, s)
      end
  end.

Fixpoint skip_spaces (s : string) : string :=
  match s with
  | String c r => if Ascii.is_space c then skip_spaces r else s
  | EmptyString => s
  end.

(** [wxString::ToLong(&val)] over [strtol] in base 10 with a 32-bit [long]:
    nothing parsed or out of range, false and [val] untouched; a number
    followed by other text, false with the number stored; a number alone,
    true. *)
Definition wxToLong (s : string) (val : Z) : bool * Z :=
  let s1 := skip_spaces s in
  let '(negative, s2) :=
    match s1 with
    | String "-" r => (true, r)
    | String "+" r => (false, r)
    | _ => (false, s1)
    end in
  match s2 with
  | EmptyString => (false, val)
  | String c _ =>
      match digit c with
      | None => (false, val)
      | Some _ =>
          let '(v, rest) := digits 0 s2 in
          let v := if negative then (- v)%Z else v in
          if ((-2147483648 <=? v) && (v <=? 2147483647))%Z
          then (IsEmpty rest, v)
          else (false, val)
      end
  end.

(** does [s] end with [suffix]? *)
Definition EndsWith (suffix s : string) : bool :=
  if decide (String.length suffix ≤ String.length s)
  then String.eqb (drop_s (String.length s - String.length suffix) s) suffix
  else false.

Definition by_extension (name : string) : FileType :=
  if EndsWith ".cbp" name then ftCodeBlocksProject
  else if EndsWith ".workspace" name then ftCodeBlocksWorkspace
  else ftOther.

Definition relative (f : string) : bool := negb (StartsWith "/" f).

Definition absolute (cwd f : string) : string :=
  if relative f then (if IsEmpty cwd then "/cwd" else cwd) +:+ "/" +:+ f else f.

Definition gdb : DebuggerPlugin :=
  {| SettingsName := "gdb_debugger"; GUIName := "GDB/CDB debugger";
     Configurations := ["Default"; "Remote"] |}.

Definition no_options : CmdLine :=
  {| sw_safe_mode := false; sw_no_check_associations := false; sw_no_dde := false;
     sw_no_splash_screen := false; sw_multiple_instance := false; sw_debug_log := false;
     sw_no_crash_handler := false; sw_verbose := false; sw_no_log := false;
     sw_log_to_file := false; sw_debug_log_to_file := false; sw_rebuild := false;
     sw_build := false; sw_clean := false; sw_no_batch_window_close := false;
     sw_batch_build_notify := false;
     opt_prefix := None; opt_user_data_dir := None; opt_personality := None;
     opt_profile := None; opt_target := None; opt_script := None; opt_file := None;
     opt_dbg_config := None; opt_dbg_attach := None; params := [] |}.

(** a command line with the given batch switches and positional parameters *)
Definition cmdline (build rebuild clean : bool) (ps : list string) : CmdLine :=
  {| sw_safe_mode := false; sw_no_check_associations := false; sw_no_dde := false;
     sw_no_splash_screen := false; sw_multiple_instance := false; sw_debug_log := false;
     sw_no_crash_handler := false; sw_verbose := false; sw_no_log := false;
     sw_log_to_file := false; sw_debug_log_to_file := false; sw_rebuild := rebuild;
     sw_build := build; sw_clean := clean; sw_no_batch_window_close := false;
     sw_batch_build_notify := false;
     opt_prefix := None; opt_user_data_dir := None; opt_personality := None;
     opt_profile := None; opt_target := None; opt_script := None; opt_file := None;
     opt_dbg_config := None; opt_dbg_attach := None; params := ps |}.

(** a Unix-like machine: the process was started with [args] in [cwd],
    every file exists and opens, and the calls listed by [thrown] throw *)
Definition world (args : list string) (parsed : ParseResult) (cwd : string)
    (connected userDataOk : bool) (thrown : string → option exn) : World :=
  {| argv := args; Parse := λ _, parsed; wxGetCwd := cwd;
     FileTypeOf := by_extension; wxFile_Exists := λ _, true;
     Normalize := absolute; IsRelative := relative; MakeAbsolute := absolute;
     GetFullPath := λ f, f; ToLong := wxToLong;
     frame_Open := λ _, true; GetEditor := λ _, true;
     debuggers := [gdb];
     platform := other_platform; APP_PREFIX := "/usr"; ExecutableDir := "/usr/bin";
     GetResourcesDir := EmptyString; env_CODEBLOCKS_DATA_DIR := EmptyString;
     SetUserDataFolder := λ _, userDataOk; LoadResource := true;
     cfg_use_ipc := true; cfg_raise_via_ipc := true; cfg_single_instance := true;
     cfg_blank_workspace := true; cfg_show_splash := true;
     connection_established := connected; IsAnotherRunning := false;
     clipboard_IsOpened := false; startup_script := EmptyString; LoadScript := true;
     loader_GetData := true; crashReportName := EmptyString;
     throws := thrown |}.

Definition quiet : string → option exn := λ _, None.

(** started as [codeblocks --build a.cpp proj.cbp all.workspace b.cpp] *)
Definition build_world : World :=
  world ["codeblocks"; "--build"; "a.cpp"; "proj.cbp"; "all.workspace"; "b.cpp"]
    (Parsed (cmdline true false false ["a.cpp"; "proj.cbp"; "all.workspace"; "b.cpp"]))
    "/home/u" false true quiet.

(** started as [codeblocks --build a.cpp] *)
Definition build_without_project : World :=
  world ["codeblocks"; "--build"; "a.cpp"]
    (Parsed (cmdline true false false ["a.cpp"])) "/home/u" false true quiet.




Definition plain_world : World :=
  world ["codeblocks"] (Parsed no_options) "/home/u" false true quiet.

(** the application object before OnInit has run *)
Definition fresh : CodeBlocksApp :=
  {| m_Prefix := EmptyString; m_UserDataDir := EmptyString; m_BatchTarget := EmptyString;
     m_Script := EmptyString; m_AutoFile := EmptyString;
     m_DebuggerAttach := EmptyString; m_DebuggerConfig := EmptyString;
     m_DelayedFilesToOpen := [];
     m_Batch := false; m_BatchNotify := false; m_BatchWindowAutoClose := false;
     m_Build := false; m_ReBuild := false; m_Clean := false;
     m_HasProject := false; m_HasWorkSpace := false;
     m_SafeMode := false; m_DDE := false; m_Assocs := false;
     m_Splash := false; m_HasDebugLog := false;
     m_CrashHandler := false; m_BatchExitCode := 0%Z;
     m_Frame := false; m_pBatchBuildDialog := false;
     m_pSingleInstance := false; s_Loading := false;
     g_DDEServer := false; one_time_only := false |}.

(** a second process, started as [codeblocks a(1).cpp] while an instance
    is running *)
Definition second_instance : World :=
  world ["codeblocks"; "a(1).cpp"] (Parsed (cmdline false false false ["a(1).cpp"]))
    "/home/u" true true quiet.

(** a second process started without arguments *)
Definition second_instance_no_args : World :=
  world ["codeblocks"] (Parsed no_options) "/home/u" true true quiet.

(** a first process in which InitLocale throws a C string *)
Definition locale_throws : World :=
  world ["codeblocks"] (Parsed no_options) "/home/u" false true
    (λ site, if String.eqb site "InitLocale"
             then Some (CStringException "no locale") else None).

Definition start : Init.Sys := {| Init.app := fresh; Init.trace := [] |}.




End Demo.

(** ** The receiving side: DDEConnection *)

Module Server.

Import wx App.

(** the double quote *)
Definition dquote : ascii := ascii_of_nat 34.

(** the prefixes OnExecute looks for *)
Definition tag_IfExec_Open : string := "[IfExec_Open(" +:+ String dquote EmptyString.
Definition tag_Open : string := "[Open(" +:+ String dquote EmptyString.
Definition tag_OpenLine : string := "[OpenLine(" +:+ String dquote EmptyString.
Definition tag_Raise : string := "[Raise]".
Definition tag_CmdLine : string := "[CmdLine({".

(** The first group of the regular expression of OnExecute (a double quote,
    any characters as a group, a double quote) as [GetMatch(strData, 1)]
    gives it once
    [Matches(strData)] holds: the match starts at the first double quote
    and, the star being greedy, ends at the last one; there is none with
    fewer than two quotes. *)
Definition quoted (strData : string) : option string :=
  match find_char dquote strData, Find_fromEnd dquote strData with
  | Some first, Some last =>
      if first <? last then Some (substr (first + 1) (last - first - 1) strData) else None
  | _, _ => None
  end.

(** what a DDEConnection holds, and whether its frame is iconized *)
Record Connection := {
  conn_Frame : bool;        (* m_Frame of the connection is not null *)
  IsIconized : bool
}.

Definition AddFileToOpenDelayed (filename : string) (a : CodeBlocksApp) : CodeBlocksApp :=
  set_queue (m_DelayedFilesToOpen a ++ [filename]) (m_AutoFile a) a.

Definition SetAutoFile (file : string) (a : CodeBlocksApp) : CodeBlocksApp :=
  set_queue (m_DelayedFilesToOpen a) file a.

(** DDEConnection::OnExecute: the value returned, the application afterwards
    and the calls made. *)
Definition OnExecute (w : World) (conn : Connection) (strData : string)
    (a : CodeBlocksApp) : bool * CodeBlocksApp * list Event :=
  if StartsWith tag_IfExec_Open strData then (false, a, [])
  else if StartsWith tag_Open strData then
    match quoted strData with
    | Some file => (true, AddFileToOpenDelayed file a, [])
    | None => (true, a, [])
    end
  else if StartsWith tag_OpenLine strData then
    match quoted strData with
    | Some file => (true, SetAutoFile file a, [])
    | None => (true, a, [])
    end
  else if StartsWith tag_Raise strData then
    (true, a,
     if conn_Frame conn
     then (if IsIconized conn then [EvCall "m_Frame->Iconize(false)"] else [])
          ++ [EvCall "m_Frame->Raise"]
     else [])
  else if StartsWith tag_CmdLine strData then
    let '(cmdLine, cwd) := DDE.OnExecute_CmdLine strData in
    if negb (IsEmpty cmdLine) && negb (IsEmpty cwd) && conn_Frame conn then
      let '(_, a', evs) := ParseCmdLine w true cmdLine cwd a in
      (true, a', evs ++ [EvCall ("ProcessEvent(cbEVT_APP_CMDLINE) " +:+ cmdLine)])
    else (true, a, [])
  else
    (false, a, [EvSafeShowMessage "Warning" ("DDE topic " +:+ strData +:+ " not handled.")]).

(** DDEConnection::OnDisconnect *)
Definition OnDisconnect (w : World) (conn : Connection) (a : CodeBlocksApp)
    : bool * CodeBlocksApp * list Event :=
  if negb (s_Loading a) && conn_Frame conn then
    let '(a1, evs1) := LoadDelayedFiles w a in
    let '(a2, evs2) := AttachDebugger w a1 in
    (true, a2, evs1 ++ evs2)
  else (true, a, []).

(** the text of an Open request for a file *)
Definition Open_message (file : string) : string :=
  tag_Open +:+ file +:+ String dquote ")]".

End Server.

(** ** BatchJob *)

Module Batch.

Import wx App.

(** [wxString::Lower], on the letters A to Z *)
Definition lower_char (c : ascii) : ascii :=
  let n := nat_of_ascii c in
  if (65 <=? n) && (n <=? 90) then ascii_of_nat (n + 32) else c.

Fixpoint Lower (s : string) : string :=
  match s with
  | EmptyString => EmptyString
  | String c r => String (lower_char c) (Lower r)
  end.

(** the active project, as BatchJob uses it *)
Record Project := {
  GetActiveBuildTarget : string;
  GetBuildTargetsCount : nat;
  TargetTitle : Z → string;           (* GetBuildTarget(i)->GetTitle() *)
  Matches : string → string → bool;   (* title.Matches(mask) *)
  SelectTarget : Z → Z                (* SelectTarget(idx, false): the choice, or -1 *)
}.

(** what BatchJob asks of the plugin and project managers *)
Record BatchEnv := {
  GetFirstCompiler : bool;            (* a compiler plugin exists *)
  GetActiveProject : option Project;
  wxFileNameFromPath : string → string;
  GetBatchBuildDialog_title : string
}.

(** the index of the first of the targets [i, i + n) whose title matches the
    active target's name, or [idx] *)
Fixpoint find_target (prj : Project) (defTarget : string) (i : Z) (n : nat) (idx : Z) : Z :=
  match n with
  | O => idx
  | S n' =>
      if Matches prj (TargetTitle prj i) defTarget then i
      else find_target prj defTarget (i + 1)%Z n' idx
  end.

Definition set_BatchTarget (target : string) (dialog : bool) (a : CodeBlocksApp)
    : CodeBlocksApp :=
  {| m_Prefix := m_Prefix a; m_UserDataDir := m_UserDataDir a; m_BatchTarget := target;
     m_Script := m_Script a; m_AutoFile := m_AutoFile a;
     m_DebuggerAttach := m_DebuggerAttach a; m_DebuggerConfig := m_DebuggerConfig a;
     m_DelayedFilesToOpen := m_DelayedFilesToOpen a;
     m_Batch := m_Batch a; m_BatchNotify := m_BatchNotify a;
     m_BatchWindowAutoClose := m_BatchWindowAutoClose a;
     m_Build := m_Build a; m_ReBuild := m_ReBuild a; m_Clean := m_Clean a;
     m_HasProject := m_HasProject a; m_HasWorkSpace := m_HasWorkSpace a;
     m_SafeMode := m_SafeMode a; m_DDE := m_DDE a; m_Assocs := m_Assocs a;
     m_Splash := m_Splash a; m_HasDebugLog := m_HasDebugLog a;
     m_CrashHandler := m_CrashHandler a; m_BatchExitCode := m_BatchExitCode a;
     m_Frame := m_Frame a; m_pBatchBuildDialog := dialog;
     m_pSingleInstance := m_pSingleInstance a; s_Loading := s_Loading a;
     g_DDEServer := g_DDEServer a; one_time_only := one_time_only a |}.

(** m_BatchTarget after the "ask" block; [None] when the user selected no
    target and BatchJob returns 0 *)
Definition asked_target (env : BatchEnv) (a : CodeBlocksApp) : option string :=
  if negb (m_Clean a) && String.eqb (Lower (m_BatchTarget a)) "ask" then
    match GetActiveProject env with
    | Some prj =>
        let idx := find_target prj (GetActiveBuildTarget prj) 0%Z
                     (GetBuildTargetsCount prj) (-1)%Z in
        let idx := SelectTarget prj idx in
        if (idx =? -1)%Z then None else Some (TargetTitle prj idx)
    | None => Some EmptyString
    end
  else Some (m_BatchTarget a).

(** the request made to the compiler plugin *)
Definition compiler_request (a : CodeBlocksApp) (target : string) : list Event :=
  if m_ReBuild a then
    if m_HasProject a then [EvCall ("compiler->Rebuild " +:+ target)]
    else if m_HasWorkSpace a then [EvCall ("compiler->RebuildWorkspace " +:+ target)]
    else []
  else if m_Build a then
    if m_HasProject a then [EvCall ("compiler->Build " +:+ target)]
    else if m_HasWorkSpace a then [EvCall ("compiler->BuildWorkspace " +:+ target)]
    else []
  else if m_Clean a then
    if m_HasProject a then [EvCall ("compiler->Clean " +:+ target)]
    else if m_HasWorkSpace a then [EvCall ("compiler->CleanWorkspace " +:+ target)]
    else []
  else [].

Definition BatchJob (w : World) (env : BatchEnv) (a : CodeBlocksApp)
    : Z * CodeBlocksApp * list Event :=
  if negb (m_Batch a) then ((-1)%Z, a, [])
  else if negb (GetFirstCompiler env) then ((-3)%Z, a, [])
  else
    match asked_target env a with
    | None => (0%Z, set_BatchTarget EmptyString (m_pBatchBuildDialog a) a, [])
    | Some target =>
        let title := "Building '" +:+ wxFileNameFromPath env (List.last (argv w) EmptyString)
                     +:+ "' (target '" +:+ target +:+ "')" in
        (0%Z, set_BatchTarget target true a,
         [EvCall "PlaceWindow(m_pBatchBuildDialog)";
          EvCall ("wxTaskBarIcon::SetIcon " +:+ title);
          EvCall ("m_pBatchBuildDialog->SetTitle "
                  +:+ GetBatchBuildDialog_title env +:+ " - " +:+ title);
          EvCall "m_pBatchBuildDialog->Show";
          EvCall "m_pBatchBuildDialog->Bind(wxEVT_CLOSE_WINDOW)"]
         ++ compiler_request a target
         ++ [EvCall "wxTaskBarIcon::RemoveIcon"])
    end.

(** the requests to the compiler plugin in a trace *)
Fixpoint compiler_requests (evs : list Event) : list string :=
  match evs with
  | [] => []
  | EvCall what :: rest =>
      if StartsWith "compiler->" what then what :: compiler_requests rest
      else compiler_requests rest
  | _ :: rest => compiler_requests rest
  end.

End Batch.

(** ** Two instances: what one sends and the other receives *)

Module Session.

Import wx App.

(** the calls of the DDE/IPC client *)
Definition talks (e : Event) : bool :=
  match e with
  | EvMakeConnection | EvExecute _ | EvDisconnect => true
  | _ => false
  end.

(** a request that a DDEConnection takes, whatever its state *)
Definition accepted (e : Event) : Prop :=
  ∀ msg, e = EvExecute msg →
    ∀ (w : World) (conn : Server.Connection) (a : CodeBlocksApp),
      (Server.OnExecute w conn msg a).1.1 = true.

(** the connection of a server whose main frame exists and is shown *)
Definition frame_conn : Server.Connection :=
  {| Server.conn_Frame := true; Server.IsIconized := false |}.

(** an application whose start-up has ended *)
Definition running : CodeBlocksApp := set_Loading false (set_Frame true Demo.fresh).

(** the text of an IfExec_Open request for a file *)
Definition IfExec_Open_message (file : string) : string :=
  Server.tag_IfExec_Open +:+ file +:+ String Server.dquote ")]".

End Session.

(** ** Reading a batch build *)

Module BatchObs.

Import wx App.

Definition is_project (w : World) (name : string) : bool :=
  match FileTypeOf w name with
  | ftCodeBlocksProject => true
  | _ => false
  end.

(** the parameters the loop of ParseCmdLine looks at before it meets a
    workspace *)
Fixpoint up_to_workspace (w : World) (ps : list string) : list string :=
  match ps with
  | [] => []
  | p :: rest => if Obs.is_workspace w p then [] else p :: up_to_workspace w rest
  end.

(** the call on the compiler plugin that the switches of a command line
    ask for, on the project or on the workspace *)
Definition request_name (c : CmdLine) (project : bool) : string :=
  (if sw_rebuild c then "compiler->Rebuild"
   else if sw_build c then "compiler->Build"
   else "compiler->Clean")
  +:+ (if project then " " else "Workspace ").

(** what OnBatchBuildDone does to tell the user: the bell or the message box *)
Definition is_notification (e : Event) : bool :=
  match e with
  | EvBell | EvMessageBox _ => true
  | _ => false
  end.

(** a compiler plugin is installed; the target is the one named on the
    command line *)
Definition with_compiler : Batch.BatchEnv :=
  {| Batch.GetFirstCompiler := true; Batch.GetActiveProject := None;
     Batch.wxFileNameFromPath := λ path, path;
     Batch.GetBatchBuildDialog_title := "Batch build" |}.

End BatchObs.

(** ** Assertions about the start-up sequence *)

Module Logic.

Import App Init.

(** [hoare Pre m Q R X]: from a state that satisfies [Pre], [m] ends in a
    state that satisfies [Q x] when control goes on with the value [x],
    [R b] when OnInit is left by [return b], and [X] when an exception
    propagates *)
Definition hoare {A} (Pre : Sys → Prop) (m : M A)
    (Q : A → Sys → Prop) (R : bool → Sys → Prop) (X : Sys → Prop) : Prop :=
  ∀ s o s', Pre s → m s = (o, s') →
    match o with
    | Normal x => Q x s'
    | Return b => R b s'
    | Raise _ => X s'
    end.

(** the calls made since the trace was [t0] satisfy [Tr], and the
    application satisfies [F] *)
Definition since (t0 : list Event) (Tr : list Event → Prop) (F : CodeBlocksApp → Prop)
    (s : Sys) : Prop :=
  (∃ evs, trace s = t0 ++ evs ∧ Tr evs) ∧ F (app s).

(** [Tr] survives further calls that satisfy [P] *)
Definition grows (Tr : list Event → Prop) (P : Event → Prop) : Prop :=
  ∀ evs new, Tr evs → Forall P new → Tr (evs ++ new).

(** no call of the DDE/IPC client *)
Definition silent (e : Event) : Prop := Session.talks e = false.

End Logic.

(** ** What a start that succeeds needs *)

Module Start.

Import wx App.

(** the conditions under which OnInit, for the command line [c] and the
    members [a0] had before, does not give up before the main frame: the
    user data folder is accepted, the resources load, no running instance
    takes over, and no other instance forbids the start *)
Definition may_start (w : World) (c : CmdLine) (a0 : CodeBlocksApp) : Prop :=
  let userDataDir := Found_into (opt_user_data_dir c) (m_UserDataDir a0) in
  let script := Found_into (opt_script c) (m_Script a0) in
  let batch := sw_build c || sw_rebuild c || sw_clean c in
  (userDataDir ≠ EmptyString → SetUserDataFolder w userDataDir = true)
  ∧ (batch = false → script = EmptyString → LoadResource w = true)
  ∧ (sw_no_dde c = false → batch = false → cfg_use_ipc w = true →
     connection_established w = false)
  ∧ (cfg_single_instance w = true → sw_multiple_instance c = false →
     IsAnotherRunning w = false).

End Start.

(** ** The main frame and those who call it *)

Module Frame.

Import wx App.

(** the calls that go through the main frame: opening a file, moving to a
    line of it, and the calls on [frame] itself *)
Definition uses_frame (e : Event) : bool :=
  match e with
  | EvOpen _ _ | EvGotoLine _ _ => true
  | EvCall site => StartsWith "frame->" site
  | _ => false
  end.

(** the frame is created before it is used: the calls split into a part
    that does not use the frame and a part that begins with its creation *)
Definition frame_first (evs : list Event) : Prop :=
  ∃ pre post,
    evs = pre ++ post
    ∧ Forall (λ e, uses_frame e = false) pre
    ∧ (post = [] ∨ head post = Some EvNewMainFrame).

(** CodeBlocksApp::MacOpenFile (wxMac only) *)
Definition MacOpenFile (fileName : string) (a : CodeBlocksApp) : CodeBlocksApp * list Event :=
  if s_Loading a then (set_queue (m_DelayedFilesToOpen a ++ [fileName]) (m_AutoFile a) a, [])
  else if m_Frame a then (a, [EvOpen fileName true])
  else (a, []).

End Frame.

(** ** A shortcut on the command line *)

Module Shortcut.

(** started as [codeblocks a.cpp ws.lnk] on a machine where ws.lnk is a
    shortcut to the workspace /t/all.workspace: FileTypeOf sees the name as
    it was typed, Normalize (wxPATH_NORM_SHORTCUT) resolves it *)
Definition base : World :=
  Demo.world ["codeblocks"; "a.cpp"; "ws.lnk"]
    (Parsed (Demo.cmdline false false false ["a.cpp"; "ws.lnk"])) "/home/u" false true
    Demo.quiet.

Definition world : World :=
  {| argv := argv base; Parse := Parse base; wxGetCwd := wxGetCwd base;
     FileTypeOf := FileTypeOf base; wxFile_Exists := wxFile_Exists base;
     Normalize := λ cwd f, if String.eqb f "ws.lnk" then "/t/all.workspace"
                           else Normalize base cwd f;
     IsRelative := IsRelative base; MakeAbsolute := MakeAbsolute base;
     GetFullPath := GetFullPath base; ToLong := ToLong base;
     frame_Open := frame_Open base; GetEditor := GetEditor base;
     debuggers := debuggers base;
     platform := platform base; APP_PREFIX := APP_PREFIX base;
     ExecutableDir := ExecutableDir base;
     GetResourcesDir := GetResourcesDir base;
     env_CODEBLOCKS_DATA_DIR := env_CODEBLOCKS_DATA_DIR base;
     SetUserDataFolder := SetUserDataFolder base; LoadResource := LoadResource base;
     cfg_use_ipc := cfg_use_ipc base; cfg_raise_via_ipc := cfg_raise_via_ipc base;
     cfg_single_instance := cfg_single_instance base;
     cfg_blank_workspace := cfg_blank_workspace base;
     cfg_show_splash := cfg_show_splash base;
     connection_established := connection_established base;
     IsAnotherRunning := IsAnotherRunning base;
     clipboard_IsOpened := clipboard_IsOpened base;
     startup_script := startup_script base; LoadScript := LoadScript base;
     loader_GetData := loader_GetData base; crashReportName := crashReportName base;
     throws := throws base |}.

End Shortcut.

(** * Properties *)

#[local] Arguments String.append !s1 s2 : simpl nomatch.
#[local] Arguments Ascii.eqb : simpl never.

(** comparisons of two known characters *)
Ltac eval_eqb :=
  repeat match goal with
    | |- context [Ascii.eqb ?a ?b] =>
        let v := eval vm_compute in (Ascii.eqb a b) in
        match v with
        | true => change (Ascii.eqb a b) with true
        | false => change (Ascii.eqb a b) with false
        end
    end.

(** ** Facts about the string operations *)

Module wxFacts.

Import wx.

Lemma length_append (s t : string) :
  String.length (s +:+ t) = String.length s + String.length t.
Proof. induction s as [|c s IH]; simpl; [done | by rewrite IH]. Qed.

Lemma append_assoc (s t u : string) : (s +:+ t) +:+ u = s +:+ (t +:+ u).
Proof. induction s as [|c s IH]; simpl; [done | by rewrite IH]. Qed.

Lemma drop_s_append (s t : string) : drop_s (String.length s) (s +:+ t) = t.
Proof. induction s as [|c s IH]; simpl; [by destruct t | done]. Qed.

Lemma take_s_append (s t : string) : take_s (String.length s) (s +:+ t) = s.
Proof. induction s as [|c s IH]; simpl; [by destruct t | by rewrite IH]. Qed.

Lemma StartsWith_append (p t : string) : StartsWith p (p +:+ t) = true.
Proof.
  induction p as [|c p IH]; simpl; [by destruct t |].
  by rewrite Ascii.eqb_refl.
Qed.

(** [StartsWith] recognises exactly the strings that extend the prefix. *)
Lemma StartsWith_spec (p s : string) :
  StartsWith p s = true ↔ ∃ t, s = p +:+ t.
Proof.
  revert s. induction p as [|a p IH]; intros s; simpl.
  - split; [intros _; by exists s | by destruct s].
  - destruct s as [|b s]; [split; [done | by intros [t ?]] |].
    destruct (Ascii.eqb_spec a b) as [->|Hne].
    + rewrite IH. split; intros [t Ht]; exists t; congruence.
    + split; [done | intros [t Ht]; congruence].
Qed.

(** What [find0] returns is an occurrence, and the first one. *)
Lemma find0_Some (needle s : string) (i : nat) :
  find0 needle s = Some i →
  StartsWith needle (drop_s i s) = true
  ∧ ∀ j, j < i → StartsWith needle (drop_s j s) = false.
Proof.
  revert i. induction s as [|c s IH]; intros i; simpl.
  - destruct (StartsWith needle EmptyString) eqn:E; [|done].
    intros [= <-]. split; [done | lia].
  - destruct (StartsWith needle (String c s)) eqn:E.
    + intros [= <-]. split; [done | lia].
    + destruct (find0 needle s) as [k|] eqn:Ek; [|done].
      intros [= <-]. destruct (IH k eq_refl) as [Hk Hlt]. split; [done |].
      intros [|j] Hj; [done | apply Hlt; lia].
Qed.

Lemma find0_None (needle s : string) (j : nat) :
  find0 needle s = None → StartsWith needle (drop_s j s) = false.
Proof.
  revert j. induction s as [|c s IH]; intros j; simpl.
  - destruct (StartsWith needle EmptyString) eqn:E; [done |]. by destruct j.
  - destruct (StartsWith needle (String c s)) eqn:E; [done |].
    destruct (find0 needle s) eqn:Ek; [done |]. intros _.
    destruct j as [|j]; [done | by apply IH].
Qed.

Lemma find_char_Some (ch : ascii) (s : string) (i : nat) :
  find_char ch s = Some i →
  s = take_s i s +:+ String ch (drop_s (S i) s)
  ∧ find_char ch (take_s i s) = None.
Proof.
  revert i. induction s as [|c s IH]; intros i; simpl; [done |].
  destruct (Ascii.eqb_spec c ch) as [->|Hne].
  - intros [= <-]. simpl. split; [by destruct s | done].
  - destruct (find_char ch s) as [k|] eqn:Ek; [|done].
    intros [= <-]. destruct (IH k eq_refl) as [Hs Hn]. simpl.
    destruct (Ascii.eqb_spec c ch); [done |]. rewrite Hn. split; [|done].
    f_equal. exact Hs.
Qed.

Lemma find_char_append (ch : ascii) (p t : string) :
  find_char ch p = None →
  find_char ch (p +:+ String ch t) = Some (String.length p).
Proof.
  induction p as [|c p IH]; simpl.
  - by rewrite Ascii.eqb_refl.
  - destruct (Ascii.eqb c ch); [done |].
    destruct (find_char ch p); [done |]. intros _. by rewrite IH.
Qed.

Lemma Find_fromEnd_append (ch : ascii) (p t : string) :
  find_char ch t = None →
  Find_fromEnd ch (p +:+ String ch t) = Some (String.length p).
Proof.
  intros Ht.
  assert (Hn : Find_fromEnd ch t = None).
  { induction t as [|c t IH]; simpl in *; [done |].
    destruct (Ascii.eqb c ch); [done |].
    destruct (find_char ch t); [done |]. by rewrite IH. }
  induction p as [|c p IH]; simpl.
  - by rewrite Hn, Ascii.eqb_refl.
  - by rewrite IH.
Qed.

Lemma Find_fromEnd_None (ch : ascii) (s : string) :
  Find_fromEnd ch s = None ↔ find_char ch s = None.
Proof.
  induction s as [|c s IH]; simpl; [done |].
  destruct IH as [IH1 IH2].
  destruct (Find_fromEnd ch s), (find_char ch s), (Ascii.eqb c ch);
    intuition discriminate.
Qed.

Lemma IsEmpty_true (s : string) : IsEmpty s = true ↔ s = EmptyString.
Proof. by destruct s. Qed.

Lemma IsEmpty_false (s : string) : IsEmpty s = false ↔ s ≠ EmptyString.
Proof. by destruct s. Qed.

End wxFacts.

#[local] Arguments wx.StartsWith !p s : simpl nomatch.

(** ** The CmdLine message: what the receiver recovers *)

Module DDEFacts.

Import wx wxFacts DDE.

Ltac char_cases c :=
  destruct (Ascii.eqb_spec c "("%char) as [->|?];
  [|destruct (Ascii.eqb_spec c ")"%char) as [->|?];
    [|destruct (Ascii.eqb_spec c "\"%char) as [->|?];
      [|destruct (Ascii.eqb_spec c "}"%char) as [->|?]]]].

Ltac neq_chars :=
  repeat match goal with
    | H : ?c ≠ ?d |- context [Ascii.eqb ?d ?c] =>
        rewrite (proj2 (Ascii.eqb_neq d c)) by congruence
    | H : ?c ≠ ?d |- context [Ascii.eqb ?c ?d] =>
        rewrite (proj2 (Ascii.eqb_neq c d)) by congruence
    end.

Lemma StartsWith_cons (a b : ascii) (p s : string) :
  StartsWith (String a p) (String b s) = if Ascii.eqb a b then StartsWith p s else false.
Proof. reflexivity. Qed.

Ltac chars :=
  repeat (progress
            (simpl; rewrite ?StartsWith_cons; eval_eqb; neq_chars; rewrite ?Ascii.eqb_refl)).

Lemma Replace_open (s : string) : Replace "(" "\(" s = esc_open s.
Proof.
  unfold Replace. induction s as [|c r IH]; [done |].
  char_cases c; chars; by rewrite IH.
Qed.

Lemma Replace_close_esc_open (s : string) : Replace ")" "\)" (esc_open s) = esc s.
Proof.
  unfold Replace. induction s as [|c r IH]; [done |].
  char_cases c; chars; by rewrite IH.
Qed.

Lemma escape_parens_esc (s : string) : escape_parens s = esc s.
Proof. unfold escape_parens. by rewrite Replace_open, Replace_close_esc_open. Qed.

(** An escaped text never shows a parenthesis where a marker would need
    one: at its head, or right after a closing brace. *)
Lemma esc_head (s t p : string) :
  StartsWith (String ")" p) (esc s +:+ String "}" t) = false.
Proof. destruct s as [|c r]; [done |]. char_cases c; by chars. Qed.

Lemma esc_head_nil (s p : string) :
  StartsWith (String ")" p) (esc s) = false.
Proof. destruct s as [|c r]; [done |]. char_cases c; by chars. Qed.

Lemma esc_open_head_nil (s p : string) :
  StartsWith (String "(" p) (esc_open s) = false.
Proof. destruct s as [|c r]; [done |]. char_cases c; by chars. Qed.

(** The first occurrence of a marker that begins with "})" is the one
    written after the escaped text. *)
Lemma find0_after_esc (s m t : string) :
  find0 (String "}" (String ")" m)) (esc s +:+ String "}" (String ")" (m +:+ t)))
  = Some (String.length (esc s)).
Proof.
  induction s as [|c r IH].
  - simpl. eval_eqb. by rewrite StartsWith_append.
  - char_cases c; chars; rewrite ?esc_head, ?IH; done.
Qed.

Lemma find0_marker (s rest : string) :
  find0 "})CWD({" (esc s +:+ "})CWD({" +:+ rest) = Some (String.length (esc s)).
Proof. exact (find0_after_esc s "CWD({" rest). Qed.

Lemma Replace_close_back (s : string) : Replace "\)" ")" (esc s) = esc_open s.
Proof.
  unfold Replace. induction s as [|c r IH]; [done |].
  char_cases c; chars; rewrite ?IH; try done.
  change (StartsWith ")" (esc r)) with (StartsWith (String ")" EmptyString) (esc r)).
  by rewrite esc_head_nil.
Qed.

Lemma Replace_open_back (s : string) : Replace "\(" "(" (esc_open s) = s.
Proof.
  unfold Replace. induction s as [|c r IH]; [done |].
  char_cases c; chars; rewrite ?IH; try done.
  change (StartsWith "(" (esc_open r))
    with (StartsWith (String "(" EmptyString) (esc_open r)).
  by rewrite esc_open_head_nil.
Qed.

(** Unescaping undoes escaping, whatever the text. *)
Lemma unescape_escape (s : string) : unescape_parens (escape_parens s) = s.
Proof.
  unfold unescape_parens.
  by rewrite escape_parens_esc, Replace_close_back, Replace_open_back.
Qed.

Lemma drop_s_0 (s : string) : drop_s 0 s = s.
Proof. by destruct s. Qed.

Lemma find_0 (needle s : string) : find needle 0 s = find0 needle s.
Proof.
  unfold find. case_decide; [|lia]. rewrite drop_s_0.
  by destruct (find0 needle s).
Qed.

Lemma find_after_prefix (needle p t : string) :
  find needle (String.length p) (p +:+ t)
  = (λ i, String.length p + i) <$> find0 needle t.
Proof.
  unfold find. case_decide as Hle.
  - by rewrite drop_s_append.
  - exfalso. apply Hle. rewrite length_append. lia.
Qed.

Lemma substr_after_prefix (p t : string) (n : nat) :
  substr (String.length p) n (p +:+ t) = take_s n t.
Proof. unfold substr. by rewrite drop_s_append. Qed.

(** Where the receiver finds the CWD marker. *)
Lemma find_marker_message (s cwd : string) :
  find "})CWD({" 0 (CmdLine_message (escape_parens s) cwd)
  = Some (coundCmdLind + String.length (esc s)).
Proof.
  rewrite find_0, escape_parens_esc. unfold CmdLine_message.
  pose proof (find0_marker s (cwd +:+ "})]")) as Hm.
  chars. simpl in Hm. by rewrite Hm.
Qed.

(** In a message that takes the CmdLine branch the marker cannot start
    inside the tag, so [posCwd - coundCmdLind] does not wrap around. *)
Lemma marker_after_tag (strData : string) (posCwd : nat) :
  is_CmdLine_message strData = true →
  find "})CWD({" 0 strData = Some posCwd →
  coundCmdLind ≤ posCwd.
Proof.
  intros [t ->]%StartsWith_spec. rewrite find_0. chars.
  destruct (find0 _ t) as [k|]; [|done].
  intros [= <-]. unfold coundCmdLind. lia.
Qed.

(** The command line always comes back: the receiver's [cmdLine] is the
    text the sender escaped, for every command line and every directory. *)
Theorem cmdLine_recovered (s cwd : string) :
  (OnExecute_CmdLine (CmdLine_message (escape_parens s) cwd)).1 = s.
Proof.
  unfold OnExecute_CmdLine. rewrite find_marker_message. cbn [fst].
  replace (coundCmdLind + String.length (esc s) - coundCmdLind)
    with (String.length (esc s)) by lia.
  rewrite escape_parens_esc. unfold CmdLine_message, substr, coundCmdLind.
  cbn [drop_s String.append].
  rewrite take_s_append, <- escape_parens_esc. apply unescape_escape.
Qed.

(** What the receiver takes for the directory: the text up to the first
    "})]" after the marker, with a backslash removed before each
    parenthesis. *)
Lemma cwd_extracted (s cwd : string) :
  (OnExecute_CmdLine (CmdLine_message (escape_parens s) cwd)).2
  = match find0 "})]" (cwd +:+ "})]") with
    | Some k => unescape_parens (take_s k (cwd +:+ "})]"))
    | None => EmptyString
    end.
Proof.
  unfold OnExecute_CmdLine. rewrite find_marker_message. cbn [snd].
  rewrite escape_parens_esc.
  remember ("[CmdLine({" +:+ esc s +:+ "})CWD({") as p eqn:Hp.
  replace (CmdLine_message (esc s) cwd) with (p +:+ (cwd +:+ "})]"))
    by (subst p; unfold CmdLine_message; by rewrite !append_assoc).
  replace (coundCmdLind + String.length (esc s) + countCWD) with (String.length p)
    by (subst p; unfold coundCmdLind, countCWD; rewrite !length_append; simpl; lia).
  rewrite find_after_prefix.
  destruct (find0 "})]" (cwd +:+ "})]")) as [k|]; [|done].
  simpl.
  replace (String.length p + k - String.length p) with k by lia.
  by rewrite substr_after_prefix.
Qed.

(** The directory comes back when it holds no "})]" and no escaped
    parenthesis of its own. *)
Theorem cwd_recovered (s cwd : string) :
  find0 "})]" (cwd +:+ "})]") = Some (String.length cwd) →
  unescape_parens cwd = cwd →
  OnExecute_CmdLine (CmdLine_message (escape_parens s) cwd) = (s, cwd).
Proof.
  intros Hfind Hun.
  rewrite (surjective_pairing (OnExecute_CmdLine _)).
  rewrite cmdLine_recovered, cwd_extracted, Hfind, take_s_append. by rewrite Hun.
Qed.

End DDEFacts.

(** ** C1: forwarding the command line between two instances *)

Import wx wxFacts.

(** C1 (the code departs from the claim).  The claim is that the receiver
    recovers both the command line [s] and the directory [w] from
    "[CmdLine({" escaped(s) "})CWD({" w "})]".  The command line does come
    back for every [s] and [w] ([DDEFacts.cmdLine_recovered]), and so does
    the directory when it contains neither "})]" nor a backslash before a
    parenthesis ([DDEFacts.cwd_recovered]).  But the sender inserts the
    directory without escaping it, while the receiver unescapes it: for the
    command line "a.cpp " sent from the directory C:\(work) the receiver
    obtains the directory C:(work). *)
Theorem C1_directory_not_recovered :
  let s := "a.cpp " in
  let cwd := "C:\(work)" in
  DDE.OnExecute_CmdLine (DDE.CmdLine_message (DDE.escape_parens s) cwd) = (s, "C:(work)")
  ∧ "C:(work)" ≠ cwd.
Proof. split; [vm_compute; reflexivity | discriminate]. Qed.

(** A directory that contains "})]" is cut short as well. *)
Example directory_cut_at_marker :
  DDE.OnExecute_CmdLine (DDE.CmdLine_message (DDE.escape_parens "a.cpp ") "/tmp/x})]y")
  = ("a.cpp ", "/tmp/x").
Proof. vm_compute. reflexivity. Qed.

(** ** C3: AttachDebugger *)

Module AttachFacts.

Import App Obs.

(** Splitting [name:config] at the first colon gives the two parts. *)
Lemma split_at_colon (pluginName configName : string) :
  find_char ":" pluginName = None →
  find_char ":" (pluginName +:+ ":" +:+ configName) = Some (String.length pluginName)
  ∧ substr 0 (String.length pluginName) (pluginName +:+ ":" +:+ configName) = pluginName
  ∧ substr_from (String.length pluginName + 1) (pluginName +:+ ":" +:+ configName)
    = configName.
Proof.
  intros Hn. split; [by apply find_char_append |]. split.
  - unfold substr. rewrite DDEFacts.drop_s_0. apply take_s_append.
  - unfold substr_from.
    replace (String.length pluginName + 1)
      with (String.length (pluginName +:+ ":")) by (rewrite length_append; simpl; lia).
    rewrite <- (append_assoc pluginName ":" configName). apply drop_s_append.
Qed.

(** Conversely, a colon found at [pos] splits the text there. *)
Lemma colon_found (config : string) (pos : nat) :
  find_char ":" config = Some pos →
  config = substr 0 pos config +:+ ":" +:+ substr_from (pos + 1) config
  ∧ find_char ":" (substr 0 pos config) = None
  ∧ String.length (substr 0 pos config) = pos.
Proof.
  intros H. destruct (find_char_Some _ _ _ H) as [Hs Hn].
  unfold substr, substr_from. rewrite DDEFacts.drop_s_0.
  replace (pos + 1) with (S pos) by lia. split; [exact Hs |]. split; [exact Hn |].
  clear Hs Hn. revert pos H. induction config as [|c r IH]; intros pos; simpl; [done |].
  destruct (Ascii.eqb c ":"); [by intros [= <-] |].
  destruct (find_char ":" r) as [k|] eqn:Ek; [|done].
  intros [= <-]. simpl. by rewrite (IH k).
Qed.

Lemma find_plugin_Some (name : string) (ds : list DebuggerPlugin) (p : DebuggerPlugin) :
  find_plugin name ds = Some p → p ∈ ds ∧ SettingsName p = name.
Proof.
  induction ds as [|d ds IH]; simpl; [done |].
  destruct (String.eqb_spec (SettingsName d) name) as [E|_].
  - intros [= <-]. split; [left | done].
  - intros [Hin Hn]%IH. split; [by right | done].
Qed.

Lemma find_config_Some (name : string) (configs : list string) (i : nat) :
  find_config name configs = Some i → configs !! i = Some name.
Proof.
  revert i. induction configs as [|c cs IH]; intros i; simpl; [done |].
  destruct (String.eqb_spec c name) as [->|_]; [by intros [= <-] |].
  destruct (find_config name cs) as [k|]; [|done].
  intros [= <-]. by apply IH.
Qed.

(** an event of a list that holds no call on a plugin is no such call *)
Ltac not_attached He Hatt :=
  repeat first
    [ apply elem_of_nil in He; contradiction
    | apply elem_of_app in He as [He|He]
    | apply elem_of_cons in He as [->|He]; [discriminate Hatt |]
    | apply list_elem_of_fmap in He as (? & -> & _); discriminate Hatt ].

End AttachFacts.

(** C3.  AttachDebugger splits --dbg-config at its first colon.  When
    --dbg-attach is not empty, the text before the colon is not empty and
    names a registered plugin, and the text after it names one of that
    plugin's configurations, the trace ends with SetActiveConfig followed by
    AttachToProcess with the --dbg-attach string, and nothing else touches a
    plugin.  A plugin is touched in no other case: when one is, the options
    are as just described, the plugin is a registered one with that settings
    name and the configuration stands at the index passed.  Whenever at
    least one of the two options was given and nothing is attached, an error
    has been logged; the function always returns. *)
Theorem C3_AttachDebugger (w : World) (a : CodeBlocksApp) :
  let attach := m_DebuggerAttach a in
  let config := m_DebuggerConfig a in
  let evs := (App.AttachDebugger w a).2 in
  (∀ pluginName configName plugin index,
      attach ≠ EmptyString →
      config = pluginName +:+ ":" +:+ configName →
      pluginName ≠ EmptyString →
      find_char ":" pluginName = None →
      App.find_plugin pluginName (debuggers w) = Some plugin →
      App.find_config configName (Configurations plugin) = Some index →
      ∃ logs,
        evs = logs ++ [EvSetActiveConfig plugin (Z.of_nat index);
                       EvAttachToProcess plugin attach]
        ∧ ∀ e, e ∈ logs → Obs.is_attach_call e = false)
  ∧ ((∃ e, e ∈ evs ∧ Obs.is_attach_call e = true) →
     attach ≠ EmptyString
     ∧ ∃ pluginName configName plugin index,
         config = pluginName +:+ ":" +:+ configName
         ∧ pluginName ≠ EmptyString
         ∧ find_char ":" pluginName = None
         ∧ App.find_plugin pluginName (debuggers w) = Some plugin
         ∧ App.find_config configName (Configurations plugin) = Some index
         ∧ plugin ∈ debuggers w
         ∧ SettingsName plugin = pluginName
         ∧ Configurations plugin !! index = Some configName)
  ∧ ((attach ≠ EmptyString ∨ config ≠ EmptyString) →
     (∀ e, e ∈ evs → Obs.is_attach_call e = false) →
     ∃ msg, EvLogError msg ∈ evs).
Proof.
  intros attach config evs. subst evs. unfold App.AttachDebugger.
  fold attach config. split; [|split].
  - intros pn cn plugin index Ha Hc Hpn Hcolon Hplugin Hconfig.
    destruct (AttachFacts.split_at_colon pn cn Hcolon) as (Hf & Hp & Hq).
    rewrite <- Hc in Hf, Hp, Hq.
    apply IsEmpty_false in Ha. rewrite Ha.
    assert (Hce : IsEmpty config = false).
    { apply IsEmpty_false. rewrite Hc. by destruct pn. }
    rewrite Hce. simpl orb. cbv iota. rewrite Hf.
    destruct (String.length pn) as [|n] eqn:Hlen; [by destruct pn |].
    rewrite Hp. replace (S n + 1) with (S n + 1) in Hq by done. rewrite Hq.
    destruct (debuggers w) as [|d ds] eqn:Hd; [done |].
    rewrite Hplugin, Hconfig. cbn [snd].
    eexists (_ ++ [_]). split.
    + rewrite <- app_assoc. reflexivity.
    + intros e [->%list_elem_of_singleton | ->%list_elem_of_singleton]%elem_of_app; done.
  - intros (e & He & Hatt).
    destruct (IsEmpty attach) eqn:Ha; destruct (IsEmpty config) eqn:Hce;
      cbn [orb negb Bool.eqb snd] in He; try solve [exfalso; AttachFacts.not_attached He Hatt].
    split; [by apply IsEmpty_false |].
    destruct (find_char ":" config) as [[|n]|] eqn:Hf;
      cbn [snd] in He; try solve [exfalso; AttachFacts.not_attached He Hatt].
    destruct (AttachFacts.colon_found _ _ Hf) as (Hsplit & Hnone & Hlen).
    exists (substr 0 (S n) config), (substr_from (S n + 1) config).
    destruct (debuggers w) as [|d ds] eqn:Hd;
      cbn [snd] in He; try solve [exfalso; AttachFacts.not_attached He Hatt].
    destruct (App.find_plugin (substr 0 (S n) config) (d :: ds)) as [plugin|] eqn:Hp;
      cbn [snd] in He; try solve [exfalso; AttachFacts.not_attached He Hatt].
    destruct (App.find_config (substr_from (S n + 1) config) (Configurations plugin))
      as [index|] eqn:Hi;
      cbn [snd] in He; try solve [exfalso; AttachFacts.not_attached He Hatt].
    exists plugin, index.
    destruct (AttachFacts.find_plugin_Some _ _ _ Hp) as [Hin Hname].
    pose proof (AttachFacts.find_config_Some _ _ _ Hi) as Hcfg.
    repeat split; try done.
    intros E. rewrite E in Hlen. done.
  - intros Hgiven Hnone.
    destruct (IsEmpty attach) eqn:Ha, (IsEmpty config) eqn:Hce.
    + apply IsEmpty_true in Ha, Hce. by destruct Hgiven.
    + simpl. eexists. apply list_elem_of_here.
    + simpl. eexists. apply list_elem_of_here.
    + simpl orb. cbv iota.
      destruct (find_char ":" config) as [[|n]|] eqn:Hf.
      * eexists. cbn [snd]. apply elem_of_app. right. apply list_elem_of_here.
      * destruct (debuggers w) as [|d ds] eqn:Hd.
        { eexists. cbn [snd]. apply elem_of_app. right. apply list_elem_of_here. }
        destruct (App.find_plugin _ (d :: ds)) as [plugin|] eqn:Hp.
        -- destruct (App.find_config _ (Configurations plugin)) as [index|] eqn:Hi.
           ++ exfalso.
              specialize (Hnone (EvAttachToProcess plugin attach)).
              cbn [snd] in Hnone. discriminate Hnone. apply elem_of_app. right.
              apply list_elem_of_further, list_elem_of_further, list_elem_of_here.
           ++ eexists. cbn [snd]. apply elem_of_app. right. apply elem_of_app. left.
              apply list_elem_of_here.
        -- eexists. cbn [snd]. apply elem_of_app. right. apply elem_of_app. left.
           apply list_elem_of_here.
      * eexists. cbn [snd]. apply elem_of_app. right. apply list_elem_of_here.
Qed.

(** A plugin and a configuration that exist are attached to. *)
Example attach_gdb_remote :
  (App.AttachDebugger Demo.plain_world
     (App.set_debugger "4242" "gdb_debugger:Remote" Demo.fresh)).2
  = [EvLog "Attach debugger 'gdb_debugger:Remote' to '4242'";
     EvLog "Debugger plugin and configuration found. Attaching!!!";
     EvSetActiveConfig Demo.gdb 1; EvAttachToProcess Demo.gdb "4242"].
Proof. vm_compute. reflexivity. Qed.

Example attach_without_plugin_name :
  (App.AttachDebugger Demo.plain_world
     (App.set_debugger "4242" ":Remote" Demo.fresh)).2
  = [EvLog "Attach debugger ':Remote' to '4242'";
     EvLogError "No delimiter found. The --dbg-config format is 'plugin-name:config-name'"].
Proof. vm_compute. reflexivity. Qed.

(** ** C4 and C9: LoadDelayedFiles *)

Module DelayedFacts.

Import App Obs.

(** Splitting [file:line] at the last colon gives the two parts. *)
Lemma split_at_last_colon (pre suf : string) :
  find_char ":" suf = None →
  Find_fromEnd ":" (pre +:+ ":" +:+ suf) = Some (String.length pre)
  ∧ Remove (String.length pre) (pre +:+ ":" +:+ suf) = pre
  ∧ substr_from (String.length pre + 1) (pre +:+ ":" +:+ suf) = suf.
Proof.
  intros Hn. split; [by apply Find_fromEnd_append |]. split.
  - apply take_s_append.
  - unfold substr_from.
    replace (String.length pre + 1)
      with (String.length (pre +:+ ":")) by (rewrite length_append; simpl; lia).
    rewrite <- (append_assoc pre ":" suf). apply drop_s_append.
Qed.

(** a text with no colon is the file name, with no line *)
Lemma split_AutoFile_plain (w : World) (v : string) :
  find_char ":" v = None → split_AutoFile w v = (v, (-1)%Z).
Proof.
  intros H. unfold split_AutoFile. by rewrite (proj2 (Find_fromEnd_None _ _) H).
Qed.

Lemma split_AutoFile_colon (w : World) (pre suf : string) :
  find_char ":" suf = None →
  split_AutoFile w (pre +:+ ":" +:+ suf)
  = ((if (ToLong w suf (-1)%Z).1 then pre else pre +:+ ":" +:+ suf),
     (ToLong w suf (-1)%Z).2).
Proof.
  intros H. destruct (split_at_last_colon pre suf H) as (Hf & Hr & Hs).
  unfold split_AutoFile. rewrite Hf, Hr, Hs. by destruct (ToLong w suf (-1)%Z).
Qed.

Lemma to_int_id (z : Z) :
  (-2147483648 ≤ z < 2147483648)%Z → to_int z = z.
Proof. intros H. unfold to_int. rewrite Z.mod_small; lia. Qed.

Lemma LoadDelayedFiles_events (w : World) (a : CodeBlocksApp) :
  (LoadDelayedFiles w a).2
  = ((λ f, EvOpen f true) <$> set_iteration (list_to_set (m_DelayedFilesToOpen a)))
    ++ (if IsEmpty (m_AutoFile a) then [] else open_AutoFile w (m_AutoFile a)).
Proof.
  unfold LoadDelayedFiles. destruct (IsEmpty (m_AutoFile a)); cbn [snd]; [|done].
  by rewrite app_nil_r.
Qed.

End DelayedFacts.

(** C4 (as amended).  For a --file value [pre:suf] whose last colon is the
    one shown, LoadDelayedFiles opens the queued files and then: if [suf]
    parses as the integer [n], it opens [pre] provided [pre] is not empty
    (and nothing when it is empty), and moves the editor to line [n - 1]
    when the open succeeds, the editor exists and [n] is not -1; if [suf]
    does not parse, it opens the whole value, which is never empty, and
    jumps only if ToLong has stored a number other than -1 all the same.
    For [n] between -2^31 + 1 and 2^31 the line passed is exactly [n - 1]. *)
Theorem C4_file_and_line (w : World) (a : CodeBlocksApp) (pre suf : string)
    (parsed : bool) (n : Z) :
  m_AutoFile a = pre +:+ ":" +:+ suf →
  find_char ":" suf = None →
  ToLong w suf (-1)%Z = (parsed, n) →
  let filePart := if parsed then pre else pre +:+ ":" +:+ suf in
  let full := Normalize w EmptyString filePart in
  (App.LoadDelayedFiles w a).2
  = ((λ f, EvOpen f true)
       <$> App.set_iteration (list_to_set (m_DelayedFilesToOpen a)))
    ++ (if IsEmpty filePart then []
        else EvOpen full false ::
             (if frame_Open w full && GetEditor w full && negb (n =? -1)%Z
              then [EvGotoLine full (App.to_int (n - 1))] else []))
  ∧ (parsed = false → IsEmpty filePart = false)
  ∧ ((-2147483648 < n ≤ 2147483648)%Z → App.to_int (n - 1) = (n - 1)%Z).
Proof.
  intros Hv Hsuf Hlong filePart full. split; [|split].
  - rewrite DelayedFacts.LoadDelayedFiles_events, Hv.
    assert (IsEmpty (pre +:+ ":" +:+ suf) = false) as -> by by destruct pre.
    unfold App.open_AutoFile.
    by rewrite (DelayedFacts.split_AutoFile_colon w pre suf Hsuf), Hlong.
  - intros ->. subst filePart. by destruct pre.
  - intros Hn. apply DelayedFacts.to_int_id. lia.
Qed.

Lemma C4_file_and_line_witness :
  (App.LoadDelayedFiles Demo.plain_world (App.set_queue [] "main.cpp:12" Demo.fresh)).2
  = [EvOpen "/cwd/main.cpp" false; EvGotoLine "/cwd/main.cpp" 11].
Proof.
  destruct (C4_file_and_line Demo.plain_world
              (App.set_queue [] "main.cpp:12" Demo.fresh) "main.cpp" "12" true 12%Z
              eq_refl eq_refl eq_refl) as [H _].
  rewrite H. vm_compute. reflexivity.
Defined.

(** The claim says the file is opened in both cases; for the value ":12",
    whose suffix parses as 12, the file part is empty and nothing is opened. *)
Lemma C4_counterexample :
  m_AutoFile (App.set_queue [] ":12" Demo.fresh) = ":12"
  ∧ ToLong Demo.plain_world "12" (-1)%Z = (true, 12%Z)
  ∧ (App.LoadDelayedFiles Demo.plain_world (App.set_queue [] ":12" Demo.fresh)).2 = [].
Proof. repeat split; vm_compute; reflexivity. Qed.

(** A value without a colon is opened as it is, with no jump. *)
Lemma file_without_colon (w : World) (a : CodeBlocksApp) :
  m_AutoFile a ≠ EmptyString →
  find_char ":" (m_AutoFile a) = None →
  (App.LoadDelayedFiles w a).2
  = ((λ f, EvOpen f true)
       <$> App.set_iteration (list_to_set (m_DelayedFilesToOpen a)))
    ++ [EvOpen (Normalize w EmptyString (m_AutoFile a)) false].
Proof.
  intros Hne Hn. rewrite DelayedFacts.LoadDelayedFiles_events.
  apply IsEmpty_false in Hne. rewrite Hne. unfold App.open_AutoFile.
  rewrite (DelayedFacts.split_AutoFile_plain w _ Hn), Hne.
  change (negb (-1 =? -1)%Z) with false. by rewrite !andb_false_r.
Qed.

(** Two more values the claim does not describe: -1 is taken for "no line",
    and a number followed by other text still moves the editor. *)
Example line_minus_one :
  (App.LoadDelayedFiles Demo.plain_world (App.set_queue [] "main.cpp:-1" Demo.fresh)).2
  = [EvOpen "/cwd/main.cpp" false].
Proof. vm_compute. reflexivity. Qed.

Example line_with_trailing_text :
  (App.LoadDelayedFiles Demo.plain_world (App.set_queue [] "main.cpp:12x" Demo.fresh)).2
  = [EvOpen "/cwd/main.cpp:12x" false; EvGotoLine "/cwd/main.cpp:12x" 11].
Proof. vm_compute. reflexivity. Qed.

Module QueueFacts.

Import App Obs.

Lemma set_iteration_NoDup (files : gset string) : NoDup (set_iteration files).
Proof.
  unfold set_iteration. rewrite merge_sort_Permutation. apply NoDup_elements.
Qed.

Lemma set_iteration_elem (q : list string) (f : string) :
  f ∈ set_iteration (list_to_set q) ↔ f ∈ q.
Proof.
  unfold set_iteration. rewrite merge_sort_Permutation, elem_of_elements.
  apply elem_of_list_to_set.
Qed.

Lemma opened_files_queue (q : list string) :
  opened_files ((λ f, EvOpen f true) <$> q) = q.
Proof. induction q as [|f q IH]; csimpl; [done | by rewrite IH]. Qed.

Lemma open_AutoFile_once (w : World) (v : string) :
  List.length (opened_files (open_AutoFile w v)) ≤ 1.
Proof.
  unfold open_AutoFile. destruct (split_AutoFile w v) as [filePart line].
  destruct (IsEmpty filePart); simpl; [lia |].
  destruct (_ && _); simpl; lia.
Qed.

(** what the --file part calls: nothing, or frame->Open(path, false),
    followed or not by GotoLine on the same path *)
Lemma open_AutoFile_calls (w : World) (v : string) :
  open_AutoFile w v = []
  ∨ ∃ p, open_AutoFile w v = [EvOpen p false]
         ∨ ∃ line, open_AutoFile w v = [EvOpen p false; EvGotoLine p line].
Proof.
  unfold open_AutoFile. destruct (split_AutoFile w v) as [filePart line].
  destruct (IsEmpty filePart); [by left |]. right.
  exists (Normalize w EmptyString filePart).
  destruct (_ && _); [right; by eexists | by left].
Qed.

End QueueFacts.

(** C9 (as amended).  After LoadDelayedFiles the queue is empty and the
    --file text is cleared, in every state.  Its calls are: one
    frame->Open(path, true) for each distinct queued path, each path exactly
    once however often it was queued; then what the --file part calls,
    which is nothing, or one frame->Open(path, false), or that call followed
    by one GotoLine on the same path, and nothing when there is no --file
    text.  So no path is opened with the flag true twice, the only further
    Open has the flag false, and without a --file text no path is opened
    twice. *)
Theorem C9_queue_opened_once (w : World) (a : CodeBlocksApp) :
  m_DelayedFilesToOpen (App.LoadDelayedFiles w a).1 = []
  ∧ m_AutoFile (App.LoadDelayedFiles w a).1 = EmptyString
  ∧ (∃ queued extra,
        (App.LoadDelayedFiles w a).2 = ((λ f, EvOpen f true) <$> queued) ++ extra
        ∧ NoDup queued
        ∧ (∀ f, f ∈ queued ↔ f ∈ m_DelayedFilesToOpen a)
        ∧ (extra = []
           ∨ ∃ p, extra = [EvOpen p false]
                  ∨ ∃ line, extra = [EvOpen p false; EvGotoLine p line])
        ∧ (m_AutoFile a = EmptyString → extra = [])
        ∧ List.length (Obs.opened_files extra) ≤ 1)
  ∧ (m_AutoFile a = EmptyString → NoDup (Obs.opened_files (App.LoadDelayedFiles w a).2)).
Proof.
  split; [|split; [|split]].
  - unfold App.LoadDelayedFiles. by destruct (IsEmpty (m_AutoFile a)).
  - unfold App.LoadDelayedFiles. destruct (IsEmpty (m_AutoFile a)) eqn:E; [|done].
    by apply IsEmpty_true in E.
  - exists (App.set_iteration (list_to_set (m_DelayedFilesToOpen a))),
      (if IsEmpty (m_AutoFile a) then [] else App.open_AutoFile w (m_AutoFile a)).
    split; [apply DelayedFacts.LoadDelayedFiles_events |].
    split; [apply QueueFacts.set_iteration_NoDup |].
    split; [apply QueueFacts.set_iteration_elem |].
    split; [|split].
    + destruct (IsEmpty (m_AutoFile a)); [by left | apply QueueFacts.open_AutoFile_calls].
    + by intros ->.
    + destruct (IsEmpty (m_AutoFile a)); [simpl; lia | apply QueueFacts.open_AutoFile_once].
  - intros E. rewrite DelayedFacts.LoadDelayedFiles_events, E. simpl IsEmpty. cbv iota.
    rewrite app_nil_r, QueueFacts.opened_files_queue.
    apply QueueFacts.set_iteration_NoDup.
Qed.

(** The claim says a path reaches [frame->Open] at most once per call; a
    path that is both queued and given to --file reaches it twice. *)
Lemma C9_counterexample :
  Obs.opened_files
    (App.LoadDelayedFiles Demo.plain_world
       (App.set_queue ["/a/x.cpp"] "/a/x.cpp" Demo.fresh)).2
  = ["/a/x.cpp"; "/a/x.cpp"].
Proof. vm_compute. reflexivity. Qed.

(** Queued twice, opened once; the set is visited in increasing order. *)
Example queue_deduplicated :
  (App.LoadDelayedFiles Demo.plain_world
     (App.set_queue ["/b.cpp"; "/a.cpp"; "/b.cpp"] EmptyString Demo.fresh)).2
  = [EvOpen "/a.cpp" true; EvOpen "/b.cpp" true].
Proof. vm_compute. reflexivity. Qed.

(** ** C8 and C10: ParseCmdLine *)

Module ParseFacts.

Import App Obs.

(** Parameters with no workspace among them: every one is looked at. *)
Lemma scan_params_no_workspace (w : World) (CWD : string) (ps : list string)
    (hp hw : bool) (q : list string) :
  (∀ p, p ∈ ps → is_workspace w p = false) →
  scan_params w CWD ps (hp, hw, q)
  = (hp || existsb (is_project_or_workspace w) ps, hw, q ++ added_files w CWD ps).
Proof.
  revert hp q. induction ps as [|p ps IH]; intros hp q Hno.
  - simpl. by rewrite orb_false_r, app_nil_r.
  - assert (Hp : is_workspace w p = false) by (apply Hno; left).
    assert (Hps : ∀ p', p' ∈ ps → is_workspace w p' = false)
      by (intros; apply Hno; by right).
    unfold is_workspace in Hp. simpl. unfold is_project_or_workspace at 1.
    destruct (FileTypeOf w p); [|done|].
    + rewrite IH by done. rewrite <- app_assoc. simpl. by rewrite orb_true_r.
    + destruct (wxFile_Exists w (Normalize w CWD p)); rewrite IH by done; [|done].
      by rewrite <- app_assoc.
Qed.

(** The first workspace empties the queue and ends the loop. *)
Lemma scan_params_workspace (w : World) (CWD : string) (pre post : list string)
    (ws : string) (hp hw : bool) (q : list string) :
  (∀ p, p ∈ pre → is_workspace w p = false) →
  is_workspace w ws = true →
  scan_params w CWD (pre ++ ws :: post) (hp, hw, q)
  = (hp || existsb (is_project_or_workspace w) pre, true, [Normalize w CWD ws]).
Proof.
  revert hp q. induction pre as [|p pre IH]; intros hp q Hno Hws.
  - unfold is_workspace in Hws. simpl.
    destruct (FileTypeOf w ws); try done. by rewrite orb_false_r.
  - assert (Hp : is_workspace w p = false) by (apply Hno; left).
    assert (Hps : ∀ p', p' ∈ pre → is_workspace w p' = false)
      by (intros; apply Hno; by right).
    unfold is_workspace in Hp. simpl. unfold is_project_or_workspace at 1.
    destruct (FileTypeOf w p); [|done|].
    + rewrite IH by done. by rewrite orb_true_r.
    + destruct (wxFile_Exists w (Normalize w CWD p)); by rewrite IH.
Qed.

(** A list either has no workspace or splits at its first one. *)
Lemma first_workspace (w : World) (ps : list string) :
  (∀ p, p ∈ ps → is_workspace w p = false)
  ∨ ∃ pre ws post,
      ps = pre ++ ws :: post
      ∧ (∀ p, p ∈ pre → is_workspace w p = false)
      ∧ is_workspace w ws = true.
Proof.
  induction ps as [|p ps IH].
  - left. by intros p ?%elem_of_nil.
  - destruct (is_workspace w p) eqn:Hp.
    + right. exists [], p, ps. split; [done |]. split; [|done].
      by intros p' ?%elem_of_nil.
    + destruct IH as [Hno | (pre & ws & post & -> & Hpre & Hws)].
      * left. intros p' [->|?]%elem_of_cons; auto.
      * right. exists (p :: pre), ws, post. split; [done |]. split; [|done].
        intros p' [->|?]%elem_of_cons; auto.
Qed.

(** (m_HasProject || m_HasWorkSpace) after the loop *)
Lemma scan_params_flags (w : World) (CWD : string) (ps : list string) (q : list string) :
  let '(hp, hw, _) := scan_params w CWD ps (false, false, q) in
  hp || hw = existsb (is_project_or_workspace w) ps.
Proof.
  destruct (first_workspace w ps) as [Hno | (pre & ws & post & -> & Hpre & Hws)].
  - rewrite scan_params_no_workspace by done. simpl. by rewrite orb_false_r.
  - rewrite scan_params_workspace by done. simpl. rewrite orb_true_r.
    rewrite existsb_app. simpl. unfold is_project_or_workspace at 2.
    unfold is_workspace in Hws. destruct (FileTypeOf w ws); try done.
    by rewrite orb_true_r.
Qed.

(** the queue and the flags the handler-frame pass leaves *)
Lemma ParseCmdLine_handler (w : World) (CmdLineString CWD : string) (a : CodeBlocksApp)
    (c : CmdLine) :
  Parse w CmdLineString = Parsed c →
  let r := (ParseCmdLine w true CmdLineString CWD a).1.2 in
  let st := scan_params w CWD (params c) (false, false, m_DelayedFilesToOpen a) in
  m_HasProject r = st.1.1 ∧ m_HasWorkSpace r = st.1.2 ∧ m_DelayedFilesToOpen r = st.2
  ∧ m_Batch r = (st.1.1 || st.1.2) && (m_Build a || m_ReBuild a || m_Clean a).
Proof.
  intros Hparse. unfold ParseCmdLine. rewrite Hparse.
  destruct (scan_params w CWD (params c) (false, false, m_DelayedFilesToOpen a))
    as [[hp hw] q]. done.
Qed.


End ParseFacts.




(** A workspace queued earlier (by an Open request, say) stays in the queue
    with the files of a command line that names no workspace. *)
Example workspace_queued_before :
  m_DelayedFilesToOpen
    (App.ParseCmdLine Demo.build_without_project true EmptyString EmptyString
       (App.set_queue ["/old.workspace"] EmptyString Demo.fresh)).1.2
  = ["/old.workspace"; "/cwd/a.cpp"].
Proof. vm_compute. reflexivity. Qed.

(** C10.  Let the first pass of ParseCmdLine (no handler frame) have set the
    build flags from the command line [c], and let the second pass (with a
    handler frame) run on a state [a1] whose three flags are still those.
    Then the batch flag is: (some parameter is a project or a workspace) and
    (--build, --rebuild or --clean was given).  In particular a build flag
    without any project or workspace leaves the batch flag off. *)
Theorem C10_batch_flag (w : World) (a0 a1 : CodeBlocksApp) (c : CmdLine) :
  Parse w EmptyString = Parsed c →
  m_Build a1 = m_Build (App.ParseCmdLine w false EmptyString EmptyString a0).1.2 →
  m_ReBuild a1 = m_ReBuild (App.ParseCmdLine w false EmptyString EmptyString a0).1.2 →
  m_Clean a1 = m_Clean (App.ParseCmdLine w false EmptyString EmptyString a0).1.2 →
  m_Batch (App.ParseCmdLine w true EmptyString EmptyString a1).1.2
  = existsb (Obs.is_project_or_workspace w) (params c)
    && (sw_build c || sw_rebuild c || sw_clean c)
  ∧ ((∀ p, p ∈ params c → Obs.is_project_or_workspace w p = false) →
     m_Batch (App.ParseCmdLine w true EmptyString EmptyString a1).1.2 = false).
Proof.
  intros Hparse Hb Hr Hc.
  assert (Hflags : m_Build a1 = sw_build c ∧ m_ReBuild a1 = sw_rebuild c
                   ∧ m_Clean a1 = sw_clean c).
  { rewrite Hb, Hr, Hc. unfold App.ParseCmdLine. by rewrite Hparse. }
  destruct Hflags as (Hb' & Hr' & Hc').
  destruct (ParseFacts.ParseCmdLine_handler w EmptyString EmptyString a1 c Hparse)
    as (_ & _ & _ & Hbatch).
  pose proof (ParseFacts.scan_params_flags w EmptyString (params c)
                (m_DelayedFilesToOpen a1)) as Hscan.
  destruct (App.scan_params w EmptyString (params c) (false, false, m_DelayedFilesToOpen a1))
    as [[hp hw] q]. cbn [fst snd] in Hbatch.
  assert (Heq : m_Batch (App.ParseCmdLine w true EmptyString EmptyString a1).1.2
                = existsb (Obs.is_project_or_workspace w) (params c)
                  && (sw_build c || sw_rebuild c || sw_clean c)).
  { rewrite Hbatch. by rewrite Hscan, Hb', Hr', Hc'. }
  split; [exact Heq |].
  intros Hnone. rewrite Heq.
  assert (existsb (Obs.is_project_or_workspace w) (params c) = false) as ->; [|done].
  apply not_true_is_false. intros (p & Hp & Hpw)%existsb_exists.
  apply list_elem_of_In in Hp. rewrite (Hnone p Hp) in Hpw. done.
Qed.

Lemma C10_batch_flag_witness :
  m_Batch
    (App.ParseCmdLine Demo.build_without_project true EmptyString EmptyString
       (App.ParseCmdLine Demo.build_without_project false EmptyString EmptyString
          Demo.fresh).1.2).1.2
  = false.
Proof.
  destruct (C10_batch_flag Demo.build_without_project Demo.fresh
              (App.ParseCmdLine Demo.build_without_project false EmptyString EmptyString
                 Demo.fresh).1.2 _ eq_refl eq_refl eq_refl eq_refl) as [H _].
  rewrite H. reflexivity.
Defined.

(** Between the two passes the flag is on all the same. *)
Example batch_flag_between_passes :
  m_Batch (App.ParseCmdLine Demo.build_without_project false EmptyString EmptyString
             Demo.fresh).1.2 = true.
Proof. reflexivity. Qed.

Example batch_with_workspace :
  let a := (App.ParseCmdLine Demo.build_world true EmptyString EmptyString
              (App.ParseCmdLine Demo.build_world false EmptyString EmptyString
                 Demo.fresh).1.2).1.2 in
  (m_Batch a, m_HasProject a, m_HasWorkSpace a, m_DelayedFilesToOpen a)
  = (true, true, true, ["/cwd/all.workspace"]).
Proof. vm_compute. reflexivity. Qed.

(** ** C6: LoadConfig *)




(** ** C5: the exit status of a batch build *)

Module BatchFacts.

Import App.

(** an event that arrives outside batch mode, or after the first one, is
    ignored *)
Lemma deliver_ignored (codes : list Z) (a : CodeBlocksApp) :
  m_Batch a = false ∨ one_time_only a = true → deliver codes a = (a, []).
Proof.
  intros H. induction codes as [|code codes IH]; [done |].
  simpl. unfold OnBatchBuildDone.
  assert (negb (m_Batch a) || one_time_only a = true) as ->.
  { destruct H as [-> | ->]; [done | apply orb_true_r]. }
  by rewrite IH.
Qed.



End BatchFacts.




(** ** C2 and C7: OnInit *)

Module InitFacts.

Import App Init Obs.

Lemma emits_ret {A} (P : Event → Prop) (x : A) : emits P (ret x).
Proof. intros s o s' [= <- <-]. exists []. by rewrite app_nil_r. Qed.

Lemma emits_return {A} (P : Event → Prop) (b : bool) : emits P (@return_ A b).
Proof. intros s o s' [= <- <-]. exists []. by rewrite app_nil_r. Qed.

Lemma emits_bind {A B} (P : Event → Prop) (m : M A) (k : A → M B) :
  emits P m → (∀ x, emits P (k x)) → emits P (m ≫= k).
Proof.
  intros Hm Hk s o s' Hrun. unfold mbind, M_bind, bind in Hrun.
  destruct (m s) as [[x|b|e] s1] eqn:E; destruct (Hm _ _ _ E) as (evs1 & Ht1 & HP1).
  - destruct (Hk x _ _ _ Hrun) as (evs2 & Ht2 & HP2).
    exists (evs1 ++ evs2). rewrite Ht2, Ht1, app_assoc. split; [done |].
    by apply Forall_app.
  - injection Hrun as <- <-. eauto.
  - injection Hrun as <- <-. eauto.
Qed.

Lemma emits_emit (P : Event → Prop) (evs : list Event) :
  Forall P evs → emits P (emit evs).
Proof. intros HP s o s' [= <- <-]. eauto. Qed.

Lemma emits_get (P : Event → Prop) : emits P get.
Proof. intros s o s' [= <- <-]. exists []. by rewrite app_nil_r. Qed.

Lemma emits_update (P : Event → Prop) (f : CodeBlocksApp → CodeBlocksApp) :
  emits P (update f).
Proof. intros s o s' [= <- <-]. exists []. by rewrite app_nil_r. Qed.

Lemma emits_guard (P : Event → Prop) (w : World) (site : string) :
  emits P (guard w site).
Proof.
  intros s o s' Hrun. unfold guard in Hrun.
  destruct (throws w site); injection Hrun as <- <-; exists []; by rewrite app_nil_r.
Qed.

Lemma emits_call_as (P : Event → Prop) (w : World) (site : string) (ev : Event) :
  P ev → emits P (call_as w site ev).
Proof.
  intros HP. apply emits_bind; [apply emits_guard |].
  intros _. apply emits_emit. by constructor.
Qed.

Lemma emits_call (P : Event → Prop) (w : World) (site : string) :
  P (EvCall site) → emits P (call w site).
Proof. apply emits_call_as. Qed.

Lemma emits_when (P : Event → Prop) (c : bool) (m : M unit) :
  emits P m → emits P (when c m).
Proof. intros Hm. destruct c; [done | apply emits_ret]. Qed.

Lemma emits_method {A} (P : Event → Prop) (w : World) (site : string)
    (f : CodeBlocksApp → A * CodeBlocksApp * list Event) :
  (∀ a, Forall P (f a).2) → emits P (method w site f).
Proof.
  intros Hf. apply emits_bind; [apply emits_guard |].
  intros _ s o s' Hrun. unfold run_method in Hrun.
  specialize (Hf (app s)). destruct (f (app s)) as [[x a'] evs].
  injection Hrun as <- <-. eauto.
Qed.

(** what a call that does not throw does *)
Lemma call_as_quiet (w : World) (site : string) (ev : Event) (s : Sys) :
  throws w site = None →
  call_as w site ev s = (Normal (), {| app := app s; trace := trace s ++ [ev] |}).
Proof.
  intros H. unfold call_as, mbind, M_bind, bind, guard. by rewrite H.
Qed.

Lemma bind_Normal {A B} (m : M A) (k : A → M B) (s s1 : Sys) (x : A) :
  m s = (Normal x, s1) → (m ≫= k) s = k x s1.
Proof. intros H. unfold mbind, M_bind, bind. by rewrite H. Qed.

Ltac emits_steps :=
  repeat first
    [ apply emits_when
    | apply emits_call; discriminate
    | apply emits_call_as; discriminate
    | apply emits_update
    | apply emits_get
    | apply emits_ret
    | apply emits_return
    | apply emits_emit; repeat constructor; discriminate
    | apply emits_guard
    | apply emits_method
    | apply emits_bind; [|intros ?]
    | match goal with |- emits _ (if ?c then _ else _) => destruct c end ].

Lemma first_pass_no_frame (w : World) (a : CodeBlocksApp) :
  Forall no_frame (ParseCmdLine w false EmptyString EmptyString a).2.
Proof.
  unfold ParseCmdLine. destruct (Parse w EmptyString) as [|c]; [constructor |].
  cbn [snd]. unfold log_setup.
  repeat (apply Forall_app; split).
  - by repeat constructor.
  - destruct (personality_option c); by repeat constructor.
  - destruct (sw_no_log c); by repeat constructor.
  - destruct (sw_log_to_file c); by repeat constructor.
  - destruct (sw_debug_log c); by repeat constructor.
  - destruct (sw_debug_log_to_file c); by repeat constructor.
Qed.

Lemma LoadConfig_no_frame (w : World) (a : CodeBlocksApp) :
  Forall no_frame (LoadConfig w a).2.
Proof.
  unfold LoadConfig.
  destruct (IsEmpty (m_UserDataDir a)); [by repeat constructor |].
  destruct (SetUserDataFolder w (m_UserDataDir a)); by repeat constructor.
Qed.

(** No frame is created before the try block, nor in its first part. *)
Lemma prologue_no_frame (w : World) : emits no_frame (OnInit_prologue w).
Proof. unfold OnInit_prologue. emits_steps. Qed.

Lemma configure_no_frame (w : World) : emits no_frame (OnInit_configure w).
Proof.
  unfold OnInit_configure, InitXRCStuff. emits_steps.
  - apply first_pass_no_frame.
  - intros a. pose proof (LoadConfig_no_frame w a) as H. by destruct (LoadConfig w a).
Qed.

(** The negotiation, when the running instance answers. *)
Lemma OnInit_ipc_connected (w : World) (s : Sys) :
  m_DDE (app s) = true → m_Batch (app s) = false → cfg_use_ipc w = true →
  throws w "client->MakeConnection" = None →
  throws w "connection->Execute(CmdLine)" = None →
  throws w "connection->Execute(Raise)" = None →
  throws w "connection->Disconnect" = None →
  connection_established w = true →
  OnInit_ipc w s
  = (Return false,
     {| app := app s;
        trace :=
          trace s
          ++ [EvMakeConnection]
          ++ (if IsEmpty (DDE.forwarded_cmdLine (argv w)) then []
              else [EvExecute
                      (DDE.CmdLine_message
                         (DDE.escape_parens (DDE.forwarded_cmdLine (argv w)))
                         (wxGetCwd w))])
          ++ (if cfg_raise_via_ipc w then [EvExecute "[Raise]"] else [])
          ++ [EvDisconnect; EvDeleteConnection; EvDeleteClient;
              EvLog "Ending application because another instance has been detected!"] |}).
Proof.
  intros Hdde Hbatch Hipc H1 H2 H3 H4 Hconn.
  unfold OnInit_ipc. rewrite (bind_Normal get _ s s (app s)) by done.
  rewrite Hdde, Hbatch, Hipc. cbn [andb negb when].
  rewrite (bind_Normal _ _ _ _ () (call_as_quiet _ _ _ _ H1)).
  rewrite Hconn.
  destruct (IsEmpty (DDE.forwarded_cmdLine (argv w))); destruct (cfg_raise_via_ipc w);
    cbn [negb when].
  all: unfold mbind, M_bind, bind, ret, emit, return_.
  all: rewrite ?call_as_quiet by done; cbn [app trace].
  all: rewrite ?call_as_quiet by done; cbn [app trace].
  all: rewrite ?call_as_quiet by done; cbn [app trace].
  all: by rewrite <- ?app_assoc.
Qed.

(** The negotiation, when nobody answers. *)
Lemma OnInit_ipc_alone (w : World) (s : Sys) :
  m_DDE (app s) = true → m_Batch (app s) = false → cfg_use_ipc w = true →
  throws w "client->MakeConnection" = None →
  connection_established w = false →
  OnInit_ipc w s
  = (Normal (), {| app := app s; trace := trace s ++ [EvMakeConnection; EvDeleteClient] |}).
Proof.
  intros Hdde Hbatch Hipc H1 Hconn.
  unfold OnInit_ipc. rewrite (bind_Normal get _ s s (app s)) by done.
  rewrite Hdde, Hbatch, Hipc. cbn [andb negb when].
  rewrite (bind_Normal _ _ _ _ () (call_as_quiet _ _ _ _ H1)).
  rewrite Hconn. unfold emit. cbn [app trace]. by rewrite <- app_assoc.
Qed.

(** Exceptions come from calls only. *)
Lemma raises_bind {A B} (w : World) (m : M A) (k : A → M B) :
  raises_from w m → (∀ x, raises_from w (k x)) → raises_from w (m ≫= k).
Proof.
  intros Hm Hk s e s' Hrun. unfold mbind, M_bind, bind in Hrun.
  destruct (m s) as [[x|b|e1] s1] eqn:E.
  - by apply (Hk x _ _ _ Hrun).
  - done.
  - injection Hrun as <- <-. by apply (Hm _ _ _ E).
Qed.

Lemma raises_guard (w : World) (site : string) : raises_from w (guard w site).
Proof.
  intros s e s' Hrun. unfold guard in Hrun.
  destruct (throws w site) as [e1|] eqn:E; [|done].
  injection Hrun as <- <-. eauto.
Qed.

Lemma raises_emit (w : World) (evs : list Event) : raises_from w (emit evs).
Proof. by intros s e s' [=]. Qed.

Lemma raises_get (w : World) : raises_from w get.
Proof. by intros s e s' [=]. Qed.

Lemma raises_update (w : World) (f : CodeBlocksApp → CodeBlocksApp) :
  raises_from w (update f).
Proof. by intros s e s' [=]. Qed.

Lemma raises_ret {A} (w : World) (x : A) : raises_from w (ret x).
Proof. by intros s e s' [=]. Qed.

Lemma raises_return {A} (w : World) (b : bool) : raises_from w (@return_ A b).
Proof. by intros s e s' [=]. Qed.

Lemma raises_call_as (w : World) (site : string) (ev : Event) :
  raises_from w (call_as w site ev).
Proof. apply raises_bind; [apply raises_guard | intros _; apply raises_emit]. Qed.

Lemma raises_call (w : World) (site : string) : raises_from w (call w site).
Proof. apply raises_call_as. Qed.

Lemma raises_when (w : World) (c : bool) (m : M unit) :
  raises_from w m → raises_from w (when c m).
Proof. intros Hm. destruct c; [done | apply raises_ret]. Qed.

Lemma raises_method {A} (w : World) (site : string)
    (f : CodeBlocksApp → A * CodeBlocksApp * list Event) :
  raises_from w (method w site f).
Proof.
  apply raises_bind; [apply raises_guard |].
  intros _ s e s' Hrun. unfold run_method in Hrun.
  by destruct (f (app s)) as [[x a'] evs].
Qed.

Ltac raises_steps :=
  repeat first
    [ apply raises_when
    | apply raises_call
    | apply raises_call_as
    | apply raises_update
    | apply raises_get
    | apply raises_ret
    | apply raises_return
    | apply raises_emit
    | apply raises_guard
    | apply raises_method
    | apply raises_bind; [|intros ?]
    | match goal with |- raises_from _ (if ?c then _ else _) => destruct c end ].

Lemma OnInit_try_raises (w : World) : raises_from w (OnInit_try w).
Proof.
  unfold OnInit_try, OnInit_configure, OnInit_ipc, OnInit_single_instance, OnInit_startup,
    OnInit_batch, OnInit_script, OnInit_interactive, InitXRCStuff, InitFrame.
  raises_steps.
Qed.

Lemma bind_Return {A B} (m : M A) (k : A → M B) (s s1 : Sys) (b : bool) :
  m s = (Return b, s1) → (m ≫= k) s = (Return b, s1).
Proof. intros H. unfold mbind, M_bind, bind. by rewrite H. Qed.

End InitFacts.

(** C2 (as amended).  Suppose OnInit has reached the negotiation: what comes
    before it ended normally, DDE/IPC is enabled (no --no-dde/--no-ipc, and
    the use_ipc setting), the batch flag is off, and none of the four IPC
    calls throws.  If the connection is established, the process sends the
    CmdLine message with its escaped command line and its working directory
    when it was given at least one argument (and no CmdLine message when it
    was given none), then "[Raise]" if so configured, disconnects, deletes
    connection and client, and OnInit returns false; no main frame has been
    created.  If the connection is not established, the client is deleted
    and the try block goes on with the single-instance check and the rest of
    start-up. *)
Theorem C2_second_instance (w : World) (s0 s1 s2 : Init.Sys) :
  Init.OnInit_prologue w s0 = (Init.Normal (), s1) →
  Init.OnInit_configure w s1 = (Init.Normal (), s2) →
  m_DDE (Init.app s2) = true →
  m_Batch (Init.app s2) = false →
  cfg_use_ipc w = true →
  throws w "client->MakeConnection" = None →
  throws w "connection->Execute(CmdLine)" = None →
  throws w "connection->Execute(Raise)" = None →
  throws w "connection->Disconnect" = None →
  (connection_established w = true →
   Init.OnInit w s0
   = (Init.Normal false,
      {| Init.app := Init.app s2;
         Init.trace :=
           Init.trace s2
           ++ [EvMakeConnection]
           ++ (if IsEmpty (DDE.forwarded_cmdLine (argv w)) then []
               else [EvExecute
                       (DDE.CmdLine_message
                          (DDE.escape_parens (DDE.forwarded_cmdLine (argv w)))
                          (wxGetCwd w))])
           ++ (if cfg_raise_via_ipc w then [EvExecute "[Raise]"] else [])
           ++ [EvDisconnect; EvDeleteConnection; EvDeleteClient;
               EvLog "Ending application because another instance has been detected!"] |})
   ∧ ∃ evs, Init.trace s2 = Init.trace s0 ++ evs ∧ Forall Init.no_frame evs)
  ∧ (connection_established w = false →
     Init.OnInit_try w s1
     = Init.bind (Init.OnInit_single_instance w) (λ _, Init.OnInit_startup w)
         {| Init.app := Init.app s2;
            Init.trace := Init.trace s2 ++ [EvMakeConnection; EvDeleteClient] |}).
Proof.
  intros Hpro Hconf Hdde Hbatch Hipc H1 H2 H3 H4. split.
  - intros Hconn. split.
    + unfold Init.OnInit. rewrite Hpro. unfold Init.OnInit_try.
      rewrite (InitFacts.bind_Normal _ _ _ _ _ Hconf).
      by rewrite (InitFacts.bind_Return _ _ _ _ _
                    (InitFacts.OnInit_ipc_connected w s2 Hdde Hbatch Hipc H1 H2 H3 H4 Hconn)).
    + destruct (InitFacts.prologue_no_frame w _ _ _ Hpro) as (e1 & Ht1 & Hf1).
      destruct (InitFacts.configure_no_frame w _ _ _ Hconf) as (e2 & Ht2 & Hf2).
      exists (e1 ++ e2). rewrite Ht2, Ht1, app_assoc. split; [done |].
      by apply Forall_app.
  - intros Hconn. unfold Init.OnInit_try.
    rewrite (InitFacts.bind_Normal _ _ _ _ _ Hconf).
    by rewrite (InitFacts.bind_Normal _ _ _ _ _
                  (InitFacts.OnInit_ipc_alone w s2 Hdde Hbatch Hipc H1 Hconn)).
Qed.

Lemma C2_second_instance_witness :
  (Init.OnInit Demo.second_instance Demo.start).1 = Init.Normal false
  ∧ filter (λ e, Obs.is_Execute e = true)
      (Init.trace (Init.OnInit Demo.second_instance Demo.start).2)
    = [EvExecute "[CmdLine({a\(1\).cpp })CWD({/home/u})]"; EvExecute "[Raise]"].
Proof.
  destruct (C2_second_instance Demo.second_instance Demo.start
              (Init.OnInit_prologue Demo.second_instance Demo.start).2
              (Init.OnInit_configure Demo.second_instance
                 (Init.OnInit_prologue Demo.second_instance Demo.start).2).2)
    as [H _]; try reflexivity.
  destruct (H eq_refl) as [-> _]. split; [reflexivity |].
  vm_compute. reflexivity.
Defined.

(** The claim says the command line and the working directory are
    forwarded; a second process started without arguments connects, sends
    "[Raise]" only, and ends. *)
Lemma C2_counterexample :
  connection_established Demo.second_instance_no_args = true
  ∧ (Init.OnInit Demo.second_instance_no_args Demo.start).1 = Init.Normal false
  ∧ filter (λ e, Obs.is_Execute e = true)
      (Init.trace (Init.OnInit Demo.second_instance_no_args Demo.start).2)
    = [EvExecute "[Raise]"].
Proof. repeat split; vm_compute; reflexivity. Qed.

(** C7.  Once the try block is entered, no exception leaves OnInit: it
    returns a value.  If the body of the try block ends with an exception
    (which is then one that a call made there has thrown), that value is
    false and the last thing OnInit does is to report: the exception's own
    error display for a cbException, a safe message box titled "Exception"
    for a C string and for anything else. *)
Theorem C7_exception_reported (w : World) (s0 s1 : Init.Sys) :
  Init.OnInit_prologue w s0 = (Init.Normal (), s1) →
  (∃ b s', Init.OnInit w s0 = (Init.Normal b, s'))
  ∧ ∀ e s2,
      Init.OnInit_try w s1 = (Init.Raise e, s2) →
      Init.OnInit w s0
      = (Init.Normal false,
         {| Init.app := Init.app s2;
            Init.trace := Init.trace s2 ++ [App.catch_message e] |})
      ∧ match e with
        | cbException msg => App.catch_message e = EvShowErrorMessage msg
        | CStringException msg => App.catch_message e = EvSafeShowMessage "Exception" msg
        | UnknownException => ∃ msg, App.catch_message e = EvSafeShowMessage "Exception" msg
        end
      ∧ ∃ site, throws w site = Some e.
Proof.
  intros Hpro. split.
  - unfold Init.OnInit. rewrite Hpro.
    destruct (Init.OnInit_try w s1) as [[x|b|e] s2]; eauto.
  - intros e s2 Htry. split; [|split].
    + unfold Init.OnInit. by rewrite Hpro, Htry.
    + destruct e; simpl; eauto.
    + by apply (InitFacts.OnInit_try_raises w _ _ _ Htry).
Qed.

Lemma C7_exception_reported_witness :
  (Init.OnInit Demo.locale_throws Demo.start).1 = Init.Normal false
  ∧ last (Init.trace (Init.OnInit Demo.locale_throws Demo.start).2)
    = Some (EvSafeShowMessage "Exception" "no locale").
Proof.
  destruct (C7_exception_reported Demo.locale_throws Demo.start
              (Init.OnInit_prologue Demo.locale_throws Demo.start).2 eq_refl)
    as [_ H].
  destruct (H (CStringException "no locale")
              (Init.OnInit_try Demo.locale_throws
                 (Init.OnInit_prologue Demo.locale_throws Demo.start).2).2 eq_refl)
    as (-> & _ & _).
  split; [reflexivity | vm_compute; reflexivity].
Defined.

(** A first instance with nothing to open starts up and shows its frame. *)
Example plain_start :
  (Init.OnInit Demo.plain_world Demo.start).1 = Init.Normal true
  ∧ EvNewMainFrame ∈ Init.trace (Init.OnInit Demo.plain_world Demo.start).2.
Proof.
  split; [vm_compute; reflexivity |].
  vm_compute. repeat first [apply list_elem_of_here | apply list_elem_of_further].
Qed.

(** * Further properties of app.cpp *)

(** ** The CmdLine message, both ways *)

Module EscapeFacts.

Import DDE DDEFacts.

(** no "})" in an escaped text *)
Lemma find0_brace_paren_esc (s m : string) :
  find0 (String "}" (String ")" m)) (esc s) = None.
Proof.
  induction s as [|c r IH]; [done |].
  char_cases c; chars; rewrite ?esc_head_nil, ?IH; done.
Qed.

End EscapeFacts.

(** X1.  The command line survives the trip between two instances: whatever
    the command line and whatever the directory sent along with it, the
    receiver's [cmdLine] is the text the sender escaped. *)
Theorem X1_command_line_round_trip (s cwd : string) :
  (DDE.OnExecute_CmdLine (DDE.CmdLine_message (DDE.escape_parens s) cwd)).1 = s.
Proof. apply DDEFacts.cmdLine_recovered. Qed.

(** X2.  The directory survives the trip when the first "})]" of the
    directory followed by "})]" is the one appended, and unescaping leaves
    the directory as it is (no backslash before a parenthesis). *)
Theorem X2_directory_round_trip (s cwd : string) :
  find0 "})]" (cwd +:+ "})]") = Some (String.length cwd) →
  DDE.unescape_parens cwd = cwd →
  DDE.OnExecute_CmdLine (DDE.CmdLine_message (DDE.escape_parens s) cwd) = (s, cwd).
Proof. apply DDEFacts.cwd_recovered. Qed.

Lemma X2_directory_round_trip_witness :
  DDE.OnExecute_CmdLine
    (DDE.CmdLine_message (DDE.escape_parens "f(1).cpp ") "C:\Users\me\src")
  = ("f(1).cpp ", "C:\Users\me\src").
Proof. apply X2_directory_round_trip; reflexivity. Defined.

(** X3.  Escaping hides every marker of the protocol: in an escaped command
    line a closing brace is never followed by a closing parenthesis, so
    neither "})CWD({" nor "})]" occurs in it. *)
Theorem X3_escaped_text_has_no_marker (s m : string) :
  find0 (String "}" (String ")" m)) (DDE.escape_parens s) = None.
Proof. rewrite DDEFacts.escape_parens_esc. apply EscapeFacts.find0_brace_paren_esc. Qed.

(** X4.  In a message that takes the CmdLine branch of OnExecute the marker
    "})CWD({" is found at position 10 or later, so the length
    [posCwd - coundCmdLind] passed to substr never wraps around. *)
Theorem X4_marker_not_inside_tag (strData : string) (posCwd : nat) :
  DDE.is_CmdLine_message strData = true →
  find "})CWD({" 0 strData = Some posCwd →
  DDE.coundCmdLind ≤ posCwd.
Proof. apply DDEFacts.marker_after_tag. Qed.

Lemma X4_marker_not_inside_tag_witness : DDE.coundCmdLind ≤ 12.
Proof.
  apply (X4_marker_not_inside_tag "[CmdLine({a })CWD({/tmp})]" 12); reflexivity.
Defined.

(** ** DDEConnection: OnExecute and OnDisconnect *)

Module ServerFacts.

Import App Server.

Lemma StartsWith_within (p q t : string) :
  String.length p ≤ String.length q → StartsWith p (q +:+ t) = StartsWith p q.
Proof.
  revert q. induction p as [|a p IH]; intros [|b q] Hl; simpl in *; try done; try lia.
  rewrite !DDEFacts.StartsWith_cons. destruct (Ascii.eqb a b); [apply IH; lia | done].
Qed.

Lemma StartsWith_mismatch (p q t : string) :
  StartsWith (take_s (String.length q) p) q = false → StartsWith p (q +:+ t) = false.
Proof.
  revert p. induction q as [|b q IH]; intros [|a p]; simpl; try done.
  rewrite !DDEFacts.StartsWith_cons. destruct (Ascii.eqb a b); [apply IH | done].
Qed.

Lemma drop_s_past (p : string) (c : ascii) (r : string) :
  drop_s (String.length p + 1) (p +:+ String c r) = r.
Proof. induction p as [|a p IH]; simpl; [done | apply IH]. Qed.

(** The group of the regular expression is the text between the first and
    the last double quote, whatever that text contains. *)
Lemma quoted_between (p file t : string) :
  find_char dquote p = None → find_char dquote t = None →
  quoted (p +:+ String dquote (file +:+ String dquote t)) = Some file.
Proof.
  intros Hp Ht. unfold quoted.
  rewrite (find_char_append _ _ _ Hp).
  assert (Find_fromEnd dquote (p +:+ String dquote (file +:+ String dquote t))
          = Some (String.length p + S (String.length file))) as ->.
  { change (String dquote (file +:+ String dquote t))
      with (String dquote file +:+ String dquote t).
    rewrite <- append_assoc, (Find_fromEnd_append _ _ _ Ht), length_append. done. }
  assert ((String.length p <? String.length p + S (String.length file)) = true) as ->
    by (apply Nat.ltb_lt; lia).
  unfold substr. rewrite drop_s_past.
  replace (String.length p + S (String.length file) - String.length p - 1)
    with (String.length file) by lia.
  by rewrite take_s_append.
Qed.

Lemma OnExecute_Open (w : World) (conn : Connection) (file : string) (a : CodeBlocksApp) :
  OnExecute w conn (Open_message file) a = (true, AddFileToOpenDelayed file a, []).
Proof.
  unfold OnExecute, Open_message.
  rewrite (StartsWith_mismatch tag_IfExec_Open tag_Open) by reflexivity.
  rewrite (StartsWith_append tag_Open).
  change (tag_Open +:+ file +:+ String dquote ")]")
    with ("[Open(" +:+ String dquote (file +:+ String dquote ")]")).
  by rewrite quoted_between.
Qed.

(** the other tests of OnExecute fail on a text that starts with "[CmdLine({" *)
Lemma CmdLine_tag_only (t : string) :
  StartsWith tag_IfExec_Open (tag_CmdLine +:+ t) = false
  ∧ StartsWith tag_Open (tag_CmdLine +:+ t) = false
  ∧ StartsWith tag_OpenLine (tag_CmdLine +:+ t) = false
  ∧ StartsWith tag_Raise (tag_CmdLine +:+ t) = false
  ∧ StartsWith tag_CmdLine (tag_CmdLine +:+ t) = true.
Proof.
  split; [|split; [|split; [|split]]].
  - by apply StartsWith_mismatch.
  - by rewrite StartsWith_within by (vm_compute; lia).
  - by apply StartsWith_mismatch.
  - by rewrite StartsWith_within by (vm_compute; lia).
  - apply StartsWith_append.
Qed.

Lemma OnExecute_CmdLine_true (w : World) (conn : Connection) (t : string)
    (a : CodeBlocksApp) :
  (OnExecute w conn (tag_CmdLine +:+ t) a).1.1 = true.
Proof.
  unfold OnExecute.
  destruct (CmdLine_tag_only t) as (-> & -> & -> & -> & ->).
  destruct (DDE.OnExecute_CmdLine _) as [cmdLine cwd].
  destruct (_ && _); [|done].
  by destruct (ParseCmdLine w true cmdLine cwd a) as [[? ?] ?].
Qed.

End ServerFacts.

(** X5.  An Open request brings its file name across unchanged, whatever
    characters the name has (double quotes included): OnExecute appends
    exactly that name to the queue of delayed files, touches nothing else
    and returns true. *)
Theorem X5_Open_request_queues_the_file (w : World) (conn : Server.Connection)
    (file : string) (a : CodeBlocksApp) :
  Server.OnExecute w conn (Server.Open_message file) a
  = (true, App.set_queue (m_DelayedFilesToOpen a ++ [file]) (m_AutoFile a) a, []).
Proof. apply ServerFacts.OnExecute_Open. Qed.

(** X6.  From the sender's OnInit to the receiver's ParseCmdLine: for a
    non-empty command line and a directory that comes through (see X2), a
    server with a main frame handles the CmdLine message by the handler
    pass of ParseCmdLine on the very command line the sender escaped, in
    the sender's directory, and then publishes cbEVT_APP_CMDLINE. *)
Theorem X6_forwarded_command_line_is_parsed (w : World) (conn : Server.Connection)
    (a : CodeBlocksApp) (s cwd : string) :
  s ≠ EmptyString → cwd ≠ EmptyString → Server.conn_Frame conn = true →
  find0 "})]" (cwd +:+ "})]") = Some (String.length cwd) →
  DDE.unescape_parens cwd = cwd →
  Server.OnExecute w conn (DDE.CmdLine_message (DDE.escape_parens s) cwd) a
  = (true, (App.ParseCmdLine w true s cwd a).1.2,
     (App.ParseCmdLine w true s cwd a).2
     ++ [EvCall ("ProcessEvent(cbEVT_APP_CMDLINE) " +:+ s)]).
Proof.
  intros Hs Hcwd Hframe Hend Hun. unfold Server.OnExecute.
  pose proof (ServerFacts.CmdLine_tag_only
                (DDE.escape_parens s +:+ "})CWD({" +:+ cwd +:+ "})]")) as Htags.
  change (Server.tag_CmdLine +:+ _)
    with (DDE.CmdLine_message (DDE.escape_parens s) cwd) in Htags.
  destruct Htags as (-> & -> & -> & -> & ->).
  rewrite (DDEFacts.cwd_recovered s cwd Hend Hun), Hframe.
  apply IsEmpty_false in Hs, Hcwd. rewrite Hs, Hcwd. cbn [negb andb].
  by destruct (App.ParseCmdLine w true s cwd a) as [[? ?] ?].
Qed.

Lemma X6_forwarded_command_line_is_parsed_witness :
  Server.OnExecute Demo.plain_world Session.frame_conn
    (DDE.CmdLine_message (DDE.escape_parens "a(1).cpp ") "/home/u") Session.running
  = (true, (App.ParseCmdLine Demo.plain_world true "a(1).cpp " "/home/u" Session.running).1.2,
     (App.ParseCmdLine Demo.plain_world true "a(1).cpp " "/home/u" Session.running).2
     ++ [EvCall "ProcessEvent(cbEVT_APP_CMDLINE) a(1).cpp "]).
Proof. apply X6_forwarded_command_line_is_parsed; done. Defined.

(** X7.  A server that has no main frame yet takes a CmdLine message and
    drops it: OnExecute returns true, the application is unchanged and
    nothing is called, so the forwarded command line is lost. *)
Theorem X7_command_line_dropped_without_frame (w : World) (conn : Server.Connection)
    (strData : string) (a : CodeBlocksApp) :
  DDE.is_CmdLine_message strData = true →
  Server.conn_Frame conn = false →
  Server.OnExecute w conn strData a = (true, a, []).
Proof.
  intros Htag Hframe. apply StartsWith_spec in Htag as [t ->].
  unfold Server.OnExecute.
  pose proof (ServerFacts.CmdLine_tag_only t) as Htags.
  unfold Server.tag_CmdLine in Htags. destruct Htags as (-> & -> & -> & -> & _).
  rewrite StartsWith_append.
  destruct (DDE.OnExecute_CmdLine _) as [cmdLine cwd].
  by rewrite Hframe, andb_false_r.
Qed.

Lemma X7_command_line_dropped_without_frame_witness :
  Server.OnExecute Demo.plain_world
    {| Server.conn_Frame := false; Server.IsIconized := false |}
    "[CmdLine({a.cpp })CWD({/home/u})]" Demo.fresh
  = (true, Demo.fresh, []).
Proof. apply X7_command_line_dropped_without_frame; reflexivity. Defined.

Module SessionFacts.

Import App Init Server Session.

Lemma accepted_silent (e : Event) : talks e = false → accepted e.
Proof. intros He msg ->. done. Qed.

Lemma accepted_Raise : accepted (EvExecute "[Raise]").
Proof. intros msg [= <-] w conn a. unfold OnExecute. by destruct (conn_Frame conn). Qed.

Lemma accepted_CmdLine (escaped cwd : string) :
  accepted (EvExecute (DDE.CmdLine_message escaped cwd)).
Proof. intros msg [= <-] w conn a. apply ServerFacts.OnExecute_CmdLine_true. Qed.

Ltac silent_list :=
  repeat first
    [ apply Forall_nil_2
    | apply Forall_cons_2; [reflexivity |]
    | apply Forall_app; split
    | apply Forall_fmap, Forall_true; intros ?; reflexivity
    | progress case_match ].

Lemma ParseCmdLine_silent (w : World) (h : bool) (c d : string) (a : CodeBlocksApp) :
  Forall (λ e, talks e = false) (ParseCmdLine w h c d a).2.
Proof. unfold ParseCmdLine, log_setup. silent_list. Qed.

Lemma LoadConfig_silent (w : World) (a : CodeBlocksApp) :
  Forall (λ e, talks e = false) (LoadConfig w a).2.
Proof. unfold LoadConfig. silent_list. Qed.

Lemma LoadDelayedFiles_silent (w : World) (a : CodeBlocksApp) :
  Forall (λ e, talks e = false) (LoadDelayedFiles w a).2.
Proof. unfold LoadDelayedFiles, open_AutoFile. silent_list. Qed.

Lemma AttachDebugger_silent (w : World) (a : CodeBlocksApp) :
  Forall (λ e, talks e = false) (AttachDebugger w a).2.
Proof. unfold AttachDebugger. silent_list. Qed.

Lemma emits_OnInit (P : Event → Prop) (w : World) :
  (∀ e, P (catch_message e)) →
  emits P (OnInit_prologue w) → emits P (OnInit_try w) → emits P (OnInit w).
Proof.
  intros Hc Hp Ht s o s' Hrun. unfold OnInit in Hrun.
  destruct (OnInit_prologue w s) as [[[]|b|e] s1] eqn:E1;
    destruct (Hp _ _ _ E1) as (ev1 & T1 & F1).
  - destruct (OnInit_try w s1) as [[x|b|e] s2] eqn:E2;
      destruct (Ht _ _ _ E2) as (ev2 & T2 & F2); injection Hrun as <- <-.
    + exists (ev1 ++ ev2). rewrite T2, T1, app_assoc. split; [done | by apply Forall_app].
    + exists (ev1 ++ ev2). rewrite T2, T1, app_assoc. split; [done | by apply Forall_app].
    + exists (ev1 ++ ev2 ++ [catch_message e]). cbn [trace].
      rewrite T2, T1, <- !app_assoc. split; [done |].
      repeat (apply Forall_app; split); try done. by repeat constructor.
  - injection Hrun as <- <-. eauto.
  - injection Hrun as <- <-. eauto.
Qed.

Ltac emits_by tac :=
  repeat first
    [ apply InitFacts.emits_when
    | apply InitFacts.emits_call; tac
    | apply InitFacts.emits_call_as; tac
    | apply InitFacts.emits_update
    | apply InitFacts.emits_get
    | apply InitFacts.emits_ret
    | apply InitFacts.emits_return
    | apply InitFacts.emits_emit; repeat constructor; tac
    | apply InitFacts.emits_guard
    | apply InitFacts.emits_method
    | apply InitFacts.emits_bind; [|intros ?]
    | match goal with |- emits _ (if ?c then _ else _) => destruct c end ].

Ltac accepted_event :=
  idtac;
  first [ apply accepted_silent; reflexivity
        | by intros ? [=]
        | apply accepted_Raise
        | apply accepted_CmdLine
        | match goal with
          | |- accepted (EvCall (if ?c then _ else _)) =>
              destruct c; apply accepted_silent; reflexivity
          end ].

Lemma silent_accepted (evs : list Event) :
  Forall (λ e, talks e = false) evs → Forall accepted evs.
Proof. intros H. eapply Forall_impl; [exact H | apply accepted_silent]. Qed.

Lemma OnInit_accepted (w : World) : emits accepted (OnInit w).
Proof.
  apply emits_OnInit.
  - intros [msg|msg|]; by apply accepted_silent.
  - unfold OnInit_prologue. emits_by ltac:(accepted_event).
  - unfold OnInit_try, OnInit_configure, OnInit_ipc, OnInit_single_instance, OnInit_startup,
      OnInit_batch, OnInit_script, OnInit_interactive, InitXRCStuff, InitFrame.
    emits_by ltac:(accepted_event).
    all: intros a; apply silent_accepted.
    all: try apply ParseCmdLine_silent.
    + pose proof (LoadConfig_silent w a) as H. by destruct (LoadConfig w a).
    + pose proof (LoadDelayedFiles_silent w a) as H. by destruct (LoadDelayedFiles w a).
    + pose proof (LoadDelayedFiles_silent w a) as H. by destruct (LoadDelayedFiles w a).
    + pose proof (AttachDebugger_silent w a) as H. by destruct (AttachDebugger w a).
Qed.

Lemma AttachDebugger_app (w : World) (a : CodeBlocksApp) :
  (AttachDebugger w a).1 = set_debugger EmptyString EmptyString a.
Proof. unfold AttachDebugger. by repeat case_match. Qed.

Lemma LoadDelayedFiles_app (w : World) (a : CodeBlocksApp) :
  (LoadDelayedFiles w a).1 = set_queue [] EmptyString a.
Proof.
  unfold LoadDelayedFiles. destruct (IsEmpty (m_AutoFile a)) eqn:He; [|done].
  apply IsEmpty_true in He. by rewrite He.
Qed.

Lemma AttachDebugger_spent (w : World) (a : CodeBlocksApp) :
  m_DebuggerAttach a = EmptyString → m_DebuggerConfig a = EmptyString →
  AttachDebugger w a = (set_debugger EmptyString EmptyString a, []).
Proof. intros Ha Hc. unfold AttachDebugger. by rewrite Ha, Hc. Qed.

Lemma LoadDelayedFiles_spent (w : World) (a : CodeBlocksApp) :
  m_DelayedFilesToOpen a = [] → m_AutoFile a = EmptyString →
  LoadDelayedFiles w a = (set_queue [] EmptyString a, []).
Proof. intros Hq Hf. unfold LoadDelayedFiles. by rewrite Hq, Hf. Qed.

End SessionFacts.

(** X8.  Sender and receiver agree on the protocol: whatever the world,
    every request OnInit hands to connection->Execute (the CmdLine message
    and "[Raise]") is one that DDEConnection::OnExecute takes, that is, for
    which it returns true in any state of the receiving instance. *)
Theorem X8_requests_sent_are_accepted (w : World) (s : Init.Sys) :
  ∃ evs,
    Init.trace (Init.OnInit w s).2 = Init.trace s ++ evs
    ∧ ∀ msg, EvExecute msg ∈ evs →
        ∀ (w' : World) (conn : Server.Connection) (a : CodeBlocksApp),
          (Server.OnExecute w' conn msg a).1.1 = true.
Proof.
  destruct (Init.OnInit w s) as [o s'] eqn:E.
  destruct (SessionFacts.OnInit_accepted w _ _ _ E) as (evs & Ht & Hacc).
  exists evs. split; [done |]. intros msg Hin.
  rewrite Forall_forall in Hacc. by apply (Hacc _ Hin).
Qed.

(** X9.  A file requested over DDE waits while the application is loading
    and is opened when it is not: after the Open request, OnDisconnect on a
    connection without frame, or while s_Loading is set, changes nothing
    and the file stays queued; on a connection with a frame once loading is
    over, it opens the file and leaves the queue, the --file text and both
    debugger parameters empty. *)
Theorem X9_Open_then_Disconnect (w : World) (conn : Server.Connection)
    (file : string) (a : CodeBlocksApp) :
  let a1 := (Server.OnExecute w conn (Server.Open_message file) a).1.2 in
  (s_Loading a = true ∨ Server.conn_Frame conn = false →
   Server.OnDisconnect w conn a1 = (true, a1, []) ∧ file ∈ m_DelayedFilesToOpen a1)
  ∧ (s_Loading a = false → Server.conn_Frame conn = true →
     EvOpen file true ∈ (Server.OnDisconnect w conn a1).2
     ∧ m_DelayedFilesToOpen (Server.OnDisconnect w conn a1).1.2 = []
     ∧ m_AutoFile (Server.OnDisconnect w conn a1).1.2 = EmptyString
     ∧ m_DebuggerAttach (Server.OnDisconnect w conn a1).1.2 = EmptyString
     ∧ m_DebuggerConfig (Server.OnDisconnect w conn a1).1.2 = EmptyString).
Proof.
  rewrite ServerFacts.OnExecute_Open. cbn [fst snd].
  set (a1 := Server.AddFileToOpenDelayed file a).
  assert (s_Loading a1 = s_Loading a) as Hload by done.
  assert (m_DelayedFilesToOpen a1 = m_DelayedFilesToOpen a ++ [file]) as Hq by done.
  split.
  - intros H. split.
    + unfold Server.OnDisconnect. rewrite Hload.
      destruct H as [-> | ->]; [done | by rewrite andb_false_r].
    + rewrite Hq. apply elem_of_app. right. apply list_elem_of_here.
  - intros Hl Hf. unfold Server.OnDisconnect. rewrite Hload, Hl, Hf. cbn [negb andb].
    pose proof (DelayedFacts.LoadDelayedFiles_events w a1) as Hev.
    pose proof (SessionFacts.LoadDelayedFiles_app w a1) as Happ1.
    destruct (App.LoadDelayedFiles w a1) as [a2 evs2].
    pose proof (SessionFacts.AttachDebugger_app w a2) as Happ2.
    destruct (App.AttachDebugger w a2) as [a3 evs3]. cbn [fst snd] in *. subst a2 a3.
    split; [|done].
    apply elem_of_app. left. rewrite Hev. apply elem_of_app. left.
    apply list_elem_of_fmap. exists file. split; [done |].
    apply QueueFacts.set_iteration_elem. rewrite Hq. apply elem_of_app. right.
    apply list_elem_of_here.
Qed.

(** X10.  A request OnExecute refuses leaves the application as it was:
    when OnExecute returns false, either the text is an IfExec_Open request
    and nothing is done, or no prefix is recognised and the only call is
    the warning that names the text. *)
Theorem X10_refused_request_changes_nothing (w : World) (conn : Server.Connection)
    (strData : string) (a : CodeBlocksApp) :
  (Server.OnExecute w conn strData a).1.1 = false →
  (Server.OnExecute w conn strData a).1.2 = a
  ∧ ((StartsWith Server.tag_IfExec_Open strData = true
      ∧ (Server.OnExecute w conn strData a).2 = [])
     ∨ (Server.OnExecute w conn strData a).2
       = [EvSafeShowMessage "Warning" ("DDE topic " +:+ strData +:+ " not handled.")]).
Proof.
  unfold Server.OnExecute.
  destruct (StartsWith Server.tag_IfExec_Open strData); [intros _; split; [done | by left] |].
  destruct (StartsWith Server.tag_Open strData); [by destruct (Server.quoted strData) |].
  destruct (StartsWith Server.tag_OpenLine strData); [by destruct (Server.quoted strData) |].
  destruct (StartsWith Server.tag_Raise strData); [done |].
  destruct (StartsWith Server.tag_CmdLine strData).
  - destruct (DDE.OnExecute_CmdLine strData) as [cmdLine cwd].
    destruct (_ && _); [|done].
    by destruct (App.ParseCmdLine w true cmdLine cwd a) as [[? ?] ?].
  - intros _. split; [done | by right].
Qed.

Lemma X10_refused_request_changes_nothing_witness :
  (Server.OnExecute Demo.plain_world Session.frame_conn "[Close]" Session.running).1.2
  = Session.running
  ∧ ((StartsWith Server.tag_IfExec_Open "[Close]" = true
      ∧ (Server.OnExecute Demo.plain_world Session.frame_conn "[Close]" Session.running).2
        = [])
     ∨ (Server.OnExecute Demo.plain_world Session.frame_conn "[Close]" Session.running).2
       = [EvSafeShowMessage "Warning" "DDE topic [Close] not handled."]).
Proof. apply X10_refused_request_changes_nothing. reflexivity. Defined.

(** X11.  OnDisconnect uses up what it finds: a second OnDisconnect right
    after the first opens no file, attaches no debugger, logs nothing and
    leaves the application as the first one left it. *)
Theorem X11_second_Disconnect_does_nothing (w : World) (conn : Server.Connection)
    (a : CodeBlocksApp) :
  Server.OnDisconnect w conn (Server.OnDisconnect w conn a).1.2
  = (true, (Server.OnDisconnect w conn a).1.2, []).
Proof.
  unfold Server.OnDisconnect at 2 3.
  destruct (negb (s_Loading a) && Server.conn_Frame conn) eqn:Hc; cbn [fst snd].
  - pose proof (SessionFacts.LoadDelayedFiles_app w a) as H1.
    destruct (App.LoadDelayedFiles w a) as [a1 evs1].
    pose proof (SessionFacts.AttachDebugger_app w a1) as H2.
    destruct (App.AttachDebugger w a1) as [a2 evs2]. cbn [fst snd] in *. subst a1 a2.
    unfold Server.OnDisconnect.
    change (s_Loading (App.set_debugger _ _ _)) with (s_Loading a). rewrite Hc.
    rewrite SessionFacts.LoadDelayedFiles_spent by done.
    by rewrite SessionFacts.AttachDebugger_spent.
  - unfold Server.OnDisconnect. by rewrite Hc.
Qed.

Module OrderFacts.

Import App.

Lemma wxString_le_total : Total wxString_le.
Proof. intros x y. apply String.leb_total. Qed.

Lemma set_iteration_Sorted (files : gset string) : Sorted wxString_le (set_iteration files).
Proof. apply Sorted_merge_sort, wxString_le_total. Qed.

Lemma same_set (q q' : list string) :
  (∀ f, f ∈ q ↔ f ∈ q') → (list_to_set q : gset string) = list_to_set q'.
Proof.
  intros H. apply set_eq. intros f. by rewrite !elem_of_list_to_set.
Qed.

End OrderFacts.

(** X12.  LoadDelayedFiles forgets the order of arrival: the queued files
    are opened in increasing order of their names, and two queues with the
    same elements (in any order, with any repetitions) give the same calls. *)
Theorem X12_queue_opened_in_name_order (w : World) (a : CodeBlocksApp)
    (q : list string) (v : string) :
  Sorted App.wxString_le
    (Obs.opened_files (App.LoadDelayedFiles w (App.set_queue q EmptyString a)).2)
  ∧ ∀ q', (∀ f, f ∈ q ↔ f ∈ q') →
          (App.LoadDelayedFiles w (App.set_queue q' v a)).2
          = (App.LoadDelayedFiles w (App.set_queue q v a)).2.
Proof.
  split.
  - rewrite DelayedFacts.LoadDelayedFiles_events. cbn [m_AutoFile App.set_queue IsEmpty].
    rewrite app_nil_r, QueueFacts.opened_files_queue.
    apply OrderFacts.set_iteration_Sorted.
  - intros q' H. rewrite !DelayedFacts.LoadDelayedFiles_events.
    cbn [m_AutoFile m_DelayedFilesToOpen App.set_queue].
    by rewrite (OrderFacts.same_set q q' H).
Qed.

(** ** BatchJob *)

Module BatchJobFacts.

Import App Batch BatchObs Obs.

(** the flags the loop of ParseCmdLine computes *)
Lemma scan_params_found (w : World) (CWD : string) (ps : list string)
    (hp hw : bool) (q : list string) :
  (scan_params w CWD ps (hp, hw, q)).1.1
  = hp || existsb (is_project w) (up_to_workspace w ps)
  ∧ (scan_params w CWD ps (hp, hw, q)).1.2 = hw || existsb (is_workspace w) ps.
Proof.
  revert hp hw q. induction ps as [|p ps IH]; intros hp hw q.
  - cbn. by rewrite !orb_false_r.
  - assert (is_workspace w p
            = match FileTypeOf w p with ftCodeBlocksWorkspace => true | _ => false end)
      as Hw by done.
    assert (is_project w p
            = match FileTypeOf w p with ftCodeBlocksProject => true | _ => false end)
      as Hp by done.
    cbn [scan_params up_to_workspace existsb].
    destruct (FileTypeOf w p) eqn:E; rewrite Hw; cbn [existsb]; rewrite ?Hp; cbn [orb].
    + destruct (IH true hw (q ++ [Normalize w CWD p])) as [-> ->]. by rewrite orb_true_r.
    + cbn. by rewrite !orb_false_r, orb_true_r.
    + destruct (wxFile_Exists w (Normalize w CWD p)); apply IH.
Qed.

Lemma compiler_requests_app (evs1 evs2 : list Event) :
  compiler_requests (evs1 ++ evs2) = compiler_requests evs1 ++ compiler_requests evs2.
Proof.
  induction evs1 as [|e evs1 IH]; [done |].
  destruct e; cbn [compiler_requests app]; try done.
  destruct (StartsWith "compiler->" _); by rewrite ?IH.
Qed.

Lemma compiler_request_one (a : CodeBlocksApp) (target : string) :
  compiler_requests (compiler_request a target)
  = match compiler_request a target with
    | [EvCall what] => [what]
    | _ => []
    end.
Proof.
  unfold compiler_request. repeat case_match; try done.
  all: match goal with H : _ = [_] |- _ => injection H as <- end.
  all: cbn [compiler_requests].
  all: by rewrite ServerFacts.StartsWith_within by (vm_compute; lia).
Qed.

(** the calls on the dialog and the task bar icon are none on the compiler *)
Lemma BatchJob_requests (w : World) (env : BatchEnv) (a : CodeBlocksApp) (target : string) :
  m_Batch a = true → GetFirstCompiler env = true → asked_target env a = Some target →
  compiler_requests (BatchJob w env a).2 = compiler_requests (compiler_request a target).
Proof.
  intros Hb Hc Ht. unfold BatchJob. rewrite Hb, Hc, Ht. cbn [negb snd].
  rewrite !compiler_requests_app. cbn [compiler_requests].
  rewrite !ServerFacts.StartsWith_within by (vm_compute; lia).
  change (StartsWith "compiler->" "PlaceWindow(m_pBatchBuildDialog)") with false.
  change (StartsWith "compiler->" "wxTaskBarIcon::SetIcon ") with false.
  change (StartsWith "compiler->" "m_pBatchBuildDialog->SetTitle ") with false.
  change (StartsWith "compiler->" "m_pBatchBuildDialog->Show") with false.
  change (StartsWith "compiler->" "m_pBatchBuildDialog->Bind(wxEVT_CLOSE_WINDOW)") with false.
  change (StartsWith "compiler->" "wxTaskBarIcon::RemoveIcon") with false.
  cbn iota. by rewrite app_nil_r.
Qed.

End BatchJobFacts.

Module BatchRunFacts.

Import App Batch BatchObs Obs.

(** the handler pass of ParseCmdLine leaves the three switches alone *)
Lemma handler_switches (w : World) (s CWD : string) (a : CodeBlocksApp) :
  let r := (ParseCmdLine w true s CWD a).1.2 in
  m_Build r = m_Build a ∧ m_ReBuild r = m_ReBuild a ∧ m_Clean r = m_Clean a.
Proof.
  unfold ParseCmdLine. destruct (Parse w s) as [|c]; [done |].
  by destruct (scan_params w CWD (params c) _) as [[? ?] ?].
Qed.

Lemma handler_found (w : World) (s CWD : string) (a : CodeBlocksApp) (c : CmdLine) :
  Parse w s = Parsed c →
  let r := (ParseCmdLine w true s CWD a).1.2 in
  m_HasProject r = existsb (is_project w) (up_to_workspace w (params c))
  ∧ m_HasWorkSpace r = existsb (is_workspace w) (params c).
Proof.
  intros Hp. unfold ParseCmdLine. rewrite Hp.
  destruct (BatchJobFacts.scan_params_found w CWD (params c) false false
              (m_DelayedFilesToOpen a)) as [H1 H2].
  destruct (scan_params w CWD (params c) _) as [[hp hw] q]. cbn in *. by subst.
Qed.

Lemma notified_once (code : Z) (a : CodeBlocksApp) :
  m_Batch a = true → one_time_only a = false →
  List.length (filter (λ e, is_notification e = true) (OnBatchBuildDone code a).2) = 1
  ∧ (OnBatchBuildDone code a).1 = set_batch_done code a.
Proof.
  intros Hb Ho. unfold OnBatchBuildDone. rewrite Hb, Ho. cbn [negb orb fst snd].
  split; [|done]. rewrite filter_app.
  destruct (m_BatchNotify _); destruct (_ && _);
    rewrite ?filter_cons_True, ?filter_cons_False, ?filter_nil by done; done.
Qed.

End BatchRunFacts.

(** X13.  What a batch start asks of the compiler.  After the handler pass
    of ParseCmdLine over a command line with the switches of [c], if
    m_Batch is set, a compiler plugin exists and the target is [target],
    BatchJob returns 0 and makes exactly one request: Rebuild when
    --rebuild was given, else Build when --build was, else Clean; on the
    project when a project file comes before the first workspace among the
    parameters (or there is no workspace), on the workspace otherwise. *)
Theorem X13_batch_request (w : World) (env : Batch.BatchEnv) (a1 : CodeBlocksApp)
    (c : CmdLine) (target : string) :
  Parse w EmptyString = Parsed c →
  m_Build a1 = sw_build c → m_ReBuild a1 = sw_rebuild c → m_Clean a1 = sw_clean c →
  let r := (App.ParseCmdLine w true EmptyString EmptyString a1).1.2 in
  m_Batch r = true →
  Batch.GetFirstCompiler env = true →
  Batch.asked_target env r = Some target →
  (Batch.BatchJob w env r).1.1 = 0%Z
  ∧ Batch.compiler_requests (Batch.BatchJob w env r).2
    = [BatchObs.request_name c
         (existsb (BatchObs.is_project w) (BatchObs.up_to_workspace w (params c)))
       +:+ target].
Proof.
  intros Hp Hb Hr Hc r Hbatch Hcomp Htarget. split.
  - unfold Batch.BatchJob. by rewrite Hbatch, Hcomp, Htarget.
  - rewrite (BatchJobFacts.BatchJob_requests w env r target Hbatch Hcomp Htarget).
    rewrite BatchJobFacts.compiler_request_one. unfold Batch.compiler_request.
    destruct (BatchRunFacts.handler_switches w EmptyString EmptyString a1) as (Sb & Sr & Sc).
    destruct (BatchRunFacts.handler_found w EmptyString EmptyString a1 c Hp) as (Fp & Fw).
    destruct (ParseFacts.ParseCmdLine_handler w EmptyString EmptyString a1 c Hp)
      as (_ & _ & _ & Hm).
    fold r in Sb, Sr, Sc, Fp, Fw, Hm.
    pose proof (BatchJobFacts.scan_params_found w EmptyString (params c) false false
                  (m_DelayedFilesToOpen a1)) as [G1 G2].
    rewrite G1, G2, Hbatch, Hb, Hr, Hc in Hm. cbn [orb] in Hm.
    rewrite Sb, Sr, Sc, Hb, Hr, Hc, Fp, Fw. unfold BatchObs.request_name.
    destruct (existsb (BatchObs.is_project w) _), (existsb (Obs.is_workspace w) _),
      (sw_rebuild c), (sw_build c), (sw_clean c); try discriminate Hm; reflexivity.
Qed.

Lemma X13_batch_request_witness :
  let r := (App.ParseCmdLine Demo.build_world true EmptyString EmptyString
              (App.ParseCmdLine Demo.build_world false EmptyString EmptyString
                 Demo.fresh).1.2).1.2 in
  (Batch.BatchJob Demo.build_world BatchObs.with_compiler r).1.1 = 0%Z
  ∧ Batch.compiler_requests (Batch.BatchJob Demo.build_world BatchObs.with_compiler r).2
    = [BatchObs.request_name (Demo.cmdline true false false
                                ["a.cpp"; "proj.cbp"; "all.workspace"; "b.cpp"])
         (existsb (BatchObs.is_project Demo.build_world)
            (BatchObs.up_to_workspace Demo.build_world
               ["a.cpp"; "proj.cbp"; "all.workspace"; "b.cpp"]))
       +:+ EmptyString].
Proof.
  apply (X13_batch_request Demo.build_world BatchObs.with_compiler
           (App.ParseCmdLine Demo.build_world false EmptyString EmptyString Demo.fresh).1.2
           (Demo.cmdline true false false ["a.cpp"; "proj.cbp"; "all.workspace"; "b.cpp"])
           EmptyString); reflexivity.
Defined.

(** A project named before a workspace: the queue holds the workspace
    alone, and the build requested is the one of the active project. *)
Example project_before_workspace :
  let r := (App.ParseCmdLine Demo.build_world true EmptyString EmptyString
              (App.ParseCmdLine Demo.build_world false EmptyString EmptyString
                 Demo.fresh).1.2).1.2 in
  m_DelayedFilesToOpen r = ["/cwd/all.workspace"]
  ∧ Batch.compiler_requests (Batch.BatchJob Demo.build_world BatchObs.with_compiler r).2
    = ["compiler->Build "].
Proof. split; vm_compute; reflexivity. Qed.

(** X14.  The compiler's report reaches the user once.  However many
    cbEVT_COMPILER_FINISHED events the loop delivers, OnBatchBuildDone
    rings the bell or shows its message box at most once, and exactly once
    when the application is in batch mode, has not been notified before,
    and at least one event arrives. *)
Theorem X14_build_end_notified_once (codes : list Z) (a : CodeBlocksApp) :
  let n := List.length (filter (λ e, BatchObs.is_notification e = true)
                          (App.deliver codes a).2) in
  n ≤ 1
  ∧ (n = 1 ↔ m_Batch a = true ∧ one_time_only a = false ∧ codes ≠ []).
Proof.
  cbn zeta.
  destruct (m_Batch a) eqn:Hb; [destruct (one_time_only a) eqn:Ho |].
  - rewrite BatchFacts.deliver_ignored by auto. cbn.
    split; [lia |]. split; [lia | by intros (_ & ? & _)].
  - destruct codes as [|code codes].
    + cbn. split; [lia |]. split; [lia | by intros (_ & _ & ?)].
    + cbn [App.deliver].
      destruct (BatchRunFacts.notified_once code a Hb Ho) as [Hn Ha].
      destruct (App.OnBatchBuildDone code a) as [a1 evs1]. cbn [fst snd] in *. subst a1.
      rewrite BatchFacts.deliver_ignored by (right; done). cbn [snd].
      rewrite app_nil_r, Hn. split; [lia |]. split; [done | done].
  - rewrite BatchFacts.deliver_ignored by auto. cbn.
    split; [lia |]. split; [lia | by intros (? & _)].
Qed.

(** ** OnInit, statement by statement *)

Module LogicFacts.

Import App Init Logic.

Lemma hoare_bind {A B} (Pre : Sys → Prop) (m : M A) (k : A → M B)
    (Mid : A → Sys → Prop) (Q : B → Sys → Prop) (R : bool → Sys → Prop) (X : Sys → Prop) :
  hoare Pre m Mid R X → (∀ x, hoare (Mid x) (k x) Q R X) → hoare Pre (m ≫= k) Q R X.
Proof.
  intros Hm Hk s o s' HP Hrun. unfold mbind, M_bind, bind in Hrun.
  destruct (m s) as [[x|b|e] s1] eqn:E; pose proof (Hm _ _ _ HP E) as H1; cbn in H1.
  - exact (Hk x _ _ _ H1 Hrun).
  - by injection Hrun as <- <-.
  - by injection Hrun as <- <-.
Qed.

Lemma hoare_weaken {A} (Pre Pre' : Sys → Prop) (m : M A)
    (Q : A → Sys → Prop) (R : bool → Sys → Prop) (X : Sys → Prop) :
  (∀ s, Pre s → Pre' s) → hoare Pre' m Q R X → hoare Pre m Q R X.
Proof. intros HP Hm s o s' H. apply Hm. by apply HP. Qed.

Lemma hoare_post {A} (Pre : Sys → Prop) (m : M A)
    (Q Q' : A → Sys → Prop) (R R' : bool → Sys → Prop) (X X' : Sys → Prop) :
  hoare Pre m Q R X →
  (∀ x s, Q x s → Q' x s) → (∀ b s, R b s → R' b s) → (∀ s, X s → X' s) →
  hoare Pre m Q' R' X'.
Proof.
  intros Hm HQ HR HX s o s' HP Hrun. specialize (Hm _ _ _ HP Hrun).
  destruct o; auto.
Qed.

Lemma hoare_false {A} (m : M A) (Q : A → Sys → Prop) (R : bool → Sys → Prop)
    (X : Sys → Prop) :
  hoare (λ _, False) m Q R X.
Proof. by intros s o s' []. Qed.

(** a fact that does not depend on the state *)
Lemma hoare_pure {A} (φ : Prop) (Pre : Sys → Prop) (m : M A)
    (Q : A → Sys → Prop) (R : bool → Sys → Prop) (X : Sys → Prop) :
  (φ → hoare Pre m Q R X) → hoare (λ s, φ ∧ Pre s) m Q R X.
Proof. intros Hm s o s' [Hφ HP]. by apply Hm. Qed.

Lemma hoare_ret {A} (Pre : Sys → Prop) (x : A)
    (Q : A → Sys → Prop) (R : bool → Sys → Prop) (X : Sys → Prop) :
  (∀ s, Pre s → Q x s) → hoare Pre (ret x) Q R X.
Proof. intros H s o s' HP [= <- <-]. by apply H. Qed.

Lemma hoare_return {A} (Pre : Sys → Prop) (b : bool)
    (Q : A → Sys → Prop) (R : bool → Sys → Prop) (X : Sys → Prop) :
  (∀ s, Pre s → R b s) → hoare Pre (return_ b) Q R X.
Proof. intros H s o s' HP [= <- <-]. by apply H. Qed.

Lemma hoare_update (Pre : Sys → Prop) (f : CodeBlocksApp → CodeBlocksApp)
    (Q : () → Sys → Prop) (R : bool → Sys → Prop) (X : Sys → Prop) :
  (∀ s, Pre s → Q () {| app := f (app s); trace := trace s |}) →
  hoare Pre (update f) Q R X.
Proof. intros H s o s' HP [= <- <-]. by apply H. Qed.

Lemma hoare_emit (Pre : Sys → Prop) (evs : list Event)
    (Q : () → Sys → Prop) (R : bool → Sys → Prop) (X : Sys → Prop) :
  (∀ s, Pre s → Q () {| app := app s; trace := trace s ++ evs |}) →
  hoare Pre (emit evs) Q R X.
Proof. intros H s o s' HP [= <- <-]. by apply H. Qed.

Lemma hoare_guard (Pre : Sys → Prop) (w : World) (site : string)
    (Q : () → Sys → Prop) (R : bool → Sys → Prop) (X : Sys → Prop) :
  (∀ s, Pre s → Q () s) → (∀ s, Pre s → X s) → hoare Pre (guard w site) Q R X.
Proof.
  intros HQ HX s o s' HP Hrun. unfold guard in Hrun.
  destruct (throws w site); injection Hrun as <- <-; auto.
Qed.

Lemma hoare_call_as (Pre : Sys → Prop) (w : World) (site : string) (ev : Event)
    (Q : () → Sys → Prop) (R : bool → Sys → Prop) (X : Sys → Prop) :
  (∀ s, Pre s → Q () {| app := app s; trace := trace s ++ [ev] |}) →
  (∀ s, Pre s → X s) →
  hoare Pre (call_as w site ev) Q R X.
Proof.
  intros HQ HX. apply (hoare_bind _ _ _ (λ _, Pre)).
  - by apply hoare_guard.
  - intros _. by apply hoare_emit.
Qed.

Lemma hoare_method {A} (Pre : Sys → Prop) (w : World) (site : string)
    (f : CodeBlocksApp → A * CodeBlocksApp * list Event)
    (Q : A → Sys → Prop) (R : bool → Sys → Prop) (X : Sys → Prop) :
  (∀ s, Pre s →
        Q (f (app s)).1.1 {| app := (f (app s)).1.2; trace := trace s ++ (f (app s)).2 |}) →
  (∀ s, Pre s → X s) →
  hoare Pre (method w site f) Q R X.
Proof.
  intros HQ HX. apply (hoare_bind _ _ _ (λ _, Pre)).
  - by apply hoare_guard.
  - intros _ s o s' HP Hrun. unfold run_method in Hrun.
    specialize (HQ s HP). destruct (f (app s)) as [[x a'] evs].
    by injection Hrun as <- <-.
Qed.

Lemma hoare_get_bind {B} (Pre : Sys → Prop) (k : CodeBlocksApp → M B)
    (Q : B → Sys → Prop) (R : bool → Sys → Prop) (X : Sys → Prop) :
  (∀ s0, Pre s0 → hoare (λ s, s = s0) (k (app s0)) Q R X) → hoare Pre (get ≫= k) Q R X.
Proof. intros H s o s' HP Hrun. by apply (H s HP s o s'). Qed.

(** *** Rules for [since] *)

Lemma since_start (s : Sys) (Tr : list Event → Prop) (F : CodeBlocksApp → Prop) :
  Tr [] → F (app s) → since (trace s) Tr F s.
Proof. intros HT HF. split; [|done]. exists []. by rewrite app_nil_r. Qed.

Lemma since_step (t0 : list Event) (Tr Tr' : list Event → Prop)
    (F F' : CodeBlocksApp → Prop) (s : Sys) (a' : CodeBlocksApp) (new : list Event) :
  (∀ evs, Tr evs → Tr' (evs ++ new)) → F' a' →
  since t0 Tr F s → since t0 Tr' F' {| app := a'; trace := trace s ++ new |}.
Proof.
  intros HT HF [(evs & Ht & HTr) _]. split; [|done].
  exists (evs ++ new). cbn. by rewrite Ht, app_assoc; auto.
Qed.

Lemma since_same (t0 : list Event) (Tr : list Event → Prop)
    (F F' : CodeBlocksApp → Prop) (s : Sys) (a' : CodeBlocksApp) :
  F' a' → since t0 Tr F s → since t0 Tr F' {| app := a'; trace := trace s |}.
Proof. intros HF [HT _]. by split. Qed.

Lemma since_weaken (t0 : list Event) (Tr : list Event → Prop)
    (F F' : CodeBlocksApp → Prop) (s : Sys) :
  (∀ a, F a → F' a) → since t0 Tr F s → since t0 Tr F' s.
Proof. intros H [HT HF]. split; auto. Qed.

Lemma grows_Forall (P : Event → Prop) : grows (Forall P) P.
Proof. intros evs new H1 H2. by apply Forall_app. Qed.

Lemma grows_always (P : Event → Prop) : grows (λ _, True) P.
Proof. done. Qed.

Lemma grows_elem (e : Event) (P : Event → Prop) : grows (λ evs, e ∈ evs) P.
Proof. intros evs new H _. apply elem_of_app. by left. Qed.

Section since_rules.

Context {Tr : list Event → Prop} {P : Event → Prop} (Hgrow : grows Tr P).
Context {t0 : list Event} {F : CodeBlocksApp → Prop}.
Context {R : bool → Sys → Prop} {X : Sys → Prop}.
Context (HX : ∀ s, since t0 Tr F s → X s).

Lemma since_emit (evs : list Event) :
  Forall P evs → hoare (since t0 Tr F) (emit evs) (λ _, since t0 Tr F) R X.
Proof.
  intros HP. apply hoare_emit. intros s Hs.
  destruct Hs as [HT HF]. apply (since_step t0 Tr Tr F F s (app s) evs); [|done|by split].
  intros evs0 H0. by apply Hgrow.
Qed.

Lemma since_guard (w : World) (site : string) :
  hoare (since t0 Tr F) (guard w site) (λ _, since t0 Tr F) R X.
Proof. by apply hoare_guard. Qed.

Lemma since_call_as (w : World) (site : string) (ev : Event) :
  P ev → hoare (since t0 Tr F) (call_as w site ev) (λ _, since t0 Tr F) R X.
Proof.
  intros HP. apply (hoare_bind _ _ _ (λ _, since t0 Tr F)).
  - apply since_guard.
  - intros _. apply since_emit. by repeat constructor.
Qed.

Lemma since_call (w : World) (site : string) :
  P (EvCall site) → hoare (since t0 Tr F) (call w site) (λ _, since t0 Tr F) R X.
Proof. apply since_call_as. Qed.

(** a member function that leads from [F] to [F' x] *)
Lemma since_method_to {A} (w : World) (site : string)
    (f : CodeBlocksApp → A * CodeBlocksApp * list Event)
    (F' : A → CodeBlocksApp → Prop) :
  (∀ a, F a → Forall P (f a).2 ∧ F' (f a).1.1 (f a).1.2) →
  hoare (since t0 Tr F) (method w site f) (λ x, since t0 Tr (F' x)) R X.
Proof.
  intros Hf. apply hoare_method; [|done]. intros s Hs.
  destruct (Hf (app s) (proj2 Hs)) as [HP HF].
  apply (since_step t0 Tr Tr F _ s); [|done|done].
  intros evs0 H0. by apply Hgrow.
Qed.

Lemma since_method {A} (w : World) (site : string)
    (f : CodeBlocksApp → A * CodeBlocksApp * list Event) :
  (∀ a, F a → Forall P (f a).2 ∧ F (f a).1.2) →
  hoare (since t0 Tr F) (method w site f) (λ _, since t0 Tr F) R X.
Proof. apply (since_method_to w site f (λ _, F)). Qed.

End since_rules.

Lemma since_update {Tr : list Event → Prop} {t0 : list Event}
    {F F' : CodeBlocksApp → Prop} {R : bool → Sys → Prop} {X : Sys → Prop}
    (f : CodeBlocksApp → CodeBlocksApp) :
  (∀ a, F a → F' (f a)) →
  hoare (since t0 Tr F) (update f) (λ _, since t0 Tr F') R X.
Proof.
  intros Hf. apply hoare_update. intros s Hs.
  apply (since_same t0 Tr F); [|done]. apply Hf, Hs.
Qed.

Lemma since_ret {A} {Tr : list Event → Prop} {t0 : list Event}
    {F : CodeBlocksApp → Prop} {R : bool → Sys → Prop} {X : Sys → Prop} (x : A) :
  hoare (since t0 Tr F) (ret x) (λ _, since t0 Tr F) R X.
Proof. by apply hoare_ret. Qed.

Lemma since_when {Tr : list Event → Prop} {t0 : list Event}
    {F : CodeBlocksApp → Prop} {R : bool → Sys → Prop} {X : Sys → Prop}
    (c : bool) (m : M unit) :
  hoare (since t0 Tr F) m (λ _, since t0 Tr F) R X →
  hoare (since t0 Tr F) (when c m) (λ _, since t0 Tr F) R X.
Proof. intros Hm. destruct c; [done | apply since_ret]. Qed.

Lemma since_bind {A B} {Tr : list Event → Prop} {t0 : list Event}
    {F : CodeBlocksApp → Prop} {R : bool → Sys → Prop} {X : Sys → Prop}
    (m : M A) (k : A → M B) (Q : B → Sys → Prop) :
  hoare (since t0 Tr F) m (λ _, since t0 Tr F) R X →
  (∀ x, hoare (since t0 Tr F) (k x) Q R X) →
  hoare (since t0 Tr F) (m ≫= k) Q R X.
Proof. intros Hm Hk. by apply (hoare_bind _ _ _ (λ _, since t0 Tr F)). Qed.

(** what [get] hands over satisfies [F] *)
Lemma since_get_bind {B} {Tr : list Event → Prop} {t0 : list Event}
    {F : CodeBlocksApp → Prop} {R : bool → Sys → Prop} {X : Sys → Prop}
    (k : CodeBlocksApp → M B) (Q : B → Sys → Prop) :
  (∀ a, F a → hoare (since t0 Tr F) (k a) Q R X) →
  hoare (since t0 Tr F) (get ≫= k) Q R X.
Proof.
  intros H. apply hoare_get_bind. intros s0 Hs0.
  apply (hoare_weaken _ (since t0 Tr F)); [by intros s -> |]. apply H, Hs0.
Qed.

(** OnInit, from its prologue and the body of its try block *)
Lemma hoare_OnInit (w : World) (Pre Mid : Sys → Prop) (Post : bool → Sys → Prop)
    (Xp : Sys → Prop) :
  hoare Pre (OnInit_prologue w) (λ _, Mid) Post Xp →
  hoare Mid (OnInit_try w) (λ _, Post false) Post
    (λ s, ∀ e, Post false {| app := app s; trace := trace s ++ [catch_message e] |}) →
  hoare Pre (OnInit w) Post (λ _ _, False) Xp.
Proof.
  intros Hp Ht s o s' HP Hrun. unfold OnInit in Hrun.
  destruct (OnInit_prologue w s) as [[[]|b|e] s1] eqn:E1;
    pose proof (Hp _ _ _ HP E1) as H1; cbn in H1.
  - destruct (OnInit_try w s1) as [[x|b|e] s2] eqn:E2;
      pose proof (Ht _ _ _ H1 E2) as H2; cbn in H2; injection Hrun as <- <-; auto.
  - by injection Hrun as <- <-.
  - by injection Hrun as <- <-.
Qed.

(** the members that the member functions called by OnInit leave alone *)
Lemma ParseCmdLine_pointers (w : World) (h : bool) (s d : string) (a : CodeBlocksApp) :
  let r := (ParseCmdLine w h s d a).1.2 in
  m_Frame r = m_Frame a ∧ s_Loading r = s_Loading a ∧ g_DDEServer r = g_DDEServer a.
Proof.
  unfold ParseCmdLine. destruct (Parse w s) as [|c]; [done |].
  destruct h; [|done]. by destruct (scan_params w d (params c) _) as [[? ?] ?].
Qed.

Lemma LoadDelayedFiles_pointers (w : World) (a : CodeBlocksApp) :
  let r := (LoadDelayedFiles w a).1 in
  m_Frame r = m_Frame a ∧ s_Loading r = s_Loading a ∧ g_DDEServer r = g_DDEServer a.
Proof. cbn zeta. by rewrite SessionFacts.LoadDelayedFiles_app. Qed.

Lemma AttachDebugger_pointers (w : World) (a : CodeBlocksApp) :
  let r := (AttachDebugger w a).1 in
  m_Frame r = m_Frame a ∧ s_Loading r = s_Loading a ∧ g_DDEServer r = g_DDEServer a.
Proof. cbn zeta. by rewrite SessionFacts.AttachDebugger_app. Qed.

End LogicFacts.

Module StartFacts.

Import App Init Logic LogicFacts.

Ltac since_run Hgrow HX :=
  repeat first
    [ apply since_when
    | apply (since_call Hgrow HX)
    | apply (since_call_as Hgrow HX)
    | apply since_update
    | apply since_ret
    | apply hoare_return
    | apply (since_emit Hgrow)
    | apply (since_guard HX)
    | apply (since_method Hgrow HX)
    | apply since_get_bind; intros ? ?
    | apply since_bind; [|intros ?]
    | match goal with |- hoare _ (if ?c then _ else _) _ _ _ => destruct c end ].

(** the events of a member function and the application it leaves, for the
    wrappers OnInit calls them through *)
Lemma LoadConfig_wrapped (w : World) (a : CodeBlocksApp) :
  (let '(b, evs) := LoadConfig w a in (b, a, evs)) = ((LoadConfig w a).1, a, (LoadConfig w a).2).
Proof. by destruct (LoadConfig w a). Qed.

Lemma LoadDelayedFiles_wrapped (w : World) (a : CodeBlocksApp) :
  (let '(a', evs) := LoadDelayedFiles w a in ((), a', evs))
  = ((), (LoadDelayedFiles w a).1, (LoadDelayedFiles w a).2).
Proof. by destruct (LoadDelayedFiles w a). Qed.

Lemma AttachDebugger_wrapped (w : World) (a : CodeBlocksApp) :
  (let '(a', evs) := AttachDebugger w a in ((), a', evs))
  = ((), (AttachDebugger w a).1, (AttachDebugger w a).2).
Proof. by destruct (AttachDebugger w a). Qed.

Lemma silent_catch (e : exn) : silent (catch_message e).
Proof. by destruct e. Qed.

(** A start with --build, --rebuild or --clean makes no call of the IPC
    client and leaves g_DDEServer alone. *)
Lemma batch_start_silent (w : World) (c : CmdLine) (s0 : Sys) :
  Parse w EmptyString = Parsed c →
  sw_build c || sw_rebuild c || sw_clean c = true →
  hoare (λ s, s = s0) (OnInit w)
    (λ _, since (trace s0) (Forall silent) (λ a, g_DDEServer a = g_DDEServer (app s0)))
    (λ _ _, False)
    (since (trace s0) (Forall silent) (λ a, g_DDEServer a = g_DDEServer (app s0))).
Proof.
  intros Hp Hsw.
  set (t0 := trace s0). set (g0 := g_DDEServer (app s0)).
  set (F0 := λ a, g_DDEServer a = g0).
  set (F1 := λ a, g_DDEServer a = g0 ∧ m_Batch a = true).
  pose proof (grows_Forall silent) as Hgrow.
  assert (∀ s, since t0 (Forall silent) F0 s → since t0 (Forall silent) F0 s) as HX0 by done.
  assert (∀ F s, since t0 (Forall silent) F s →
            ∀ e, since t0 (Forall silent) (λ a, F a)
                   {| app := app s; trace := trace s ++ [catch_message e] |}) as Hcatch.
  { intros F s Hs e. apply (since_step t0 (Forall silent) (Forall silent) F F s); [| apply Hs | done].
    intros evs H. apply Forall_app. split; [done |]. repeat constructor. apply silent_catch. }
  assert (∀ s, since t0 (Forall silent) F1 s → since t0 (Forall silent) F0 s) as H10.
  { intros s. apply since_weaken. by intros a [? _]. }
  apply (hoare_weaken _ (since t0 (Forall silent) F0)).
  { intros s ->. by apply since_start. }
  apply (hoare_OnInit w _ (since t0 (Forall silent) F0) (λ _, since t0 (Forall silent) F0)).
  - unfold OnInit_prologue. since_run Hgrow HX0; done.
  - assert (∀ s, since t0 (Forall silent) F0 s →
              ∀ e, since t0 (Forall silent) F0
                     {| app := app s; trace := trace s ++ [catch_message e] |}) as HXt0
      by (intros s Hs; apply (Hcatch F0 s Hs)).
    assert (∀ s, since t0 (Forall silent) F1 s →
              ∀ e, since t0 (Forall silent) F0
                     {| app := app s; trace := trace s ++ [catch_message e] |}) as HXt1
      by (intros s Hs; apply (Hcatch F0 s (H10 s Hs))).
    unfold OnInit_try.
    apply (hoare_bind _ _ _ (λ _, since t0 (Forall silent) F1)).
    { unfold OnInit_configure.
      do 3 (apply since_bind; [apply (since_call Hgrow HXt0); done | intros _]).
      apply (hoare_bind _ _ _ (λ _, since t0 (Forall silent) F1)).
      { apply (since_method_to Hgrow HXt0 _ _ _ (λ _, F1)). intros a Ha. split.
        - apply SessionFacts.ParseCmdLine_silent.
        - unfold ParseCmdLine. rewrite Hp. cbn [fst snd]. split; [exact Ha | exact Hsw]. }
      intros res. unfold InitXRCStuff. since_run Hgrow HXt1; try done.
      intros a Ha. rewrite LoadConfig_wrapped. cbn [fst snd].
      split; [apply SessionFacts.LoadConfig_silent | done]. }
    intros _. apply (hoare_bind _ _ _ (λ _, since t0 (Forall silent) F1)).
    { unfold OnInit_ipc. apply since_get_bind. intros a [_ Hb].
      rewrite Hb. cbn [negb]. rewrite andb_false_r. cbn [andb when]. apply since_ret. }
    intros _. apply (hoare_bind _ _ _ (λ _, since t0 (Forall silent) F1)).
    { unfold OnInit_single_instance. since_run Hgrow HXt1; done. }
    intros _. unfold OnInit_startup. apply since_get_bind. intros a [_ Hb].
    rewrite Hb. cbn [negb andb orb]. rewrite andb_false_r. cbn [andb when].
    apply (hoare_weaken _ (since t0 (Forall silent) F0)); [done |].
    unfold InitFrame, OnInit_batch, OnInit_script, OnInit_interactive.
    since_run Hgrow HXt0; try done; try (by repeat constructor).
    + intros a' Ha'. split; [apply SessionFacts.ParseCmdLine_silent |].
      unfold F0. by rewrite (proj2 (proj2 (ParseCmdLine_pointers w true _ _ a'))).
    + intros a' Ha'. rewrite LoadDelayedFiles_wrapped. cbn [fst snd].
      split; [apply SessionFacts.LoadDelayedFiles_silent |].
      unfold F0. by rewrite (proj2 (proj2 (LoadDelayedFiles_pointers w a'))).
    + intros a' Ha'. rewrite LoadDelayedFiles_wrapped. cbn [fst snd].
      split; [apply SessionFacts.LoadDelayedFiles_silent |].
      unfold F0. by rewrite (proj2 (proj2 (LoadDelayedFiles_pointers w a'))).
    + intros a' Ha'. rewrite AttachDebugger_wrapped. cbn [fst snd].
      split; [apply SessionFacts.AttachDebugger_silent |].
      unfold F0. by rewrite (proj2 (proj2 (AttachDebugger_pointers w a'))).
Qed.

End StartFacts.

(** X15.  A batch start keeps to itself.  When the command line has
    --build, --rebuild or --clean, OnInit, however it ends and whatever
    throws, makes no call of the IPC client (no MakeConnection, no Execute,
    no Disconnect): it never hands its command line to a running instance,
    even when nothing on the command line can be built; and it leaves
    g_DDEServer as it was, so that no DDE server is started either. *)
Theorem X15_batch_start_contacts_nobody (w : World) (c : CmdLine) (s : Init.Sys) :
  Parse w EmptyString = Parsed c →
  sw_build c || sw_rebuild c || sw_clean c = true →
  ∃ evs,
    Init.trace (Init.OnInit w s).2 = Init.trace s ++ evs
    ∧ Forall (λ e, Session.talks e = false) evs
    ∧ g_DDEServer (Init.app (Init.OnInit w s).2) = g_DDEServer (Init.app s).
Proof.
  intros Hp Hsw. pose proof (StartFacts.batch_start_silent w c s Hp Hsw) as H.
  destruct (Init.OnInit w s) as [o s'] eqn:E. specialize (H s o s' eq_refl E).
  destruct o as [b|b|e]; cbn in H; [|done|];
    destruct H as [(evs & Ht & HF) Hg]; eauto.
Qed.

Lemma X15_batch_start_contacts_nobody_witness :
  ∃ evs,
    Init.trace (Init.OnInit Demo.build_without_project Demo.start).2
    = Init.trace Demo.start ++ evs
    ∧ Forall (λ e, Session.talks e = false) evs
    ∧ g_DDEServer (Init.app (Init.OnInit Demo.build_without_project Demo.start).2)
      = g_DDEServer (Init.app Demo.start).
Proof.
  apply (X15_batch_start_contacts_nobody Demo.build_without_project
           (Demo.cmdline true false false ["a.cpp"]) Demo.start); reflexivity.
Defined.

Module FrameFacts.

Import App Init Logic LogicFacts.

(** side conditions when every event will do *)
Ltac any_event :=
  try done; try (by repeat constructor);
  try (intros ? ?; split; [by apply Forall_true | done]).

Ltac step Hgrow HX :=
  apply since_bind; [StartFacts.since_run Hgrow HX; any_event | intros ?].

Ltac step_to_update Hgrow HX :=
  repeat lazymatch goal with
         | |- hoare _ (update _ ≫= _) _ _ _ => fail
         | _ => step Hgrow HX
         end.

(** When OnInit returns true the main frame has been created, m_Frame is
    set and s_Loading is reset. *)
Lemma started_with_frame (w : World) (s0 : Sys) :
  hoare (λ s, s = s0) (OnInit w)
    (λ b s, b = true →
            since (trace s0) (λ evs, EvNewMainFrame ∈ evs)
              (λ a, m_Frame a = true ∧ s_Loading a = false) s)
    (λ _ _, False) (λ _, True).
Proof.
  set (t0 := trace s0).
  set (TrA := λ _ : list Event, True). set (TrB := λ evs : list Event, EvNewMainFrame ∈ evs).
  set (FA := λ _ : CodeBlocksApp, True).
  set (FB := λ a, m_Frame a = true).
  set (FC := λ a, m_Frame a = true ∧ s_Loading a = false).
  set (Post := λ (b : bool) s, b = true → since t0 TrB FC s).
  set (Xt := λ s, ∀ e, Post false {| app := app s; trace := trace s ++ [catch_message e] |}).
  pose proof (grows_always (λ _, True) : grows TrA (λ _, True)) as HgA.
  pose proof (grows_elem EvNewMainFrame (λ _, True) : grows TrB (λ _, True)) as HgB.
  assert (∀ s, Xt s) as HXt by (by intros s e).
  apply (hoare_weaken _ (since t0 TrA FA)).
  { intros s ->. by apply since_start. }
  apply (hoare_OnInit w _ (since t0 TrA FA) Post).
  - unfold OnInit_prologue.
    StartFacts.since_run HgA (λ s (_ : since t0 TrA FA s), I); done.
  - fold Xt.
    pose proof (λ s (_ : since t0 TrA FA s), HXt s) as HXA.
    pose proof (λ s (_ : since t0 TrB FA s), HXt s) as HXB0.
    pose proof (λ s (_ : since t0 TrB FB s), HXt s) as HXB.
    pose proof (λ s (_ : since t0 TrB FC s), HXt s) as HXC.
    assert (∀ a, FB a → FC (set_Loading false a)) as Hload by (by intros a Ha).
    assert (∀ s, since t0 TrB FC s → Post true s) as Hdone by (by intros s Hs _).
    unfold OnInit_try.
    do 3 step HgA HXA.
    unfold OnInit_startup. apply since_get_bind. intros a _.
    do 6 step HgA HXA.
    apply (hoare_bind _ _ _ (λ _, since t0 TrB FB)).
    { unfold InitFrame. apply (hoare_bind _ _ _ (λ _, since t0 TrB FA)).
      - apply hoare_call_as; [|done]. intros s Hs.
        apply (since_step t0 TrA TrB FA FA s); [|done|done].
        intros evs _. apply elem_of_app. right. apply list_elem_of_here.
      - intros _. StartFacts.since_run HgB HXB0; done. }
    intros _. do 2 step HgB HXB.
    step HgB HXB.
    { intros a' Ha'. split; [by apply Forall_true |].
      unfold FB. by rewrite (proj1 (ParseCmdLine_pointers w true _ _ a')). }
    step HgB HXB. apply since_get_bind. intros b _. step HgB HXB.
    assert (∀ a', FC a' → FC (LoadDelayedFiles w a').1) as HL.
    { intros a' [H1 H2]. unfold FC.
      destruct (LoadDelayedFiles_pointers w a') as (-> & -> & _). done. }
    assert (∀ a', FC a' → FC (AttachDebugger w a').1) as HA.
    { intros a' [H1 H2]. unfold FC.
      destruct (AttachDebugger_pointers w a') as (-> & -> & _). done. }
    destruct (m_Batch b); [|destruct (negb (IsEmpty (m_Script b)))].
    + unfold OnInit_batch. step_to_update HgB HXB.
      apply (hoare_bind _ _ _ (λ _, since t0 TrB FC)); [by apply since_update |].
      intros _. StartFacts.since_run HgB HXC; try done; try (by repeat constructor).
      intros a' Ha'. rewrite StartFacts.LoadDelayedFiles_wrapped. cbn [fst snd].
      split; [by apply Forall_true | by apply HL].
    + unfold OnInit_script.
      apply (hoare_bind _ _ _ (λ _, since t0 TrB FC)); [by apply since_update |].
      intros _. StartFacts.since_run HgB HXC; done.
    + unfold OnInit_interactive. step_to_update HgB HXB.
      apply (hoare_bind _ _ _ (λ _, since t0 TrB FC)); [by apply since_update |].
      intros _. StartFacts.since_run HgB HXC; try done.
      * intros a' Ha'. rewrite StartFacts.LoadDelayedFiles_wrapped. cbn [fst snd].
        split; [by apply Forall_true | by apply HL].
      * intros a' Ha'. rewrite StartFacts.AttachDebugger_wrapped. cbn [fst snd].
        split; [by apply Forall_true | by apply HA].
Qed.

End FrameFacts.

(** X16.  A start that succeeds has a main frame: when OnInit returns
    true, the frame was created during this call, m_Frame is set, and
    s_Loading has been reset, so that from then on OnDisconnect opens what
    is queued. *)
Theorem X16_started_means_frame (w : World) (s : Init.Sys) :
  (Init.OnInit w s).1 = Init.Normal true →
  ∃ evs,
    Init.trace (Init.OnInit w s).2 = Init.trace s ++ evs
    ∧ EvNewMainFrame ∈ evs
    ∧ m_Frame (Init.app (Init.OnInit w s).2) = true
    ∧ s_Loading (Init.app (Init.OnInit w s).2) = false.
Proof.
  intros Hret. pose proof (FrameFacts.started_with_frame w s) as H.
  destruct (Init.OnInit w s) as [o s'] eqn:E. specialize (H s o s' eq_refl E).
  cbn in Hret. subst o. destruct (H eq_refl) as [(evs & Ht & Hin) [Hf Hl]]. eauto.
Qed.

Lemma X16_started_means_frame_witness :
  ∃ evs,
    Init.trace (Init.OnInit Demo.plain_world Demo.start).2 = Init.trace Demo.start ++ evs
    ∧ EvNewMainFrame ∈ evs
    ∧ m_Frame (Init.app (Init.OnInit Demo.plain_world Demo.start).2) = true
    ∧ s_Loading (Init.app (Init.OnInit Demo.plain_world Demo.start).2) = false.
Proof. apply X16_started_means_frame. reflexivity. Defined.

Module SuccessFacts.

Import App Init Logic LogicFacts.

(** a statement that never lets control go on *)
Lemma hoare_dead {A B} (Pre : Sys → Prop) (m : M A) (k : A → M B)
    (Q : B → Sys → Prop) (R : bool → Sys → Prop) (X : Sys → Prop) :
  hoare Pre m (λ _ _, False) R X → hoare Pre (m ≫= k) Q R X.
Proof.
  intros Hm. apply (hoare_bind _ _ _ (λ _ _, False)); [done |].
  intros x. apply hoare_false.
Qed.

(** a fact about the application that does not change with it *)
Lemma since_fact {A} (φ : Prop) (t0 : list Event) (Tr : list Event → Prop)
    (F : CodeBlocksApp → Prop) (m : M A)
    (Q : A → Sys → Prop) (R : bool → Sys → Prop) (X : Sys → Prop) :
  (∀ a, F a → φ) → (φ → hoare (since t0 Tr F) m Q R X) → hoare (since t0 Tr F) m Q R X.
Proof. intros HF Hm s o s' Hs. apply Hm; [|done]. apply (HF (app s)), Hs. Qed.

Ltac run Hg HX := StartFacts.since_run Hg HX; FrameFacts.any_event.

(** --help ends OnInit before anything is configured *)
Lemma help_ends_start (w : World) (s0 : Sys) :
  Parse w EmptyString = ParseHelp →
  hoare (λ s, s = s0) (OnInit w)
    (λ b s, b = false
            ∧ since (trace s0)
                (Forall (λ e, Obs.is_CfgWrite e = false ∧ e ≠ EvNewMainFrame ∧ silent e))
                (λ _, True) s)
    (λ _ _, False) (λ _, True).
Proof.
  intros Hp.
  set (t0 := trace s0).
  set (P := λ e, Obs.is_CfgWrite e = false ∧ e ≠ EvNewMainFrame ∧ silent e).
  set (FA := λ _ : CodeBlocksApp, True).
  set (Post := λ (b : bool) s, b = false ∧ since t0 (Forall P) FA s).
  pose proof (grows_Forall P) as Hg.
  apply (hoare_weaken _ (since t0 (Forall P) FA)).
  { intros s ->. by apply since_start. }
  apply (hoare_OnInit w _ (since t0 (Forall P) FA) Post).
  - unfold OnInit_prologue. run Hg (λ s (_ : since t0 (Forall P) FA s), I).
  - assert (∀ F s, since t0 (Forall P) F s →
              ∀ e, Post false {| app := app s; trace := trace s ++ [catch_message e] |})
      as HX.
    { intros F s Hs e. split; [done |].
      apply (since_step t0 (Forall P) (Forall P) F FA s); [|done|done].
      intros evs H. apply Forall_app. split; [done |]. repeat constructor; by destruct e. }
    assert (∀ F s, since t0 (Forall P) F s → Post false s) as HR.
    { intros F s Hs. split; [done |]. revert Hs. by apply since_weaken. }
    unfold OnInit_try. apply hoare_dead. unfold OnInit_configure.
    do 3 FrameFacts.step Hg (HX FA).
    apply (hoare_bind _ _ _ (λ res, since t0 (Forall P) (λ _, res = (-1)%Z))).
    { apply (since_method_to Hg (HX FA)). intros a _.
      unfold ParseCmdLine. by rewrite Hp. }
    intros res. apply (since_fact (res = (-1)%Z)); [done |]. intros ->.
    cbn [Z.eqb Pos.eqb when]. apply hoare_dead.
    run Hg (HX (λ _ : CodeBlocksApp, (-1)%Z = (-1)%Z)). apply HR.
Qed.

(** what OnInit has checked when it returns true *)
Lemma success_needs (w : World) (c : CmdLine) (s0 : Sys) :
  Parse w EmptyString = Parsed c →
  hoare (λ s, s = s0) (OnInit w)
    (λ b _, b = true → Start.may_start w c (app s0))
    (λ _ _, False) (λ _, True).
Proof.
  intros Hp.
  set (t0 := trace s0). set (Tr := λ _ : list Event, True).
  set (ud := Found_into (opt_user_data_dir c) (m_UserDataDir (app s0))).
  set (sc := Found_into (opt_script c) (m_Script (app s0))).
  set (batch := sw_build c || sw_rebuild c || sw_clean c).
  set (C2 := ud ≠ EmptyString → SetUserDataFolder w ud = true).
  set (C5 := batch = false → sc = EmptyString → LoadResource w = true).
  set (C3 := sw_no_dde c = false → batch = false → cfg_use_ipc w = true →
             connection_established w = false).
  set (C4 := cfg_single_instance w = true → sw_multiple_instance c = false →
             IsAnotherRunning w = false).
  set (Fp := λ a, m_UserDataDir a = m_UserDataDir (app s0) ∧ m_Script a = m_Script (app s0)).
  set (F1 := λ a, m_UserDataDir a = ud ∧ m_Script a = sc
                  ∧ m_DDE a = negb (sw_no_dde c) ∧ m_Batch a = batch).
  set (Post := λ (b : bool) (_ : Sys), b = true → C2 ∧ C5 ∧ C3 ∧ C4).
  pose proof (grows_always (λ _, True) : grows Tr (λ _, True)) as Hg.
  assert (∀ F s, since t0 Tr F s →
            ∀ e, Post false {| app := app s; trace := trace s ++ [catch_message e] |})
    as HX by done.
  apply (hoare_weaken _ (since t0 Tr Fp)).
  { intros s ->. by apply since_start. }
  apply (hoare_OnInit w _ (since t0 Tr Fp) Post).
  { unfold OnInit_prologue. run Hg (λ s (_ : since t0 Tr Fp s), I). }
  unfold OnInit_try.
  (* the first pass, the configuration and the resources *)
  apply (hoare_bind _ _ _ (λ _, since t0 Tr (λ a, (C2 ∧ C5) ∧ F1 a))).
  { unfold OnInit_configure. do 3 FrameFacts.step Hg (HX Fp).
    apply (hoare_bind _ _ _ (λ _, since t0 Tr F1)).
    { apply (since_method_to Hg (HX Fp) _ _ _ (λ _, F1)). intros a [Hu Hs].
      split; [by apply Forall_true |].
      unfold ParseCmdLine. rewrite Hp. cbn [fst snd]. unfold F1. cbn. by rewrite Hu, Hs. }
    intros res. do 2 FrameFacts.step Hg (HX F1).
    apply (hoare_bind _ _ _ (λ ok, since t0 Tr (λ a, (ok = true → C2) ∧ F1 a))).
    { apply (since_method_to Hg (HX F1)). intros a Ha.
      rewrite StartFacts.LoadConfig_wrapped. cbn [fst snd].
      split; [by apply Forall_true |]. split; [|done].
      destruct Ha as (Hu & _). unfold LoadConfig. rewrite Hu. intros Hok Hne.
      apply IsEmpty_false in Hne. rewrite Hne in Hok.
      by destruct (SetUserDataFolder w ud). }
    intros ok. apply (since_fact (ok = true → C2)); [by intros a [? _] |]. intros HC2.
    apply (hoare_weaken _ (since t0 Tr F1)); [intros s; apply since_weaken; by intros a [_ ?] |].
    destruct ok; [|apply hoare_dead; cbn [negb when]; by apply hoare_return].
    specialize (HC2 eq_refl). FrameFacts.step Hg (HX F1).
    apply since_get_bind. intros a (_ & Hs & _ & Hb). FrameFacts.step Hg (HX F1).
    assert (C5 ∨ (negb (m_Batch a) && IsEmpty (m_Script a) = true ∧ LoadResource w = false))
      as [HC5 | [Hcond HLR]].
    { destruct (LoadResource w); [by left |]. rewrite Hb, Hs.
      destruct batch; [by left |]. destruct sc; [by right | by left]. }
    - FrameFacts.step Hg (HX F1).
      apply (hoare_post _ _ (λ _, since t0 Tr F1) _ Post Post
               (λ s, ∀ e, Post false {| app := app s; trace := trace s ++ [catch_message e] |})
               (λ s, ∀ e, Post false {| app := app s; trace := trace s ++ [catch_message e] |}));
        [run Hg (HX F1) | | done | done].
      intros _ s. apply since_weaken. by intros a' Ha'.
    - rewrite Hcond. cbn [when]. apply hoare_dead. unfold InitXRCStuff. rewrite HLR.
      apply (hoare_bind _ _ _ (λ loaded, since t0 Tr (λ _, loaded = false))).
      { apply (hoare_bind _ _ _ (λ _, since t0 Tr F1)); [apply (since_guard (HX F1)) |].
        intros _. apply (hoare_bind _ _ _ (λ _, since t0 Tr F1));
          [by apply (since_call_as Hg (HX F1)) |].
        intros _. apply hoare_ret. intros s. by apply since_weaken. }
      intros loaded. apply (since_fact (loaded = false)); [done |]. intros ->.
      cbn [negb when]. by apply hoare_return. }
  intros _. apply (since_fact (C2 ∧ C5)); [by intros a [? _] |]. intros [HC2 HC5].
  apply (hoare_weaken _ (since t0 Tr F1)); [intros s; apply since_weaken; by intros a [_ ?] |].
  (* the running instance, if any *)
  apply (hoare_bind _ _ _ (λ _, since t0 Tr (λ a, C3 ∧ F1 a))).
  { unfold OnInit_ipc. apply since_get_bind. intros a (_ & _ & Hd & Hb).
    destruct (connection_established w) eqn:Hconn.
    - destruct (m_DDE a && negb (m_Batch a) && cfg_use_ipc w) eqn:Hcond; cbn [when].
      + run Hg (HX F1).
      + apply hoare_ret. intros s. apply since_weaken. intros a' Ha'. split; [|done].
        intros H1 H2 H3. rewrite Hd, Hb, H1, H2, H3 in Hcond. done.
    - apply (hoare_post _ _ (λ _, since t0 Tr F1) _ Post Post
               (λ s, ∀ e, Post false {| app := app s; trace := trace s ++ [catch_message e] |})
               (λ s, ∀ e, Post false {| app := app s; trace := trace s ++ [catch_message e] |}));
        [run Hg (HX F1) | | done | done].
      intros _ s. apply since_weaken. by intros a' Ha'. }
  intros _. apply (since_fact C3); [by intros a [? _] |]. intros HC3.
  apply (hoare_weaken _ (since t0 Tr F1)); [intros s; apply since_weaken; by intros a [_ ?] |].
  (* the single-instance check *)
  apply (hoare_bind _ _ _ (λ _, since t0 Tr (λ a, C4 ∧ F1 a))).
  { unfold OnInit_single_instance, multiple_instance. rewrite Hp.
    destruct (IsAnotherRunning w) eqn:Hother.
    - destruct (cfg_single_instance w && negb (sw_multiple_instance c)) eqn:Hcond; cbn [when].
      + run Hg (HX F1).
      + apply hoare_ret. intros s. apply since_weaken. intros a' Ha'. split; [|done].
        intros H1 H2. rewrite H1, H2 in Hcond. done.
    - apply (hoare_post _ _ (λ _, since t0 Tr F1) _ Post Post
               (λ s, ∀ e, Post false {| app := app s; trace := trace s ++ [catch_message e] |})
               (λ s, ∀ e, Post false {| app := app s; trace := trace s ++ [catch_message e] |}));
        [run Hg (HX F1) | | done | done].
      intros _ s. apply since_weaken. by intros a' Ha'. }
  intros _. apply (since_fact C4); [by intros a [? _] |]. intros HC4.
  (* the rest of start-up *)
  apply (hoare_weaken _ (since t0 Tr (λ _, True))); [intros s; by apply since_weaken |].
  run Hg (HX (λ _ : CodeBlocksApp, True)).
Qed.

End SuccessFacts.

(** X17.  What a start that succeeds has passed.  When OnInit returns true
    the command line was parsed (it did not ask for the help text), and:
    the user data folder, if one is set, was accepted; unless this is a
    batch start or a script is to run, the resources were loaded; unless
    --no-dde or a batch switch was given or use_ipc is off, no running
    instance answered; and unless single_instance is off or
    --multiple-instance was given, no other instance is running. *)
Theorem X17_successful_start_conditions (w : World) (s : Init.Sys) :
  (Init.OnInit w s).1 = Init.Normal true →
  ∃ c, Parse w EmptyString = Parsed c ∧ Start.may_start w c (Init.app s).
Proof.
  intros Hret. destruct (Init.OnInit w s) as [o s'] eqn:E. cbn in Hret. subst o.
  destruct (Parse w EmptyString) as [|c] eqn:Hp.
  - by destruct (SuccessFacts.help_ends_start w s Hp s _ s' eq_refl E) as [? _].
  - exists c. split; [done |].
    by apply (SuccessFacts.success_needs w c s Hp s _ s' eq_refl E).
Qed.

Lemma X17_successful_start_conditions_witness :
  ∃ c, Parse Demo.plain_world EmptyString = Parsed c
       ∧ Start.may_start Demo.plain_world c (Init.app Demo.start).
Proof. apply X17_successful_start_conditions. reflexivity. Defined.

(** X18.  With --help (the parser asks for the usage text) OnInit, when it
    returns, returns false, and on the way it has written no configuration
    entry, created no main frame and made no call of the IPC client. *)
Theorem X18_help_ends_start (w : World) (s s' : Init.Sys) (b : bool) :
  Parse w EmptyString = ParseHelp →
  Init.OnInit w s = (Init.Normal b, s') →
  b = false
  ∧ ∃ evs,
      Init.trace s' = Init.trace s ++ evs
      ∧ Forall (λ e, Obs.is_CfgWrite e = false ∧ e ≠ EvNewMainFrame
                     ∧ Session.talks e = false) evs.
Proof.
  intros Hp E.
  destruct (SuccessFacts.help_ends_start w s Hp s _ s' eq_refl E) as [Hb [Ht _]].
  done.
Qed.

Lemma X18_help_ends_start_witness :
  let w := Demo.world ["codeblocks"; "--help"] ParseHelp "/home/u" false true Demo.quiet in
  (Init.OnInit w Demo.start).1 = Init.Normal false
  ∧ ∃ evs,
      Init.trace (Init.OnInit w Demo.start).2 = Init.trace Demo.start ++ evs
      ∧ Forall (λ e, Obs.is_CfgWrite e = false ∧ e ≠ EvNewMainFrame
                     ∧ Session.talks e = false) evs.
Proof.
  cbn zeta.
  destruct (X18_help_ends_start
              (Demo.world ["codeblocks"; "--help"] ParseHelp "/home/u" false true Demo.quiet)
              Demo.start
              (Init.OnInit
                 (Demo.world ["codeblocks"; "--help"] ParseHelp "/home/u" false true
                    Demo.quiet) Demo.start).2
              false eq_refl eq_refl) as [_ H].
  split; [reflexivity | exact H].
Defined.

Module OrderingFacts.

Import App Init Logic LogicFacts Frame.

Ltac early_list :=
  repeat first
    [ apply Forall_nil_2
    | apply Forall_cons_2; [vm_compute; reflexivity |]
    | apply Forall_app; split
    | progress case_match ].

Lemma first_pass_early (w : World) (a : CodeBlocksApp) :
  Forall (λ e, uses_frame e = false) (ParseCmdLine w false EmptyString EmptyString a).2.
Proof. unfold ParseCmdLine, log_setup. early_list. Qed.

Lemma LoadConfig_early (w : World) (a : CodeBlocksApp) :
  Forall (λ e, uses_frame e = false) (LoadConfig w a).2.
Proof. unfold LoadConfig. early_list. Qed.

Ltac early_side :=
  try done; try (by repeat constructor);
  try match goal with
      | |- context [if ?c then _ else _] => by destruct c
      end;
  try (intros ? ?; split; [by apply Forall_true | done]).

(** OnInit creates the main frame before it calls it. *)
Lemma frame_before_use (w : World) (s0 : Sys) :
  hoare (λ s, s = s0) (OnInit w)
    (λ _, since (trace s0) frame_first (λ _, True))
    (λ _ _, False)
    (since (trace s0) frame_first (λ _, True)).
Proof.
  set (t0 := trace s0).
  set (early := λ e, uses_frame e = false).
  set (TrA := Forall early).
  set (TrB := λ evs, ∃ pre post, evs = pre ++ EvNewMainFrame :: post ∧ Forall early pre).
  set (FA := λ _ : CodeBlocksApp, True).
  set (Post := λ (_ : bool), since t0 frame_first FA).
  set (Xt := λ s, ∀ e, Post false {| app := app s; trace := trace s ++ [catch_message e] |}).
  pose proof (grows_Forall early : grows TrA early) as HgA.
  assert (grows TrB (λ _, True)) as HgB.
  { intros evs new (pre & post & -> & Hpre) _. exists pre, (post ++ new).
    by rewrite <- app_assoc. }
  assert (∀ s, since t0 TrA FA s → since t0 frame_first FA s) as HRA.
  { intros s [(evs & Ht & HT) _]. split; [|done]. exists evs. split; [done |].
    exists evs, []. rewrite app_nil_r. auto. }
  assert (∀ s, since t0 TrB FA s → since t0 frame_first FA s) as HRB.
  { intros s [(evs & Ht & pre & post & -> & Hpre) _]. split; [|done].
    eexists. split; [done |]. exists pre, (EvNewMainFrame :: post). auto. }
  assert (∀ s, since t0 TrA FA s → Xt s) as HXA.
  { intros s Hs e. apply HRA.
    apply (since_step t0 TrA TrA FA FA s); [|done|done].
    intros evs H. apply HgA; [done |]. repeat constructor. by destruct e. }
  assert (∀ s, since t0 TrB FA s → Xt s) as HXB.
  { intros s Hs e. apply HRB.
    apply (since_step t0 TrB TrB FA FA s); [|done|done].
    intros evs H. apply HgB; [done | by apply Forall_true]. }
  apply (hoare_weaken _ (since t0 TrA FA)).
  { intros s ->. apply since_start; [apply Forall_nil_2 | done]. }
  apply (hoare_post _ _ Post Post (λ _ _, False) (λ _ _, False)
           (since t0 TrA FA) (since t0 frame_first FA)); [|done|done|exact HRA].
  apply (hoare_OnInit w _ (since t0 TrA FA) Post).
  - unfold OnInit_prologue.
    StartFacts.since_run HgA (λ s (H : since t0 TrA FA s), H); early_side.
  - fold Xt. unfold OnInit_try.
    apply since_bind.
    { StartFacts.since_run HgA HXA; early_side; try exact HRA.
      - intros a _. split; [apply first_pass_early | done].
      - intros a _. rewrite StartFacts.LoadConfig_wrapped.
        split; [apply LoadConfig_early | done]. }
    intros _. apply since_bind.
    { StartFacts.since_run HgA HXA; early_side; exact HRA. }
    intros _. apply since_bind.
    { StartFacts.since_run HgA HXA; early_side; exact HRA. }
    intros _. unfold OnInit_startup. apply since_get_bind. intros a _.
    do 6 (apply since_bind; [StartFacts.since_run HgA HXA; early_side | intros _]).
    apply (hoare_bind _ _ _ (λ _, since t0 TrB FA)).
    { unfold InitFrame. apply (hoare_bind _ _ _ (λ _, since t0 TrB FA)).
      - apply hoare_call_as; [|done]. intros s Hs.
        apply (since_step t0 TrA TrB FA FA s); [|done|done].
        intros evs H. by exists evs, [].
      - intros _. StartFacts.since_run HgB HXB; FrameFacts.any_event. }
    intros _. StartFacts.since_run HgB HXB; FrameFacts.any_event; exact HRB.
Qed.

End OrderingFacts.

(** X19.  The main frame is created before it is used.  However OnInit
    ends, the calls it has made split in two: a first part with no call
    through the frame (no file opened, no line visited, no call on the
    frame), and a second part that is empty or begins with the creation of
    the main frame.  In particular LoadDelayedFiles never runs on a frame
    that does not exist. *)
Theorem X19_frame_created_before_use (w : World) (s : Init.Sys) :
  ∃ pre post,
    Init.trace (Init.OnInit w s).2 = Init.trace s ++ pre ++ post
    ∧ Forall (λ e, Frame.uses_frame e = false) pre
    ∧ (post = [] ∨ head post = Some EvNewMainFrame).
Proof.
  pose proof (OrderingFacts.frame_before_use w s) as H.
  destruct (Init.OnInit w s) as [o s'] eqn:E. specialize (H s o s' eq_refl E).
  destruct o as [b|b|e]; cbn in H; [|done|];
    destruct H as [(evs & Ht & pre & post & -> & Hpre & Hpost) _]; eauto.
Qed.

(** X20.  A file the system hands to MacOpenFile while the application is
    loading is not opened then, and is opened by the next LoadDelayedFiles;
    once loading is over it is opened at once when the frame exists, and
    dropped when it does not. *)
Theorem X20_MacOpenFile (w : World) (fileName : string) (a : CodeBlocksApp) :
  (s_Loading a = true →
   (Frame.MacOpenFile fileName a).2 = []
   ∧ EvOpen fileName true ∈ (App.LoadDelayedFiles w (Frame.MacOpenFile fileName a).1).2)
  ∧ (s_Loading a = false →
     (Frame.MacOpenFile fileName a).1 = a
     ∧ (Frame.MacOpenFile fileName a).2
       = if m_Frame a then [EvOpen fileName true] else []).
Proof.
  unfold Frame.MacOpenFile. split; intros ->.
  - split; [done |]. cbn [fst]. rewrite DelayedFacts.LoadDelayedFiles_events.
    apply elem_of_app. left. apply list_elem_of_fmap. exists fileName. split; [done |].
    apply QueueFacts.set_iteration_elem. cbn. apply elem_of_app. right.
    apply list_elem_of_here.
  - by destruct (m_Frame a).
Qed.
